(** * Admission control, model routing and worker pipelines

    A shallow embedding of the governance core of the B2B workflow
    automation backend:

    - [app/services/budget.py]: [BudgetEnforcer] (rate limit, daily quotas,
      circuit breaker) and [estimate_cost];
    - [app/services/router.py]: [ModelRouter] with its fallback chain;
    - [app/workers/base.py], [app/workers/support_triage.py] and
      [app/workers/lead_qualify.py]: the two worker pipelines.

    Conventions.  Python functions that mutate shared state or raise are
    functions in the monad [M S] (state passing plus an exception result);
    the state written before an exception is raised is kept, as in Python.
    Floats (clock readings, prices, confidences) are exact rationals [Q];
    integers are [Z].  The Redis store, the two inference backends and the
    JSON / YAML decoders are external collaborators: the store is modelled
    with its expiry, the others are section variables. *)

From Stdlib Require Import ZArith QArith Qabs Lqa Qround Ascii String.
From stdpp Require Import gmap strings list.

Local Open Scope string_scope.
Local Open Scope Z_scope.

(** ** Python exceptions and the state-and-exception monad *)

Inductive exn : Type :=
| BudgetExceededError (limit_type : string)
| CircuitOpenError
| ValueError
| JSONDecodeError
| YAMLError
| AttributeError
| TypeError
| KeyError
| FileNotFoundError
| BackendError.

Inductive outcome (A : Type) : Type :=
| Ok (a : A)
| Raise (e : exn).
Arguments Ok {A} a.
Arguments Raise {A} e.

Definition M (S A : Type) : Type := S -> S * outcome A.

Definition ret {S A} (a : A) : M S A := fun s => (s, Ok a).
Definition raise {S A} (e : exn) : M S A := fun s => (s, Raise e).
Definition bind {S A B} (m : M S A) (k : A -> M S B) : M S B :=
  fun s => match m s with
           | (s', Ok a) => k a s'
           | (s', Raise e) => (s', Raise e)
           end.
Definition pure {S A} (r : outcome A) : M S A := fun s => (s, r).
Definition get_state {S} : M S S := fun s => (s, Ok s).
Definition modify {S} (f : S -> S) : M S unit := fun s => (f s, Ok tt).

(** [try: m except handles: h] *)
Definition try_except {S A} (m : M S A) (handles : exn -> bool) (h : exn -> M S A) : M S A :=
  fun s => match m s with
           | (s', Ok a) => (s', Ok a)
           | (s', Raise e) => if handles e then h e s' else (s', Raise e)
           end.

(** Run a computation on a component of a larger state. *)
Definition lift {S T A} (proj : T -> S) (upd : S -> T -> T) (m : M S A) : M T A :=
  fun t => let '(s', r) := m (proj t) in (upd s' t, r).

Declare Scope py_scope.
Delimit Scope py_scope with py.
Notation "'let!' x ':=' m 'in' k" := (bind m (fun x => k))
  (at level 10, x name, m at level 100, k at level 200) : py_scope.
Notation "'run!' m 'in' k" := (bind m (fun _ => k))
  (at level 10, m at level 100, k at level 200) : py_scope.
Local Open Scope py_scope.

Definition is_ok {A} (r : outcome A) : bool :=
  match r with Ok _ => true | Raise _ => false end.

(** ** Rational comparisons ([Q] stands for Python floats) *)

Definition Qlt_bool (x y : Q) : bool := negb (Qle_bool y x).

(** ** The Redis store

    Keys hold either a counter (the decimal text of an integer, kept as the
    integer) or the circuit hash; the key families [rate:], [budget:] and
    [circuit:] never overlap, so each has its own map.  Every entry may carry
    an absolute expiry time; an entry whose expiry has passed is invisible to
    reads and is replaced by a fresh one on the next write. *)

Record entry (V : Type) : Type := Entry { e_value : V; e_expire : option Q }.
Arguments Entry {V} e_value e_expire.
Arguments e_value {V} e.
Arguments e_expire {V} e.

(** The fields of [circuit:{tenant}]: [state], [failures], [opened_at]. *)
Record chash : Type := CHash {
  h_state : option string;
  h_failures : option Z;
  h_opened_at : option Q }.

Definition chash_empty : chash := CHash None None None.

Record redis : Type := Redis {
  r_strings : gmap string (entry Z);
  r_hashes : gmap string (entry chash) }.

Definition redis_empty : redis := Redis ∅ ∅.

Definition expired {V} (now : Q) (e : entry V) : bool :=
  match e_expire e with
  | None => false
  | Some t => Qlt_bool t now
  end.

Definition live_entry {V} (now : Q) (o : option (entry V)) : option (entry V) :=
  match o with
  | Some e => if expired now e then None else Some e
  | None => None
  end.

Module R.
Definition get (key : string) (now : Q) (r : redis) : option Z :=
  e_value <$> live_entry now (r_strings r !! key).

Definition incrby (key : string) (by_ : Z) (now : Q) (r : redis) : redis * Z :=
  let e' := match live_entry now (r_strings r !! key) with
            | Some e => Entry (e_value e + by_) (e_expire e)
            | None => Entry by_ None
            end in
  (Redis (<[key := e']> (r_strings r)) (r_hashes r), e_value e').

Definition expire (key : string) (seconds : Z) (now : Q) (r : redis) : redis :=
  let touch {V} (m : gmap string (entry V)) :=
    match live_entry now (m !! key) with
    | Some e => <[key := Entry (e_value e) (Some (now + inject_Z seconds)%Q)]> m
    | None => m
    end in
  Redis (touch (r_strings r)) (touch (r_hashes r)).

Definition hgetall (key : string) (now : Q) (r : redis) : chash :=
  match live_entry now (r_hashes r !! key) with
  | Some e => e_value e
  | None => chash_empty
  end.

Definition halter (f : chash -> chash) (key : string) (now : Q) (r : redis) : redis :=
  let e' := match live_entry now (r_hashes r !! key) with
            | Some e => Entry (f (e_value e)) (e_expire e)
            | None => Entry (f chash_empty) None
            end in
  Redis (r_strings r) (<[key := e']> (r_hashes r)).

Definition hincrby_failures (key : string) (by_ : Z) (now : Q) (r : redis) : redis * Z :=
  let n := default 0 (h_failures (hgetall key now r)) + by_ in
  (halter (fun h => CHash (h_state h) (Some n) (h_opened_at h)) key now r, n).

Definition hset_state (key : string) (v : string) (now : Q) (r : redis) : redis :=
  halter (fun h => CHash (Some v) (h_failures h) (h_opened_at h)) key now r.

Definition hset_state_opened_at (key : string) (v : string) (t : Q) (now : Q) (r : redis) : redis :=
  halter (fun h => CHash (Some v) (h_failures h) (Some t)) key now r.

Definition delete (key : string) (r : redis) : redis :=
  Redis (delete key (r_strings r)) (delete key (r_hashes r)).
End R.

(** ** [app/services/budget.py] *)

(** One reading of the wall clock: [time.time()], [date.today().isoformat()]
    and [datetime.utcnow().strftime("%Y%m%d%H%M")]. *)
Record clock : Type := Clock { now : Q; today : string; minute : string }.

Record BudgetEnforcer : Type := mkBudgetEnforcer {
  tenant_id : string;
  max_runs_per_day : Z;
  max_tokens_per_day : Z;
  max_items_per_minute : Z }.

Definition FAILURE_THRESHOLD : Z := 5.
Definition CIRCUIT_TIMEOUT : Z := 300.

Section Budget.
Variable self : BudgetEnforcer.
Variable clk : clock.

Definition _day_key (metric : string) : string :=
  "budget:" +:+ tenant_id self +:+ ":" +:+ metric +:+ ":" +:+ today clk.

Definition _minute_key : string :=
  "rate:" +:+ tenant_id self +:+ ":items:" +:+ minute clk.

Definition _circuit_key : string := "circuit:" +:+ tenant_id self.

(** [hgetall] of a missing hash is the empty dict, the only falsy one. *)
Definition not_data (data : chash) : bool :=
  match h_state data, h_failures data, h_opened_at data with
  | None, None, None => true
  | _, _, _ => false
  end.

Definition check_circuit_breaker : M redis unit :=
  let! r := get_state in
  let key := _circuit_key in
  let data := R.hgetall key (now clk) r in
  if not_data data then ret tt
  else
    let state := default "closed" (h_state data) in
    if String.eqb state "open" then
      let opened_at := default 0%Q (h_opened_at data) in
      if Qlt_bool (inject_Z CIRCUIT_TIMEOUT) (now clk - opened_at)%Q then
        run! modify (R.hset_state key "half-open" (now clk)) in
        ret tt
      else raise CircuitOpenError
    else ret tt.

Definition record_failure : M redis unit :=
  let key := _circuit_key in
  let! failures := (fun r => let '(r', n) := R.hincrby_failures key 1 (now clk) r in (r', Ok n)) in
  run! modify (R.expire key (CIRCUIT_TIMEOUT * 2) (now clk)) in
  if FAILURE_THRESHOLD <=? failures then
    modify (R.hset_state_opened_at key "open" (now clk) (now clk))
  else ret tt.

Definition record_success : M redis unit :=
  modify (R.delete _circuit_key).

Definition check_rate_limit : M redis unit :=
  let! r := get_state in
  let current := default 0 (R.get _minute_key (now clk) r) in
  if max_items_per_minute self <=? current then
    raise (BudgetExceededError "rate_limit")
  else ret tt.

Definition increment_rate : M redis unit :=
  let key := _minute_key in
  run! modify (fun r => fst (R.incrby key 1 (now clk) r)) in
  modify (R.expire key 120 (now clk)).

Definition check_daily_runs : M redis unit :=
  let! r := get_state in
  let current := default 0 (R.get (_day_key "runs") (now clk) r) in
  if max_runs_per_day self <=? current then
    raise (BudgetExceededError "daily_runs")
  else ret tt.

Definition increment_daily_runs : M redis unit :=
  let key := _day_key "runs" in
  run! modify (fun r => fst (R.incrby key 1 (now clk) r)) in
  modify (R.expire key (86400 * 2) (now clk)).

Definition check_daily_tokens (estimated_tokens : Z) : M redis unit :=
  let! r := get_state in
  let current := default 0 (R.get (_day_key "tokens") (now clk) r) in
  if max_tokens_per_day self <? current + estimated_tokens then
    raise (BudgetExceededError "daily_tokens")
  else ret tt.

Definition add_daily_tokens (tokens : Z) : M redis unit :=
  let key := _day_key "tokens" in
  run! modify (fun r => fst (R.incrby key tokens (now clk) r)) in
  modify (R.expire key (86400 * 2) (now clk)).

Definition check_all (estimated_tokens : Z) : M redis unit :=
  run! check_circuit_breaker in
  run! check_rate_limit in
  run! check_daily_runs in
  check_daily_tokens estimated_tokens.

(** The counters read by the three quota checks. *)
Definition count_this_minute (r : redis) : Z :=
  default 0 (R.get _minute_key (now clk) r).
Definition runs_today (r : redis) : Z :=
  default 0 (R.get (_day_key "runs") (now clk) r).
Definition tokens_today (r : redis) : Z :=
  default 0 (R.get (_day_key "tokens") (now clk) r).
End Budget.

(** The circuit as the breaker reads it at time [t]. *)
Definition circuit_at (self : BudgetEnforcer) (t : Q) (r : redis) : chash :=
  R.hgetall (_circuit_key self) t r.
Definition circuit_state (self : BudgetEnforcer) (t : Q) (r : redis) : string :=
  default "closed" (h_state (circuit_at self t r)).
Definition failure_count (self : BudgetEnforcer) (t : Q) (r : redis) : Z :=
  default 0 (h_failures (circuit_at self t r)).

(** *** [estimate_cost] *)

(** Pricing per 1M tokens: [(model, (input, output))]. *)
Definition pricing : list (string * (Q * Q)) :=
  [ ("local_7b", (0, 0)%Q);
    ("claude-sonnet-4-20250514", (3, 15)%Q);
    ("claude-haiku-4-5-20251001", (8 # 10, 4)%Q) ].

Fixpoint dict_get {V} (d : list (string * V)) (k : string) : option V :=
  match d with
  | [] => None
  | (k', v) :: d' => if String.eqb k' k then Some v else dict_get d' k
  end.

(** Python's [round(x, ndigits)]: to the nearest multiple of [10^-ndigits],
    ties to the even one. *)
Definition round_half_even (x : Q) : Z :=
  let f := Qfloor x in
  let r := (x - inject_Z f)%Q in
  if Qlt_bool r (1 # 2) then f
  else if Qlt_bool (1 # 2) r then f + 1
  else if Z.even f then f else f + 1.

Definition py_round (x : Q) (ndigits : N) : Q :=
  let scale := Z.pow 10 (Z.of_N ndigits) in
  Qred (inject_Z (round_half_even (x * inject_Z scale)) / inject_Z scale)%Q.

Definition estimate_cost (input_tokens output_tokens : Z) (model : string) : Q :=
  let rates := default (3, 15)%Q (dict_get pricing model) in
  let cost := ((inject_Z input_tokens * fst rates + inject_Z output_tokens * snd rates)
               / inject_Z 1000000)%Q in
  py_round cost 6.

(** ** Python values

    The values JSON can express, which is what [json.loads] and the YAML
    documents of the routing configuration produce, and what the attributes
    of a ticket or a lead hold once a step has assigned them. *)

Unset Elimination Schemes.
Inductive pyval : Type :=
| PNone
| PBool (b : bool)
| PInt (n : Z)
| PFloat (x : Q)
| PStr (s : string)
| PList (l : list pyval)
| PDict (d : list (string * pyval)).
Set Elimination Schemes.

Module Py.
(** [bool(v)] *)
Definition truthy (v : pyval) : bool :=
  match v with
  | PNone => false
  | PBool b => b
  | PInt n => negb (n =? 0)
  | PFloat x => negb (Qeq_bool x 0)
  | PStr s => negb (String.eqb s "")
  | PList l => match l with [] => false | _ => true end
  | PDict d => match d with [] => false | _ => true end
  end.

(** [a or b] *)
Definition or_ (a b : pyval) : pyval := if truthy a then a else b.

(** The numeric value of [bool], [int] and [float] operands. *)
Definition as_number (v : pyval) : option Q :=
  match v with
  | PBool b => Some (if b then 1 else 0)%Q
  | PInt n => Some (inject_Z n)
  | PFloat x => Some x
  | _ => None
  end.

Definition hashable (v : pyval) : bool :=
  match v with
  | PList _ | PDict _ => false
  | _ => true
  end.

Definition keys (d : list (string * pyval)) : list string := map fst d.

Definition subset_keys (d e : list (string * pyval)) : bool :=
  forallb (fun k => existsb (String.eqb k) (keys e)) (keys d).

(** [a == b] *)
Fixpoint eqb (a b : pyval) {struct a} : bool :=
  match as_number a, as_number b with
  | Some x, Some y => Qeq_bool x y
  | _, _ =>
      match a, b with
      | PNone, PNone => true
      | PStr s, PStr t => String.eqb s t
      | PList l, PList m =>
          (fix go (l m : list pyval) {struct l} : bool :=
             match l, m with
             | [], [] => true
             | x :: l', y :: m' => eqb x y && go l' m'
             | _, _ => false
             end) l m
      | PDict d, PDict e =>
          subset_keys e d &&
          (fix go (d : list (string * pyval)) : bool :=
             match d with
             | [] => true
             | (k, v) :: d' =>
                 match dict_get e k with
                 | Some w => eqb v w && go d'
                 | None => false
                 end
             end) d
      | _, _ => false
      end
  end.

(** [a < b]: numbers by value, strings by code point, lists
    lexicographically; any other pair raises [TypeError]. *)
Fixpoint lt (a b : pyval) {struct a} : outcome bool :=
  match as_number a, as_number b with
  | Some x, Some y => Ok (Qlt_bool x y)
  | _, _ =>
      match a, b with
      | PStr s, PStr t => Ok (String.ltb s t)
      | PList l, PList m =>
          (fix go (l m : list pyval) {struct l} : outcome bool :=
             match l, m with
             | [], [] => Ok false
             | [], _ :: _ => Ok true
             | _ :: _, [] => Ok false
             | x :: l', y :: m' => if eqb x y then go l' m' else lt x y
             end) l m
      | _, _ => Raise TypeError
      end
  end.

(** [a >= b] against a float. *)
Definition ge_float (a : pyval) (b : Q) : outcome bool :=
  match as_number a with
  | Some x => Ok (Qle_bool b x)
  | None => Raise TypeError
  end.

(** [a > b] against a float. *)
Definition gt_float (a : pyval) (b : Q) : outcome bool :=
  match as_number a with
  | Some x => Ok (Qlt_bool b x)
  | None => Raise TypeError
  end.

(** [o.get(key, dflt)]: only a dict has [get]; an unhashable key raises. *)
Definition get (o : pyval) (key : pyval) (dflt : pyval) : outcome pyval :=
  match o with
  | PDict d =>
      match key with
      | PStr k => Ok (default dflt (dict_get d k))
      | _ => if hashable key then Ok dflt else Raise TypeError
      end
  | _ => Raise AttributeError
  end.

Definition is_substring (s t : string) : bool :=
  match String.index 0 s t with Some _ => true | None => false end.

(** [item in container] *)
Definition contains (container item : pyval) : outcome bool :=
  match container with
  | PDict d =>
      match item with
      | PStr k => Ok (existsb (String.eqb k) (keys d))
      | _ => if hashable item then Ok false else Raise TypeError
      end
  | PList l => Ok (existsb (eqb item) l)
  | PStr t =>
      match item with
      | PStr s => Ok (is_substring s t)
      | _ => Raise TypeError
      end
  | _ => Raise TypeError
  end.

(** [container[key]] for a string key (a list or a string indexed by a
    string raises [TypeError]). *)
Definition getitem (container key : pyval) : outcome pyval :=
  match container with
  | PDict d =>
      match key with
      | PStr k => match dict_get d k with Some v => Ok v | None => Raise KeyError end
      | _ => if hashable key then Raise KeyError else Raise TypeError
      end
  | _ => Raise TypeError
  end.

Fixpoint chars (s : string) : list pyval :=
  match s with
  | EmptyString => []
  | String c s' => PStr (String c EmptyString) :: chars s'
  end.

(** [tags.extend(v)]: the elements of a list, the characters of a string,
    the keys of a dict. *)
Definition extend (tags : list pyval) (v : pyval) : outcome (list pyval) :=
  match v with
  | PList l => Ok (tags ++ l)%list
  | PStr s => Ok (tags ++ chars s)%list
  | PDict d => Ok (tags ++ map PStr (keys d))%list
  | _ => Raise TypeError
  end.

(** [len(v)] *)
Definition len (v : pyval) : outcome Z :=
  match v with
  | PStr s => Ok (Z.of_nat (String.length s))
  | PList l => Ok (Z.of_nat (length l))
  | PDict d => Ok (Z.of_nat (length d))
  | _ => Raise TypeError
  end.

(** [int(x)] of a float: truncation towards zero. *)
Definition int_of_float (x : Q) : Z :=
  if Qle_bool 0 x then Qfloor x else Qceiling x.

Definition is_space (c : ascii) : bool :=
  let n := nat_of_ascii c in
  ((9 <=? n) && (n <=? 13))%nat || (n =? 32)%nat || ((28 <=? n) && (n <=? 31))%nat.

(** [len(s.split())]: the number of maximal runs of non-blank characters. *)
Fixpoint count_words (in_word : bool) (s : string) : Z :=
  match s with
  | EmptyString => 0
  | String c s' =>
      if is_space c then count_words false s'
      else (if in_word then 0 else 1) + count_words true s'
  end.
Definition len_split (s : string) : Z := count_words false s.

(** [s.index(c)], [s.rindex(c)] ([ValueError] when absent) and [s[i:j]]. *)
Fixpoint find (c : ascii) (s : string) : option nat :=
  match s with
  | EmptyString => None
  | String c' s' => if Ascii.eqb c' c then Some 0%nat else S <$> find c s'
  end.

Fixpoint rfind (c : ascii) (s : string) : option nat :=
  match s with
  | EmptyString => None
  | String c' s' =>
      match rfind c s' with
      | Some i => Some (S i)
      | None => if Ascii.eqb c' c then Some 0%nat else None
      end
  end.

Definition index (c : ascii) (s : string) : outcome nat :=
  match find c s with Some i => Ok i | None => Raise ValueError end.
Definition rindex (c : ascii) (s : string) : outcome nat :=
  match rfind c s with Some i => Ok i | None => Raise ValueError end.

(** [s[i:j]] for non-negative [i], [j]. *)
Definition slice (s : string) (i j : nat) : string := String.substring i (j - i) s.

(** [s[:n]] *)
Definition take (n : nat) (s : string) : string := String.substring 0 n s.
End Py.

(** ** ORM objects and the world the workers run in

    A mapped object (a ticket, a lead, a run, an audit row) is its attribute
    dictionary: [obj.attr = v] is [setattr], reading an attribute that was
    never assigned yields [None].  [session.commit()] persists the object as
    it is and is not modelled further. *)

Abbreviation obj := (gmap string pyval).

Definition getattr (o : obj) (a : string) : pyval := default PNone (o !! a).
Definition setattr (a : string) (v : pyval) (o : obj) : obj := <[a := v]> o.

(** The tenant row; the workers only read it. *)
Record Tenant : Type := mkTenant {
  id : string;
  tenant_max_runs_per_day : Z;
  tenant_max_tokens_per_day : Z;
  tenant_max_items_per_minute : Z;
  anthropic_api_key_encrypted : option string;
  autosend_enabled : bool;
  confidence_threshold : Q;
  support_config_yaml : option string;
  slack_webhook_url : option string }.

(** An outbound inference request, as the backends see it. *)
Inductive call : Type :=
| LocalCall (prompt : string)
| CloudCall (model : string) (max_tokens : Z) (system_prompt prompt : string).

Record world : Type := World {
  w_redis : redis;
  w_calls : list call;          (* requests sent so far, latest first *)
  w_run : option obj;           (* the row of this run id, if any *)
  w_audit : list obj;           (* audit rows, latest first *)
  w_ticket : option obj;        (* the row of this ticket id, if any *)
  w_lead : option obj }.        (* the row of this lead id, if any *)

Definition with_redis (r : redis) (w : world) : world :=
  World r (w_calls w) (w_run w) (w_audit w) (w_ticket w) (w_lead w).

Definition on_redis {A} (m : M redis A) : M world A := lift w_redis with_redis m.

Definition log_call (c : call) : M world unit :=
  modify (fun w => World (w_redis w) (c :: w_calls w) (w_run w) (w_audit w) (w_ticket w) (w_lead w)).

(** ** [app/services/router.py] *)

(** The settings the router reads ([app/config.py]). *)
Record Settings : Type := mkSettings {
  local_model_enabled : bool;
  platform_key_mode : bool;
  platform_anthropic_key : string }.

Record ModelRouter : Type := mkModelRouter {
  router_tenant_id : string;
  budget : option BudgetEnforcer;
  _anthropic_key : option string }.

(** The JSON body of the local server: [content] or [text], and
    [tokens_predicted]; [lr_elapsed] is the time the request took. *)
Record local_reply : Type := mkLocalReply {
  lr_content : option string;
  lr_text : option string;
  lr_tokens_predicted : option Z;
  lr_elapsed : Q }.

(** What the router reads of a cloud response. *)
Record cloud_response : Type := mkCloudResponse {
  cr_text : string;
  cr_input_tokens : Z;
  cr_output_tokens : Z;
  cr_elapsed : Q }.

(** The dict every routed call returns. *)
Record result : Type := mkResult {
  content : string;
  model : string;
  input_tokens : option Z;
  output_tokens : option Z;
  tokens : Z;
  cost : Q;
  duration : Q;
  task_type : option string;
  template_id : option string }.

Definition LOCAL_TASKS : list string := ["classify"; "extract"; "summarize"; "spam_check"].
Definition CLAUDE_TASKS : list string :=
  ["draft_reply"; "qualify_lead"; "generate_questions"; "complex_reasoning"].

Definition in_tasks (task : string) (tasks : list string) : bool :=
  existsb (String.eqb task) tasks.

(** Truthiness of an optional string (the API key, a config document). *)
Definition str_truthy (o : option string) : bool :=
  match o with
  | Some s => negb (String.eqb s "")
  | None => false
  end.

Definition dq : string := String (ascii_of_nat 34) EmptyString.
Definition quoted (s : string) : string := dq +:+ s +:+ dq.

(** [json.dumps] of the safe default classification. *)
Definition fallback_default_content : string :=
  "{" +:+ quoted "category" +:+ ": " +:+ quoted "general" +:+ ", "
      +:+ quoted "priority" +:+ ": " +:+ quoted "medium" +:+ ", "
      +:+ quoted "sentiment" +:+ ": " +:+ quoted "neutral" +:+ ", "
      +:+ quoted "suggested_team" +:+ ": " +:+ quoted "general" +:+ ", "
      +:+ quoted "needs_human" +:+ ": true, "
      +:+ quoted "confidence" +:+ ": 0.0}".

Definition fallback_default_result : result :=
  mkResult fallback_default_content "fallback_default" None None 0 0 0 None None.

Section Router.
Variable settings : Settings.
(** [decrypt_value]: [None] when decryption raises. *)
Variable decrypt_value : string -> option string.
(** The local llama.cpp server and the Anthropic API, answering the n-th
    request of the run; [None] is any failure of the call (connection,
    timeout, HTTP status, unreadable body). *)
Variable local_backend : nat -> string -> option local_reply.
Variable cloud_backend : nat -> string -> Z -> string -> string -> option cloud_response.
(** The prompt directory and [str.format]. *)
Variable prompt_files : string -> option string.
Variable format_template : string -> list (string * pyval) -> outcome string.
Variable clk : clock.

Definition ModelRouter_init (tenant : string) (anthropic_key_encrypted : option string)
    (b : option BudgetEnforcer) : ModelRouter :=
  let key :=
    if str_truthy anthropic_key_encrypted
    then match anthropic_key_encrypted with
         | Some c => decrypt_value c
         | None => None
         end
    else None in
  let key :=
    if negb (str_truthy key) && platform_key_mode settings
    then Some (platform_anthropic_key settings)
    else key in
  mkModelRouter tenant b key.

Definition load_prompt_template (tid : string) : M world string :=
  match prompt_files (tid +:+ ".txt") with
  | Some text => ret text
  | None => raise FileNotFoundError
  end.

Variable self : ModelRouter.

Definition with_budget (f : BudgetEnforcer -> M redis unit) : M world unit :=
  match budget self with
  | Some b => on_redis (f b)
  | None => ret tt
  end.

Definition call_claude (prompt task : string) (system_prompt : string)
    (model_ : string) (max_tokens : Z) : M world result :=
  if negb (str_truthy (_anthropic_key self)) then raise ValueError
  else
    let estimated_input := (inject_Z (Py.len_split prompt) * (13 # 10))%Q in
    run! with_budget (fun b =>
           check_daily_tokens b clk
             (Py.int_of_float (estimated_input + inject_Z max_tokens)%Q)) in
    try_except
      (let! w := get_state in
       run! log_call (CloudCall model_ max_tokens system_prompt prompt) in
       match cloud_backend (length (w_calls w)) model_ max_tokens system_prompt prompt with
       | None => raise BackendError
       | Some response =>
           let input_tokens := cr_input_tokens response in
           let output_tokens := cr_output_tokens response in
           let cost := estimate_cost input_tokens output_tokens model_ in
           run! with_budget (fun b =>
                  run! add_daily_tokens b clk (input_tokens + output_tokens) in
                  record_success b) in
           ret (mkResult (cr_text response) model_ (Some input_tokens) (Some output_tokens)
                         (input_tokens + output_tokens) cost
                         (py_round (cr_elapsed response) 3) None None)
       end)
      (fun _ => true)
      (fun e => run! with_budget (fun b => record_failure b clk) in raise e).

Definition _local_model_fallback (prompt task : string) : M world result :=
  if str_truthy (_anthropic_key self) then
    call_claude prompt task "" "claude-haiku-4-5-20251001" 256
  else ret fallback_default_result.

Definition call_local_model (prompt task : string) : M world result :=
  if negb (local_model_enabled settings) then _local_model_fallback prompt task
  else
    try_except
      (let! w := get_state in
       run! log_call (LocalCall prompt) in
       match local_backend (length (w_calls w)) prompt with
       | None => raise BackendError
       | Some data =>
           let content := default (default "" (lr_text data)) (lr_content data) in
           let tokens_used := default (Py.len_split content) (lr_tokens_predicted data) in
           run! with_budget (fun b => add_daily_tokens b clk tokens_used) in
           ret (mkResult content "local_7b" None None tokens_used 0
                         (py_round (lr_elapsed data) 3) None None)
       end)
      (fun _ => true)
      (fun _ => _local_model_fallback prompt task).

Definition route (prompt task : string) (tid : option string)
    (template_vars : option (list (string * pyval)))
    (system_prompt : string) (max_tokens : Z) : M world result :=
  let! prompt :=
    (if str_truthy tid then
       match tid with
       | Some t =>
           let! template := load_prompt_template t in
           pure (format_template template (default [] template_vars))
       | None => ret prompt
       end
     else ret prompt) in
  run! with_budget (fun b => check_all b clk max_tokens) in
  let! res :=
    (if in_tasks task LOCAL_TASKS then call_local_model prompt task
     else if in_tasks task CLAUDE_TASKS then
       call_claude prompt task system_prompt "claude-sonnet-4-20250514" max_tokens
     else
       call_claude prompt task system_prompt "claude-sonnet-4-20250514" max_tokens) in
  ret (mkResult (content res) (model res) (input_tokens res) (output_tokens res)
                (tokens res) (cost res) (duration res) (Some task) tid).
End Router.

(** ** [app/workers/base.py] *)

Definition set_run (o : option obj) (w : world) : world :=
  World (w_redis w) (w_calls w) o (w_audit w) (w_ticket w) (w_lead w).
Definition add_audit (row : obj) (w : world) : world :=
  World (w_redis w) (w_calls w) (w_run w) (row :: w_audit w) (w_ticket w) (w_lead w).
Definition set_ticket (o : option obj) (w : world) : world :=
  World (w_redis w) (w_calls w) (w_run w) (w_audit w) o (w_lead w).
Definition set_lead (o : option obj) (w : world) : world :=
  World (w_redis w) (w_calls w) (w_run w) (w_audit w) (w_ticket w) o.

(** Run a step on the loaded ticket (lead); the row exists once loaded. *)
Definition on_ticket {A} (m : M obj A) : M world A :=
  lift (fun w => default ∅ (w_ticket w))
       (fun t w => match w_ticket w with Some _ => set_ticket (Some t) w | None => w end) m.
Definition on_lead {A} (m : M obj A) : M world A :=
  lift (fun w => default ∅ (w_lead w))
       (fun l w => match w_lead w with Some _ => set_lead (Some l) w | None => w end) m.

(** The mapped columns of [Run]: what [hasattr(run, k)] accepts. *)
Definition Run_columns : list string :=
  ["id"; "tenant_id"; "workflow"; "status"; "error_message"; "ticket_id"; "lead_id";
   "local_model_calls"; "local_model_tokens"; "claude_calls"; "claude_input_tokens";
   "claude_output_tokens"; "estimated_cost_usd"; "steps_completed"; "current_step";
   "started_at"; "completed_at"; "duration_seconds"; "created_at"].

Definition hasattr_run (k : string) : bool := existsb (String.eqb k) Run_columns.

Definition update_run_status (status : string) (kwargs : list (string * pyval)) : M world unit :=
  modify (fun w =>
    match w_run w with
    | Some run =>
        let run := setattr "status" (PStr status) run in
        let run := fold_left (fun r kv => if hasattr_run (fst kv) then setattr (fst kv) (snd kv) r else r)
                             kwargs run in
        set_run (Some run) w
    | None => w
    end).

(** The parameters of [create_audit_entry] after [session], [tenant_id] and
    [run_id]; the first three have no default. *)
Definition create_audit_entry_required : list string := ["action"; "workflow"; "step"].
Definition create_audit_entry_optional : list string :=
  ["model_used"; "prompt_template_id"; "input_tokens"; "output_tokens";
   "estimated_cost_usd"; "input_summary"; "output_summary"; "reason_code"; "extra_data"].

(** [summary[:500] if summary else None] *)
Definition cap_summary (v : pyval) : pyval :=
  match v with
  | PStr s => if Py.truthy v then PStr (Py.take 500 s) else PNone
  | _ => PNone
  end.

(** A call with keyword arguments [kwargs]: binding an unknown keyword or
    leaving a required parameter unbound raises [TypeError] before the body
    runs. *)
Definition create_audit_entry (tenant run_id : string) (kwargs : list (string * pyval))
    : M world unit :=
  let known k := existsb (String.eqb k) (create_audit_entry_required ++ create_audit_entry_optional)%list in
  let bound k := existsb (String.eqb k) (Py.keys kwargs) in
  if forallb known (Py.keys kwargs) && forallb bound create_audit_entry_required then
    let arg k := default PNone (dict_get kwargs k) in
    let entry : obj :=
      list_to_map
        [ ("tenant_id", PStr tenant); ("run_id", PStr run_id);
          ("action", arg "action"); ("workflow", arg "workflow"); ("step", arg "step");
          ("model_used", arg "model_used");
          ("prompt_template_id", arg "prompt_template_id");
          ("input_tokens", arg "input_tokens"); ("output_tokens", arg "output_tokens");
          ("estimated_cost_usd", arg "estimated_cost_usd");
          ("input_summary", cap_summary (arg "input_summary"));
          ("output_summary", cap_summary (arg "output_summary"));
          ("reason_code", arg "reason_code"); ("extra_data", arg "extra_data");
          ("actor", PStr "worker") ] in
    modify (add_audit entry)
  else raise TypeError.

Definition create_model_router (settings : Settings) (decrypt_value : string -> option string)
    (tenant : Tenant) : ModelRouter :=
  let b := mkBudgetEnforcer (id tenant) (tenant_max_runs_per_day tenant)
             (tenant_max_tokens_per_day tenant) (tenant_max_items_per_minute tenant) in
  ModelRouter_init settings decrypt_value (id tenant) (anthropic_api_key_encrypted tenant) (Some b).

(** [str(e)] for the error message of a failed run. *)
Definition exn_message (e : exn) : string :=
  match e with
  | BudgetExceededError k => "budget exceeded: " +:+ k
  | CircuitOpenError => "circuit breaker open"
  | ValueError => "ValueError"
  | JSONDecodeError => "JSONDecodeError"
  | YAMLError => "YAMLError"
  | AttributeError => "AttributeError"
  | TypeError => "TypeError"
  | KeyError => "KeyError"
  | FileNotFoundError => "FileNotFoundError"
  | BackendError => "BackendError"
  end.

Definition opt_int (o : option Z) : pyval :=
  match o with Some n => PInt n | None => PNone end.
Definition opt_str (o : option string) : pyval :=
  match o with Some s => PStr s | None => PNone end.

(** ** Parsing model output (shared by the applying steps)

    [if "{" in content: json.loads(content[content.index("{"):content.rindex("}") + 1])]:
    [Ok (Some data)] is the decoded value, [Ok None] the branch without a
    brace; [ValueError] and [JSONDecodeError] are what the source lets
    [rindex] and [json.loads] raise. *)

Definition open_brace : ascii := ascii_of_nat 123.
Definition close_brace : ascii := ascii_of_nat 125.

Definition has_brace (s : string) : bool :=
  match Py.find open_brace s with Some _ => true | None => false end.

Definition parse_braced {S} (json_loads : string -> option pyval) (s : string)
    : M S (option pyval) :=
  if has_brace s then
    let! i := pure (Py.index open_brace s) in
    let! j := pure (Py.rindex close_brace s) in
    let json_str := Py.slice s i (j + 1) in
    match json_loads json_str with
    | Some data => ret (Some data)
    | None => raise JSONDecodeError
    end
  else ret None.

(** [except (json.JSONDecodeError, ValueError)] *)
Definition decode_errors (e : exn) : bool :=
  match e with
  | JSONDecodeError | ValueError => true
  | _ => false
  end.

(** [obj.attr = data.get(key, dflt)] *)
Definition assign_get {S} (set : pyval -> S -> S) (data : pyval) (key : string) (dflt : pyval)
    : M S unit :=
  let! v := pure (Py.get data (PStr key) dflt) in
  modify (set v).

Section Workers.
Variable settings : Settings.
Variable decrypt_value : string -> option string.
Variable local_backend : nat -> string -> option local_reply.
Variable cloud_backend : nat -> string -> Z -> string -> string -> option cloud_response.
Variable prompt_files : string -> option string.
Variable format_template : string -> list (string * pyval) -> outcome string.
Variable clk : clock.
(** [json.loads] and [yaml.safe_load]: [None] when the decoder raises
    [JSONDecodeError] ([YAMLError]). *)
Variable json_loads : string -> option pyval.
Variable yaml_safe_load : string -> option pyval.
(** [str(v)], used by the f-strings of the audit summaries. *)
Variable py_str : pyval -> string.
(** The prompt texts built from the record (their wording is not modelled). *)
Variable classify_prompt draft_prompt extract_prompt qualify_prompt email_drafts_prompt
  : obj -> string.
Variable draft_system_prompt qualify_system_prompt : string.
(** The Slack and CRM adapters. *)
Variable _notify_slack : Tenant -> obj -> outcome unit.
Variable crm_is_configured : Tenant -> bool.
Variable crm_create_contact : obj -> pyval.
Variable crm_create_deal : obj -> pyval -> pyval.
(** [time.time() - start_time] when the run is finalised. *)
Variable elapsed : Q.

Let route_ (router : ModelRouter) :=
  route settings local_backend cloud_backend prompt_files format_template clk router.

(** *** [app/workers/support_triage.py] *)

Definition _classify_ticket (router : ModelRouter) (ticket : obj) : M world result :=
  route_ router (classify_prompt ticket) "classify" None None "" 1024.

Definition _draft_reply (router : ModelRouter) (ticket : obj) : M world result :=
  route_ router (draft_prompt ticket) "draft_reply" None None draft_system_prompt 1024.

Definition classification_defaults : M obj unit :=
  run! modify (setattr "category" (PStr "general")) in
  run! modify (setattr "priority" (PStr "medium")) in
  run! modify (setattr "needs_human" (PBool true)) in
  modify (setattr "classification_confidence" (PFloat 0)).

Definition _apply_classification (res : result) : M obj unit :=
  try_except
    (let content := content res in
     let! parsed := parse_braced json_loads content in
     match parsed with
     | Some data =>
         run! assign_get (setattr "category") data "category" (PStr "general") in
         run! assign_get (setattr "priority") data "priority" (PStr "medium") in
         run! assign_get (setattr "sentiment") data "sentiment" (PStr "neutral") in
         run! assign_get (setattr "suggested_team") data "suggested_team" (PStr "support") in
         run! assign_get (setattr "needs_human") data "needs_human" (PBool true) in
         run! assign_get (setattr "classification_confidence") data "confidence" (PFloat (1 # 2)) in
         modify (setattr "classification_raw" data)
     | None => classification_defaults
     end)
    decode_errors
    (fun _ => classification_defaults).

Definition draft_defaults (res : result) : M obj unit :=
  run! modify (setattr "draft_reply" (PStr (content res))) in
  modify (setattr "recommended_action" (PStr "respond")).

Definition _apply_draft (res : result) : M obj unit :=
  try_except
    (let content := content res in
     let! parsed := parse_braced json_loads content in
     match parsed with
     | Some data =>
         run! assign_get (setattr "draft_reply") data "draft_reply" (PStr content) in
         run! assign_get (setattr "internal_notes") data "internal_notes" (PStr "") in
         run! assign_get (setattr "recommended_action") data "recommended_action" (PStr "respond") in
         assign_get (setattr "follow_up_questions") data "follow_up_questions" (PList [])
     | None => draft_defaults res
     end)
    decode_errors
    (fun _ => draft_defaults res).

Definition _apply_routing_rules (tenant : Tenant) : M obj unit :=
  let config :=
    if str_truthy (support_config_yaml tenant) then
      match yaml_safe_load (default "" (support_config_yaml tenant)) with
      | Some v => Py.or_ v (PDict [])
      | None => PDict []
      end
    else PDict [] in
  let! routing := pure (Py.get config (PStr "routing") (PDict [])) in
  (* Team assignment *)
  let! team_map := pure (Py.get routing (PStr "team_map") (PDict [])) in
  let! ticket := get_state in
  let category := getattr ticket "category" in
  let! mapped := (if Py.truthy category then pure (Py.contains team_map category)
                  else ret false) in
  run! (if mapped then
          let! team := pure (Py.getitem team_map category) in
          modify (setattr "assigned_team" team)
        else
          modify (setattr "assigned_team"
                    (Py.or_ (getattr ticket "suggested_team") (PStr "support")))) in
  (* Tags from config *)
  let! auto_tags := pure (Py.get routing (PStr "auto_tags") (PDict [])) in
  let tags : list pyval := [] in
  let! by_priority := pure (Py.get auto_tags (PStr "priority") (PDict [])) in
  let! hit := pure (Py.contains by_priority (getattr ticket "priority")) in
  let! tags := (if hit then
                  let! m := pure (Py.getitem auto_tags (PStr "priority")) in
                  let! v := pure (Py.getitem m (getattr ticket "priority")) in
                  pure (Py.extend tags v)
                else ret tags) in
  let! by_sentiment := pure (Py.get auto_tags (PStr "sentiment") (PDict [])) in
  let! hit := pure (Py.contains by_sentiment (getattr ticket "sentiment")) in
  let! tags := (if hit then
                  let! m := pure (Py.getitem auto_tags (PStr "sentiment")) in
                  let! v := pure (Py.getitem m (getattr ticket "sentiment")) in
                  pure (Py.extend tags v)
                else ret tags) in
  run! modify (setattr "tags" (PList tags)) in
  (* SLA timer *)
  let! sla_hours := pure (Py.get routing (PStr "sla_hours") (PDict [])) in
  let! hours := pure (Py.get sla_hours (Py.or_ (getattr ticket "priority") (PStr "medium"))
                             (PInt 24)) in
  let! h := (match Py.as_number hours with
             | Some h => ret h
             | None => raise TypeError
             end) in
  run! modify (setattr "sla_due_at" (PFloat (now clk + h * 3600)%Q)) in
  (* Escalation rules *)
  let! escalate_threshold :=
    pure (Py.get routing (PStr "escalate_confidence_below") (PFloat (1 # 2))) in
  let! low := pure (Py.lt (Py.or_ (getattr ticket "classification_confidence") (PInt 0))
                          escalate_threshold) in
  if low then
    run! modify (setattr "needs_human" (PBool true)) in
    run! modify (setattr "status" (PStr "escalated")) in
    modify (setattr "tags" (PList (tags ++ [PStr "auto-escalated"])%list))
  else ret tt.

Variable tenants : string -> option Tenant.

Definition load_tenant (tenant : string) : M world Tenant :=
  match tenants tenant with
  | Some t => ret t
  | None => raise ValueError
  end.

Definition step_record (step : string) (res : result) : pyval :=
  PDict [("step", PStr step); ("model", PStr (model res)); ("tokens", PInt (tokens res))].

Definition model_audit (action workflow step template : string) (res : result)
    (input_summary output_summary : string) (reason : pyval) : list (string * pyval) :=
  [ ("action", PStr action); ("workflow", PStr workflow); ("step", PStr step);
    ("model_used", PStr (model res)); ("prompt_template_id", PStr template);
    ("input_tokens", opt_int (input_tokens res));
    ("output_tokens", opt_int (output_tokens res));
    ("estimated_cost_usd", PFloat (cost res));
    ("input_summary", PStr input_summary); ("output_summary", PStr output_summary);
    ("reason_code", reason) ].

(** [except Exception as e: ... raise] of both workers. *)
Definition fail_run (tenant run_id workflow : string) (e : exn) : M world unit :=
  run! update_run_status "failed"
         [ ("error_message", PStr (Py.take 1000 (exn_message e)));
           ("completed_at", PFloat (now clk));
           ("duration_seconds", PFloat (py_round elapsed 3)) ] in
  run! create_audit_entry tenant run_id
         [ ("action", PStr "error"); ("workflow", PStr workflow); ("step", PStr "pipeline");
           ("reason_code", PStr "pipeline_error");
           ("output_summary", PStr (Py.take 500 (exn_message e))) ] in
  raise e.

(** Step 5 of the support pipeline: the auto-send condition
    [tenant.autosend_enabled and confidence and confidence >= threshold
     and not needs_human]. *)
Definition autosend_condition (tenant : Tenant) (ticket : obj) : outcome bool :=
  if negb (autosend_enabled tenant) then Ok false
  else if negb (Py.truthy (getattr ticket "classification_confidence")) then Ok false
  else
    match Py.ge_float (getattr ticket "classification_confidence")
                      (confidence_threshold tenant) with
    | Ok true => Ok (negb (Py.truthy (getattr ticket "needs_human")))
    | Ok false => Ok false
    | Raise e => Raise e
    end.

Definition autosend_check (tenant : Tenant) (run_id : string) : M world bool :=
  let! w := get_state in
  let ticket := default ∅ (w_ticket w) in
  let! send := pure (autosend_condition tenant ticket) in
  if send then
    run! update_run_status "running" [("current_step", PStr "autosend")] in
    run! on_ticket (modify (setattr "reply_sent" (PBool true))) in
    run! on_ticket (modify (setattr "status" (PStr "sent"))) in
    run! create_audit_entry (id tenant) run_id
           [ ("action", PStr "email_sent"); ("workflow", PStr "support_triage");
             ("step", PStr "autosend"); ("reason_code", PStr "confidence_above_threshold");
             ("metadata", PDict [("confidence", getattr ticket "classification_confidence")]) ] in
    ret true
  else
    run! on_ticket (modify (setattr "status" (PStr "draft_ready"))) in
    ret false.

Definition process_support_ticket (tenant_id ticket_id run_id : string) : M world unit :=
  try_except
    (run! update_run_status "running"
            [("started_at", PFloat (now clk)); ("current_step", PStr "init")] in
     let! tenant := load_tenant tenant_id in
     let! w := get_state in
     match w_ticket w with
     | None => raise ValueError
     | Some _ =>
         let router := create_model_router settings decrypt_value tenant in
         let steps_completed : list pyval := [] in
         (* Step 1: classify with the local model *)
         run! update_run_status "running" [("current_step", PStr "classify")] in
         run! on_ticket (modify (setattr "status" (PStr "processing"))) in
         let! ticket := on_ticket get_state in
         let! classify_result := _classify_ticket router ticket in
         run! on_ticket (_apply_classification classify_result) in
         let steps_completed := (steps_completed ++ [step_record "classify" classify_result])%list in
         let! ticket := on_ticket get_state in
         run! create_audit_entry tenant_id run_id
                (model_audit "classified" "support_triage" "classify" "support_classify_v1"
                   classify_result
                   ("Subject: " +:+ py_str (getattr ticket "subject"))
                   ("Cat: " +:+ py_str (getattr ticket "category") +:+
                    ", Pri: " +:+ py_str (getattr ticket "priority") +:+
                    ", Sent: " +:+ py_str (getattr ticket "sentiment"))
                   (PStr "auto_classify")) in
         (* Step 2: draft a reply with the cloud model *)
         run! update_run_status "running" [("current_step", PStr "draft")] in
         let! draft_result := _draft_reply router ticket in
         run! on_ticket (_apply_draft draft_result) in
         let steps_completed := (steps_completed ++ [step_record "draft" draft_result])%list in
         let! ticket := on_ticket get_state in
         let! body_len := pure (Py.len (getattr ticket "body")) in
         let! draft_len := pure (Py.len (Py.or_ (getattr ticket "draft_reply") (PStr ""))) in
         run! create_audit_entry tenant_id run_id
                (model_audit "draft_generated" "support_triage" "draft" "support_draft_v1"
                   draft_result
                   ("Ticket body length: " +:+ py_str (PInt body_len) +:+ " chars")
                   ("Draft length: " +:+ py_str (PInt draft_len) +:+ " chars")
                   (PStr "auto_draft")) in
         (* Step 3: routing rules *)
         run! update_run_status "running" [("current_step", PStr "route")] in
         run! on_ticket (_apply_routing_rules tenant) in
         let steps_completed :=
           (steps_completed ++ [PDict [("step", PStr "route"); ("model", PNone); ("tokens", PInt 0)]])%list in
         (* Step 4: notify *)
         run! update_run_status "running" [("current_step", PStr "notify")] in
         let! ticket := on_ticket get_state in
         run! (if str_truthy (slack_webhook_url tenant)
               then pure (_notify_slack tenant ticket) else ret tt) in
         let steps_completed :=
           (steps_completed ++ [PDict [("step", PStr "notify"); ("model", PNone); ("tokens", PInt 0)]])%list in
         (* Step 5: auto-send check *)
         let! auto_sent := autosend_check tenant run_id in
         let steps_completed :=
           (steps_completed ++ [PDict [("step", PStr "autosend_check"); ("auto_sent", PBool auto_sent)]])%list in
         (* Finalize *)
         update_run_status "completed"
           [ ("completed_at", PFloat (now clk));
             ("duration_seconds", PFloat (py_round elapsed 3));
             ("steps_completed", PList steps_completed);
             ("current_step", PStr "done");
             ("ticket_id", PStr ticket_id) ]
     end)
    (fun _ => true)
    (fail_run tenant_id run_id "support_triage").

(** *** [app/workers/lead_qualify.py] *)

Definition _extract_lead_info (router : ModelRouter) (lead : obj) : M world result :=
  route_ router (extract_prompt lead) "extract" None None "" 1024.

Definition _qualify_lead (router : ModelRouter) (lead : obj) : M world result :=
  route_ router (qualify_prompt lead) "qualify_lead" None None qualify_system_prompt 768.

Definition _generate_email_drafts (router : ModelRouter) (lead : obj) : M world result :=
  route_ router (email_drafts_prompt lead) "draft_reply" None None "" 1024.

Definition _update_crm (tenant : Tenant) : M obj bool :=
  if negb (crm_is_configured tenant) then ret false
  else
    let! lead := get_state in
    let contact_result := crm_create_contact lead in
    run! (if Py.truthy contact_result then
            run! assign_get (setattr "crm_contact_id") contact_result "id" PNone in
            let! lead := get_state in
            let! _ := pure (Py.ge_float (Py.or_ (getattr lead "score") (PInt 0)) 50) in
            let deal_result := crm_create_deal lead (getattr lead "crm_contact_id") in
            if Py.truthy deal_result then
              assign_get (setattr "crm_deal_id") deal_result "id" PNone
            else ret tt
          else ret tt) in
    ret true.

Definition extraction_defaults : M obj unit :=
  run! modify (setattr "company_size_cue" (PStr "unknown")) in
  run! modify (setattr "intent_classification" (PStr "general")) in
  run! modify (setattr "urgency" (PStr "medium")) in
  run! modify (setattr "spam_score" (PFloat 0)) in
  modify (setattr "extraction_confidence" (PFloat 0)).

Definition _apply_extraction (res : result) : M obj unit :=
  try_except
    (let content := content res in
     let! parsed := parse_braced json_loads content in
     match parsed with
     | Some data =>
         run! assign_get (setattr "company_size_cue") data "company_size_cue" (PStr "unknown") in
         run! assign_get (setattr "intent_classification") data "intent_classification" (PStr "general") in
         run! assign_get (setattr "urgency") data "urgency" (PStr "medium") in
         run! assign_get (setattr "industry") data "industry" (PStr "other") in
         run! assign_get (setattr "spam_score") data "spam_score" (PFloat 0) in
         run! assign_get (setattr "extraction_confidence") data "confidence" (PFloat (1 # 2)) in
         modify (setattr "extraction_raw" data)
     | None => extraction_defaults
     end)
    decode_errors
    (fun _ => extraction_defaults).

Definition qualification_defaults (res : result) : M obj unit :=
  run! modify (setattr "qualification_summary" (PStr (content res))) in
  run! modify (setattr "score" (PInt 50)) in
  modify (setattr "suggested_next_step" (PStr "email")).

Definition _apply_qualification (res : result) : M obj unit :=
  try_except
    (let content := content res in
     let! parsed := parse_braced json_loads content in
     match parsed with
     | Some data =>
         run! assign_get (setattr "qualification_summary") data "qualification_summary" (PStr "") in
         run! assign_get (setattr "score") data "score" (PInt 50) in
         run! assign_get (setattr "follow_up_questions") data "follow_up_questions" (PList []) in
         assign_get (setattr "suggested_next_step") data "suggested_next_step" (PStr "email")
     | None => qualification_defaults res
     end)
    decode_errors
    (fun _ => qualification_defaults res).

Definition email_drafts_default (res : result) : M obj unit :=
  modify (setattr "email_drafts"
            (PList [PDict [("subject", PStr "Follow-up"); ("body", PStr (content res))]])).

Definition _apply_email_drafts (res : result) : M obj unit :=
  try_except
    (let content := content res in
     let! parsed := parse_braced json_loads content in
     match parsed with
     | Some data => assign_get (setattr "email_drafts") data "emails" (PList [])
     | None => email_drafts_default res
     end)
    decode_errors
    (fun _ => email_drafts_default res).

(** [lead.spam_score and lead.spam_score > 0.8] *)
Definition spam_gate (lead : obj) : outcome bool :=
  if Py.truthy (getattr lead "spam_score")
  then Py.gt_float (getattr lead "spam_score") (8 # 10)
  else Ok false.

(** [process_lead], in the three stretches of its [try] block: up to the
    audit entry of the extraction, the early exit of the spam gate, and the
    rest of the workflow. *)
Definition lead_extract_phase (tenant_id run_id : string)
    : M world (Tenant * ModelRouter * list pyval * obj) :=
  run! update_run_status "running"
         [("started_at", PFloat (now clk)); ("current_step", PStr "init")] in
  let! tenant := load_tenant tenant_id in
  let! w := get_state in
  match w_lead w with
  | None => raise ValueError
  | Some _ =>
      let router := create_model_router settings decrypt_value tenant in
      let steps_completed : list pyval := [] in
      (* Step 1: extract with the local model *)
      run! update_run_status "running" [("current_step", PStr "extract")] in
      run! on_lead (modify (setattr "status" (PStr "processing"))) in
      let! lead := on_lead get_state in
      let! extract_result := _extract_lead_info router lead in
      run! on_lead (_apply_extraction extract_result) in
      let steps_completed := (steps_completed ++ [step_record "extract" extract_result])%list in
      let! lead := on_lead get_state in
      run! create_audit_entry tenant_id run_id
             [ ("action", PStr "lead_extracted"); ("workflow", PStr "lead_qualify");
               ("step", PStr "extract"); ("model_used", PStr (model extract_result));
               ("prompt_template_id", PStr "lead_extract_v1");
               ("input_tokens", opt_int (input_tokens extract_result));
               ("output_tokens", opt_int (output_tokens extract_result));
               ("estimated_cost_usd", PFloat (cost extract_result));
               ("input_summary", PStr ("Lead: " +:+ py_str (getattr lead "name") +:+
                                       ", Company: " +:+ py_str (getattr lead "company")));
               ("output_summary",
                PStr ("Intent: " +:+ py_str (getattr lead "intent_classification") +:+
                      ", Urgency: " +:+ py_str (getattr lead "urgency") +:+
                      ", Spam: " +:+ py_str (getattr lead "spam_score"))) ] in
      ret (tenant, router, steps_completed, lead)
  end.

(** Spam gate taken: skip the rest of the pipeline. *)
Definition lead_disqualify (tenant_id lead_id run_id : string)
    (steps_completed : list pyval) (lead : obj) : M world unit :=
  run! on_lead (modify (setattr "status" (PStr "disqualified"))) in
  run! create_audit_entry tenant_id run_id
         [ ("action", PStr "lead_disqualified"); ("workflow", PStr "lead_qualify");
           ("step", PStr "spam_check"); ("reason_code", PStr "high_spam_score");
           ("extra_data", PDict [("spam_score", getattr lead "spam_score")]) ] in
  update_run_status "completed"
    [ ("completed_at", PFloat (now clk));
      ("duration_seconds", PFloat (py_round elapsed 3));
      ("steps_completed", PList steps_completed);
      ("lead_id", PStr lead_id) ].

Definition lead_qualify_phase (tenant_id lead_id run_id : string) (tenant : Tenant)
    (router : ModelRouter) (steps_completed : list pyval) (lead : obj) : M world unit :=
  (* Step 2: qualify with the cloud model *)
  run! update_run_status "running" [("current_step", PStr "qualify")] in
  let! qualify_result := _qualify_lead router lead in
  run! on_lead (_apply_qualification qualify_result) in
  let steps_completed := (steps_completed ++ [step_record "qualify" qualify_result])%list in
  let! lead := on_lead get_state in
  run! create_audit_entry tenant_id run_id
         (model_audit "lead_qualified" "lead_qualify" "qualify" "lead_qualify_v1"
            qualify_result
            ("Lead: " +:+ py_str (getattr lead "name"))
            ("Score: " +:+ py_str (getattr lead "score") +:+
             ", Next: " +:+ py_str (getattr lead "suggested_next_step"))
            PNone) in
  (* Step 3: CRM update *)
  run! update_run_status "running" [("current_step", PStr "crm")] in
  let! crm_result := on_lead (_update_crm tenant) in
  let! lead := on_lead get_state in
  let! steps_completed :=
    (if crm_result then
       run! create_audit_entry tenant_id run_id
              [ ("action", PStr "crm_updated"); ("workflow", PStr "lead_qualify");
                ("step", PStr "crm"); ("reason_code", PStr "hubspot_sync");
                ("extra_data", PDict [("contact_id", getattr lead "crm_contact_id");
                                      ("deal_id", getattr lead "crm_deal_id")]) ] in
       ret (steps_completed ++
              [PDict [("step", PStr "crm");
                      ("contact_id", getattr lead "crm_contact_id");
                      ("deal_id", getattr lead "crm_deal_id")]])%list
     else ret steps_completed) in
  (* Step 4: email drafts *)
  run! update_run_status "running" [("current_step", PStr "email_drafts")] in
  let! draft_result := _generate_email_drafts router lead in
  run! on_lead (_apply_email_drafts draft_result) in
  let steps_completed := (steps_completed ++ [step_record "email_drafts" draft_result])%list in
  (* Step 5: notify *)
  run! update_run_status "running" [("current_step", PStr "notify")] in
  let! lead := on_lead get_state in
  run! (if str_truthy (slack_webhook_url tenant)
        then pure (_notify_slack tenant lead) else ret tt) in
  let steps_completed := (steps_completed ++ [PDict [("step", PStr "notify")]])%list in
  (* Finalize *)
  run! on_lead (modify (setattr "status" (PStr "qualified"))) in
  run! on_lead (modify (setattr "follow_up_scheduled_at"
                          (PFloat (now clk + 24 * 3600)%Q))) in
  update_run_status "completed"
    [ ("completed_at", PFloat (now clk));
      ("duration_seconds", PFloat (py_round elapsed 3));
      ("steps_completed", PList steps_completed);
      ("current_step", PStr "done");
      ("lead_id", PStr lead_id) ].

Definition process_lead (tenant_id lead_id run_id : string) : M world unit :=
  try_except
    (let! st := lead_extract_phase tenant_id run_id in
     let '(tenant, router, steps_completed, lead) := st in
     let! spam := pure (spam_gate lead) in
     if spam then lead_disqualify tenant_id lead_id run_id steps_completed lead
     else lead_qualify_phase tenant_id lead_id run_id tenant router steps_completed lead)
    (fun _ => true)
    (fail_run tenant_id run_id "lead_qualify").
End Workers.

(** ** [BudgetEnforcer.get_usage] *)

(** [get_usage]: the two daily counters and their limits. *)
Definition get_usage (self : BudgetEnforcer) (clk : clock) (r : redis) : list (string * Z) :=
  [ ("runs_today", default 0 (R.get (_day_key self clk "runs") (now clk) r));
    ("tokens_today", default 0 (R.get (_day_key self clk "tokens") (now clk) r));
    ("max_runs_per_day", max_runs_per_day self);
    ("max_tokens_per_day", max_tokens_per_day self) ].

(** ** [app/api/webhooks.py]: the budget calls of the intake endpoints

    [ingest_support_ticket] and [ingest_sales_lead] make the same calls on
    the enforcer: [check_all()] before anything is stored, answered with
    HTTP 429 when it raises one of the two budget errors, and, once the job
    has been put on the queue, [increment_rate()] and
    [increment_daily_runs()]; an exception of the queueing block is logged
    and the item is still answered as queued.  Each call reads the clock for
    itself.  The rows written to the database in between do not touch the
    store and are left out. *)
Inductive response : Type :=
| Queued
| HTTPException (status_code : Z) (detail : exn).

Record intake_clocks : Type := IntakeClocks {
  at_check : clock;
  at_rate : clock;
  at_runs : clock }.

Definition is_budget_error (e : exn) : bool :=
  match e with
  | BudgetExceededError _ | CircuitOpenError => true
  | _ => false
  end.

Definition intake_budget (enforcer : BudgetEnforcer) (ck : intake_clocks)
    (enqueue : outcome unit) : M redis response :=
  let! refused :=
    try_except (run! check_all enforcer (at_check ck) 0 in ret None)
      is_budget_error
      (fun e => ret (Some (HTTPException 429 e))) in
  match refused with
  | Some resp => ret resp
  | None =>
      run! try_except
             (run! pure enqueue in
              run! increment_rate enforcer (at_rate ck) in
              increment_daily_runs enforcer (at_runs ck))
             (fun _ => true)
             (fun _ => ret tt) in
      ret Queued
  end.

(** A burst of items, each put on the queue without error. *)
Fixpoint intake_burst (enforcer : BudgetEnforcer) (cks : list intake_clocks) (r : redis)
    : redis * list (outcome response) :=
  match cks with
  | [] => (r, [])
  | ck :: rest =>
      let '(r1, o) := intake_budget enforcer ck (Ok tt) r in
      let '(r2, os) := intake_burst enforcer rest r1 in
      (r2, o :: os)
  end.

(** * Properties *)

Lemma Qlt_bool_iff (x y : Q) : Qlt_bool x y = true <-> (x < y)%Q.
Proof.
  unfold Qlt_bool. rewrite negb_true_iff.
  split.
  - intros H. apply Qnot_le_lt. intros Hle. apply Qle_bool_iff in Hle. congruence.
  - intros H. destruct (Qle_bool y x) eqn:E; [|done].
    apply Qle_bool_iff in E. exfalso. apply (Qlt_not_le _ _ H E).
Qed.

Lemma Qlt_bool_false_iff (x y : Q) : Qlt_bool x y = false <-> (y <= x)%Q.
Proof.
  unfold Qlt_bool. rewrite negb_false_iff. apply Qle_bool_iff.
Qed.

(** ** Admission control *)

Section AdmissionProperties.
Variable self : BudgetEnforcer.
Variable clk : clock.

(** The circuit check only ever writes the circuit hash. *)
Lemma check_circuit_breaker_strings (r : redis) :
  r_strings (fst (check_circuit_breaker self clk r)) = r_strings r.
Proof.
  unfold check_circuit_breaker, bind, get_state, ret, raise, modify. simpl.
  destruct (not_data _); [done|].
  destruct (String.eqb _ _); [|done].
  destruct (Qlt_bool _ _); done.
Qed.

Lemma check_circuit_breaker_raises (r : redis) (e : exn) :
  snd (check_circuit_breaker self clk r) = Raise e -> e = CircuitOpenError.
Proof.
  unfold check_circuit_breaker, bind, get_state, ret, raise, modify. simpl.
  destruct (not_data _); [done|].
  destruct (String.eqb _ _); [|done].
  destruct (Qlt_bool _ _); simpl; congruence.
Qed.

Lemma counters_after_circuit_check (r : redis) (key : string) :
  R.get key (now clk) (fst (check_circuit_breaker self clk r)) = R.get key (now clk) r.
Proof. unfold R.get. by rewrite check_circuit_breaker_strings. Qed.
End AdmissionProperties.

(** The admission decision in the words of the specification: circuit
    breaker, then per-minute rate, then daily runs, then daily tokens; the
    first failing check wins. *)
Definition spec_admission (self : BudgetEnforcer) (circuit_admits : bool)
    (count_minute count_runs count_tokens estimated_tokens : Z) : outcome unit :=
  if negb circuit_admits then Raise CircuitOpenError
  else if max_items_per_minute self <=? count_minute then Raise (BudgetExceededError "rate_limit")
  else if max_runs_per_day self <=? count_runs then Raise (BudgetExceededError "daily_runs")
  else if max_tokens_per_day self <? count_tokens + estimated_tokens
       then Raise (BudgetExceededError "daily_tokens")
  else Ok tt.

(** C1.  [check_all] decides as the specification says: the circuit breaker
    first, then the per-minute rate, the daily run count and the daily token
    budget, the first failing check raising its own typed error
    ([CircuitOpenError], or [BudgetExceededError] with limit type
    [rate_limit], [daily_runs] or [daily_tokens]).  The rate check denies
    exactly when the minute count has reached the limit, the run check
    exactly when the day's runs have reached theirs, the token check exactly
    when the day's tokens plus the estimate exceed the budget; the three
    quota checks write nothing. *)
Theorem check_all_admission (self : BudgetEnforcer) (clk : clock) (estimated_tokens : Z)
    (r : redis) :
  snd (check_all self clk estimated_tokens r)
    = spec_admission self (is_ok (snd (check_circuit_breaker self clk r)))
        (count_this_minute self clk r) (runs_today self clk r) (tokens_today self clk r)
        estimated_tokens
  /\ (snd (check_rate_limit self clk r) = Raise (BudgetExceededError "rate_limit")
      <-> max_items_per_minute self <= count_this_minute self clk r)
  /\ (snd (check_rate_limit self clk r) = Ok tt
      <-> count_this_minute self clk r < max_items_per_minute self)
  /\ (snd (check_daily_runs self clk r) = Raise (BudgetExceededError "daily_runs")
      <-> max_runs_per_day self <= runs_today self clk r)
  /\ (snd (check_daily_runs self clk r) = Ok tt
      <-> runs_today self clk r < max_runs_per_day self)
  /\ (snd (check_daily_tokens self clk estimated_tokens r) = Raise (BudgetExceededError "daily_tokens")
      <-> tokens_today self clk r + estimated_tokens > max_tokens_per_day self)
  /\ (snd (check_daily_tokens self clk estimated_tokens r) = Ok tt
      <-> tokens_today self clk r + estimated_tokens <= max_tokens_per_day self)
  /\ fst (check_rate_limit self clk r) = r
  /\ fst (check_daily_runs self clk r) = r
  /\ fst (check_daily_tokens self clk estimated_tokens r) = r.
Proof.
  split.
  { unfold check_all, spec_admission. unfold bind at 1.
    pose proof (check_circuit_breaker_raises self clk r) as Hraise.
    pose proof (counters_after_circuit_check self clk r) as Hcnt.
    destruct (check_circuit_breaker self clk r) as [r1 [[]|e]]; simpl in *.
    - unfold count_this_minute, runs_today, tokens_today. rewrite <- !Hcnt.
      unfold check_rate_limit, check_daily_runs, check_daily_tokens,
        bind, get_state, ret, raise. simpl.
      destruct (_ <=? _); [done|]. simpl.
      destruct (_ <=? _); [done|]. simpl.
      destruct (_ <? _); done.
    - by rewrite (Hraise e eq_refl). }
  unfold check_rate_limit, check_daily_runs, check_daily_tokens,
    count_this_minute, runs_today, tokens_today, bind, get_state, ret, raise. simpl.
  repeat split; try (destruct (_ <=? _) eqn:E; simpl; try done; try (intros; lia));
    try (destruct (_ <? _) eqn:E; simpl; try done; try (intros; lia)).
Qed.

(** ** The circuit breaker *)

Lemma circuit_ttl : inject_Z (CIRCUIT_TIMEOUT * 2) = 600%Q.
Proof. reflexivity. Qed.

Lemma circuit_timeout_Q : inject_Z CIRCUIT_TIMEOUT = 300%Q.
Proof. reflexivity. Qed.

(** *** The store operations on one hash key *)

Lemma live_entry_Some {V} (t : Q) (e : entry V) :
  expired t e = false -> live_entry t (Some e) = Some e.
Proof. unfold live_entry. by intros ->. Qed.

Lemma live_entry_expired {V} (t : Q) (o : option (entry V)) (e : entry V) :
  live_entry t o = Some e -> o = Some e /\ expired t e = false.
Proof.
  unfold live_entry. destruct o as [e0|]; [|done].
  destruct (expired t e0) eqn:E; [done|]. by intros [= <-].
Qed.

Lemma halter_lookup (f : chash -> chash) (key : string) (t : Q) (r : redis) :
  r_hashes (R.halter f key t r) !! key
    = Some match live_entry t (r_hashes r !! key) with
           | Some e => Entry (f (e_value e)) (e_expire e)
           | None => Entry (f chash_empty) None
           end.
Proof. unfold R.halter. simpl. by rewrite lookup_insert_eq. Qed.

Lemma halter_lookup_ne (f : chash -> chash) (key key' : string) (t : Q) (r : redis) :
  key <> key' -> r_hashes (R.halter f key t r) !! key' = r_hashes r !! key'.
Proof. intros. unfold R.halter. simpl. by rewrite lookup_insert_ne. Qed.

Lemma expire_lookup_hash (key : string) (secs : Z) (t : Q) (r : redis) :
  r_hashes (R.expire key secs t r) !! key
    = match live_entry t (r_hashes r !! key) with
      | Some e => Some (Entry (e_value e) (Some (t + inject_Z secs)%Q))
      | None => r_hashes r !! key
      end.
Proof.
  unfold R.expire. simpl.
  destruct (live_entry t (r_hashes r !! key)); [|done]. by rewrite lookup_insert_eq.
Qed.

Lemma expire_lookup_hash_ne (key key' : string) (secs : Z) (t : Q) (r : redis) :
  key <> key' -> r_hashes (R.expire key secs t r) !! key' = r_hashes r !! key'.
Proof.
  intros. unfold R.expire. simpl.
  destruct (live_entry t (r_hashes r !! key)); [|done]. by rewrite lookup_insert_ne.
Qed.

Section CircuitProperties.
Variable self : BudgetEnforcer.

(** What [record_failure] leaves under the circuit key. *)
Definition after_failure (h : chash) (t : Q) : chash :=
  let n := default 0 (h_failures h) + 1 in
  if FAILURE_THRESHOLD <=? n then CHash (Some "open") (Some n) (Some t)
  else CHash (h_state h) (Some n) (h_opened_at h).

Lemma record_failure_entry (clk : clock) (r : redis) :
  r_hashes (fst (record_failure self clk r)) !! _circuit_key self
    = Some (Entry (after_failure (circuit_at self (now clk) r) (now clk))
                  (Some (now clk + inject_Z (CIRCUIT_TIMEOUT * 2))%Q))
  /\ snd (record_failure self clk r) = Ok tt.
Proof.
  assert (Hnow : forall v : chash,
    expired (now clk) (Entry v (Some (now clk + inject_Z (CIRCUIT_TIMEOUT * 2))%Q)) = false).
  { intros v. unfold expired. simpl. apply Qlt_bool_false_iff. rewrite circuit_ttl. lra. }
  unfold record_failure, after_failure, circuit_at, R.hincrby_failures,
    R.hset_state_opened_at, R.hgetall, bind, modify, ret.
  cbn [fst snd].
  set (key := _circuit_key self).
  set (r1 := R.halter _ key (now clk) r).
  assert (H1 : live_entry (now clk) (r_hashes r1 !! key)
               = Some match live_entry (now clk) (r_hashes r !! key) with
                      | Some e => Entry (CHash (h_state (e_value e))
                                               (Some (default 0 (h_failures (e_value e)) + 1))
                                               (h_opened_at (e_value e))) (e_expire e)
                      | None => Entry (CHash None (Some (0 + 1)) None) None
                      end).
  { subst r1. rewrite halter_lookup.
    destruct (live_entry (now clk) (r_hashes r !! key)) as [e|] eqn:E.
    - apply live_entry_expired in E as [_ E]. by apply live_entry_Some.
    - by apply live_entry_Some. }
  set (r2 := R.expire key (CIRCUIT_TIMEOUT * 2) (now clk) r1).
  assert (H2 : r_hashes r2 !! key
               = Some (Entry match live_entry (now clk) (r_hashes r !! key) with
                             | Some e => CHash (h_state (e_value e))
                                               (Some (default 0 (h_failures (e_value e)) + 1))
                                               (h_opened_at (e_value e))
                             | None => CHash None (Some (0 + 1)) None
                             end (Some (now clk + inject_Z (CIRCUIT_TIMEOUT * 2))%Q))).
  { subst r2. rewrite expire_lookup_hash, H1.
    by destruct (live_entry (now clk) (r_hashes r !! key)). }
  destruct (live_entry (now clk) (r_hashes r !! key)) as [e|]; cbn [e_value default h_failures chash_empty].
  - destruct (FAILURE_THRESHOLD <=? default 0 (h_failures (e_value e)) + 1); cbn [fst snd].
    + split; [|done]. rewrite halter_lookup, H2, live_entry_Some by apply Hnow. done.
    + by rewrite H2.
  - destruct (FAILURE_THRESHOLD <=? 0 + 1); cbn [fst snd].
    + split; [|done]. rewrite halter_lookup, H2, live_entry_Some by apply Hnow. done.
    + by rewrite H2.
Qed.

(** The circuit as read at a later time [t], within the lifetime of the
    record that [record_failure] refreshed. *)
Lemma record_failure_circuit (clk : clock) (r : redis) (t : Q) :
  (t <= now clk + 600)%Q ->
  circuit_at self t (fst (record_failure self clk r))
    = after_failure (circuit_at self (now clk) r) (now clk).
Proof.
  intros Ht. destruct (record_failure_entry clk r) as [He _].
  unfold circuit_at, R.hgetall. rewrite He. unfold live_entry, expired. simpl.
  assert (Hlive : Qlt_bool (now clk + inject_Z (CIRCUIT_TIMEOUT * 2)) t = false).
  { apply Qlt_bool_false_iff. rewrite circuit_ttl. lra. }
  by rewrite Hlive.
Qed.
End CircuitProperties.

Section CircuitChecks.
Variable self : BudgetEnforcer.
Variable clk : clock.
Variable r : redis.

Let h := circuit_at self (now clk) r.

(** Open and not yet past the timeout: the check refuses and writes nothing. *)
Lemma check_open_within_timeout (t0 : Q) :
  h_state h = Some "open" -> h_opened_at h = Some t0 ->
  (now clk - t0 <= 300)%Q ->
  check_circuit_breaker self clk r = (r, Raise CircuitOpenError).
Proof.
  subst h. unfold check_circuit_breaker, circuit_at, bind, get_state, ret, raise.
  intros Hs Ho Ht. unfold not_data. rewrite Hs, Ho. cbn [default String.eqb].
  assert (E : Qlt_bool (inject_Z CIRCUIT_TIMEOUT) (now clk - t0) = false).
  { apply Qlt_bool_false_iff. rewrite circuit_timeout_Q. lra. }
  simpl. by rewrite E.
Qed.

(** Open and past the timeout: the check lets the request through and
    rewrites the state to half-open, keeping the other fields. *)
Lemma check_open_past_timeout (t0 : Q) :
  h_state h = Some "open" -> h_opened_at h = Some t0 ->
  (300 < now clk - t0)%Q ->
  snd (check_circuit_breaker self clk r) = Ok tt
  /\ circuit_at self (now clk) (fst (check_circuit_breaker self clk r))
     = CHash (Some "half-open") (h_failures h) (Some t0).
Proof.
  subst h. unfold check_circuit_breaker, bind, get_state, ret, raise, modify.
  intros Hs Ho Ht. unfold circuit_at in *. unfold not_data. rewrite Hs, Ho.
  cbn [default String.eqb].
  assert (E : Qlt_bool (inject_Z CIRCUIT_TIMEOUT) (now clk - t0) = true).
  { apply Qlt_bool_iff. rewrite circuit_timeout_Q. lra. }
  simpl. rewrite E. cbn [fst snd]. split; [done|].
  unfold R.hset_state, R.hgetall in *. rewrite halter_lookup.
  destruct (live_entry (now clk) (r_hashes r !! _circuit_key self)) as [e|] eqn:El.
  - apply live_entry_expired in El as [_ El].
    rewrite live_entry_Some by done. simpl. by rewrite Ho.
  - done.
Qed.

(** Any state but open: the check lets the request through and writes
    nothing.  In particular every check made while half-open passes. *)
Lemma check_not_open :
  h_state h <> Some "open" -> check_circuit_breaker self clk r = (r, Ok tt).
Proof.
  subst h. unfold check_circuit_breaker, circuit_at, bind, get_state, ret, raise.
  intros Hs. destruct (not_data _); [done|].
  destruct (h_state _) as [s|]; [|reflexivity].
  change (default "closed" (Some s)) with s.
  destruct (String.eqb s "open") eqn:E; [|reflexivity].
  apply String.eqb_eq in E. by subst.
Qed.
End CircuitChecks.

(** [record_success] drops the circuit record: whatever was stored, the
    circuit then reads closed with no failure recorded. *)
Lemma record_success_clears (self : BudgetEnforcer) (r : redis) (t : Q) :
  circuit_at self t (fst (record_success self r)) = chash_empty.
Proof.
  unfold record_success, circuit_at, modify, R.delete, R.hgetall. simpl.
  by rewrite lookup_delete_eq.
Qed.

Definition record_failures (self : BudgetEnforcer) (clks : list clock) (r : redis) : redis :=
  fold_left (fun r c => fst (record_failure self c r)) clks r.

(** C2 (as amended).  Five consecutive [record_failure] calls from a clear
    state, each at most 600 s (the lifetime of the circuit record) after the
    previous one, take the circuit from closed to open, with [opened_at] the
    time of the fifth call.  From then on, while the record lives, a check at
    most 300 s after [opened_at] is refused with [CircuitOpenError] and
    writes nothing; a check strictly more than 300 s after [opened_at] lets
    the request through and, as a side effect, rewrites the state to
    half-open; [record_success] after half-open leaves a clear circuit:
    state closed and failure count 0. *)
Theorem circuit_breaker_state_machine (self : BudgetEnforcer) (c1 c2 c3 c4 c5 : clock)
    (r : redis) :
  circuit_at self (now c1) r = chash_empty ->
  (now c2 - now c1 <= 600)%Q -> (now c3 - now c2 <= 600)%Q ->
  (now c4 - now c3 <= 600)%Q -> (now c5 - now c4 <= 600)%Q ->
  let r4 := record_failures self [c1; c2; c3; c4] r in
  let r5 := fst (record_failure self c5 r4) in
  (circuit_state self (now c4) r4 = "closed" /\ failure_count self (now c4) r4 = 4)
  /\ circuit_at self (now c5) r5 = CHash (Some "open") (Some 5) (Some (now c5))
  /\ (forall ck : clock, (now ck - now c5 <= 300)%Q ->
        check_circuit_breaker self ck r5 = (r5, Raise CircuitOpenError))
  /\ (forall ck : clock, (300 < now ck - now c5)%Q -> (now ck - now c5 <= 600)%Q ->
        let rh := fst (check_circuit_breaker self ck r5) in
        snd (check_circuit_breaker self ck r5) = Ok tt
        /\ circuit_at self (now ck) rh = CHash (Some "half-open") (Some 5) (Some (now c5))
        /\ forall t : Q,
             circuit_state self t (fst (record_success self rh)) = "closed"
             /\ failure_count self t (fst (record_success self rh)) = 0).
Proof.
  intros Hclear H12 H23 H34 H45 r4 r5.
  set (r1 := fst (record_failure self c1 r)).
  set (r2 := fst (record_failure self c2 r1)).
  set (r3 := fst (record_failure self c3 r2)).
  assert (E1 : forall t, (t <= now c1 + 600)%Q ->
                 circuit_at self t r1 = CHash None (Some 1) None).
  { intros t Ht. subst r1. rewrite record_failure_circuit by done. by rewrite Hclear. }
  assert (E2 : forall t, (t <= now c2 + 600)%Q ->
                 circuit_at self t r2 = CHash None (Some 2) None).
  { intros t Ht. subst r2. rewrite record_failure_circuit by done.
    rewrite E1 by lra. done. }
  assert (E3 : forall t, (t <= now c3 + 600)%Q ->
                 circuit_at self t r3 = CHash None (Some 3) None).
  { intros t Ht. subst r3. rewrite record_failure_circuit by done.
    rewrite E2 by lra. done. }
  assert (E4 : forall t, (t <= now c4 + 600)%Q ->
                 circuit_at self t r4 = CHash None (Some 4) None).
  { intros t Ht. subst r4. unfold record_failures. cbn [fold_left].
    fold r1. fold r2. fold r3. rewrite record_failure_circuit by done.
    rewrite E3 by lra. done. }
  assert (E5 : forall t, (t <= now c5 + 600)%Q ->
                 circuit_at self t r5 = CHash (Some "open") (Some 5) (Some (now c5))).
  { intros t Ht. subst r5. rewrite record_failure_circuit by done.
    rewrite E4 by lra. done. }
  split; [|split; [|split]].
  - unfold circuit_state, failure_count. rewrite E4 by lra. done.
  - apply E5. lra.
  - intros ck Hck.
    apply (check_open_within_timeout self ck r5 (now c5)); [| |done];
      rewrite E5 by lra; done.
  - intros ck Hlo Hhi rh.
    destruct (check_open_past_timeout self ck r5 (now c5)) as [Hok Hhalf]; [| |done|];
      try (rewrite E5 by lra; done).
    split; [done|]. split.
    + subst rh. rewrite Hhalf. rewrite E5 by lra. done.
    + intros t. unfold circuit_state, failure_count.
      by rewrite record_success_clears.
Qed.

Definition demo_enforcer : BudgetEnforcer := mkBudgetEnforcer "acme" 100 50000 5.
Definition at_second (t : Q) : clock := Clock t "2025-01-01" "202501010000".

Lemma circuit_breaker_state_machine_witness :
  circuit_at demo_enforcer 4
    (fst (record_failure demo_enforcer (at_second 4)
       (record_failures demo_enforcer [at_second 0; at_second 1; at_second 2; at_second 3]
          redis_empty)))
  = CHash (Some "open") (Some 5) (Some 4%Q).
Proof.
  assert (Hclear : circuit_at demo_enforcer (now (at_second 0)) redis_empty = chash_empty)
    by reflexivity.
  assert (Hgap : forall a b : Q, (b - a == 1)%Q ->
                   (now (at_second b) - now (at_second a) <= 600)%Q).
  { intros a b H. simpl. rewrite H. lra. }
  pose proof (circuit_breaker_state_machine demo_enforcer
                (at_second 0) (at_second 1) (at_second 2) (at_second 3) (at_second 4)
                redis_empty Hclear
                (Hgap 0%Q 1%Q ltac:(reflexivity)) (Hgap 1%Q 2%Q ltac:(reflexivity))
                (Hgap 2%Q 3%Q ltac:(reflexivity)) (Hgap 3%Q 4%Q ltac:(reflexivity))) as H.
  cbv zeta in H. destruct H as [_ [H _]]. exact H.
Defined.

(** C2 (as stated) fails: a check exactly 300 s after [opened_at] is still
    refused and the circuit stays open. *)
Lemma circuit_check_at_300s_refused :
  let r5 := record_failures demo_enforcer
              [at_second 1000; at_second 1000; at_second 1000; at_second 1000; at_second 1000]
              redis_empty in
  circuit_at demo_enforcer 1000 r5 = CHash (Some "open") (Some 5) (Some 1000%Q)
  /\ snd (check_circuit_breaker demo_enforcer (at_second 1300) r5) = Raise CircuitOpenError
  /\ circuit_state demo_enforcer 1300 (fst (check_circuit_breaker demo_enforcer (at_second 1300) r5))
     = "open".
Proof. vm_compute. done. Qed.

(** While half-open the breaker does not count requests: a second check,
    with no [record_success] or [record_failure] in between, passes too. *)
Lemma half_open_admits_again :
  let r5 := record_failures demo_enforcer
              [at_second 1000; at_second 1000; at_second 1000; at_second 1000; at_second 1000]
              redis_empty in
  let r6 := fst (check_circuit_breaker demo_enforcer (at_second 1301) r5) in
  circuit_state demo_enforcer 1301 r6 = "half-open"
  /\ check_circuit_breaker demo_enforcer (at_second 1302) r6 = (r6, Ok tt)
  /\ check_circuit_breaker demo_enforcer (at_second 1303) r6 = (r6, Ok tt).
Proof.
  cbv zeta. split; [by vm_compute|].
  split; apply check_not_open; by vm_compute.
Qed.

(** C9 (as amended).  [record_success] deletes the circuit record whatever
    it holds: afterwards the circuit reads closed with failure count 0 and no
    [opened_at], the counters are untouched, and the store is unchanged
    exactly when nothing was stored under the circuit key. *)
Theorem record_success_resets (self : BudgetEnforcer) (r : redis) :
  (forall t : Q,
     circuit_state self t (fst (record_success self r)) = "closed"
     /\ failure_count self t (fst (record_success self r)) = 0
     /\ h_opened_at (circuit_at self t (fst (record_success self r))) = None)
  /\ (forall (clk : clock) (t : Q),
        R.get (_minute_key self clk) t (fst (record_success self r))
          = R.get (_minute_key self clk) t r
        /\ forall metric : string,
             R.get (_day_key self clk metric) t (fst (record_success self r))
               = R.get (_day_key self clk metric) t r)
  /\ (fst (record_success self r) = r
      <-> r_hashes r !! _circuit_key self = None /\ r_strings r !! _circuit_key self = None)
  /\ snd (record_success self r) = Ok tt.
Proof.
  split; [|split; [|split]].
  - intros t. unfold circuit_state, failure_count. by rewrite record_success_clears.
  - intros clk t. unfold record_success, modify, R.delete, R.get. simpl.
    split; [|intros metric]; by rewrite lookup_delete_ne.
  - unfold record_success, modify, R.delete. simpl. split.
    + intros H. destruct r as [ss hs]. simpl in *. injection H as H1 H2.
      split.
      * rewrite <- H2. apply lookup_delete_eq.
      * rewrite <- H1. apply lookup_delete_eq.
    + intros [H1 H2]. destruct r as [ss hs]. simpl in *.
      by rewrite !delete_id.
  - done.
Qed.

(** C9 (as stated) fails: with the circuit closed and three failures
    accumulated, [record_success] resets the count to 0. *)
Lemma record_success_drops_failure_count :
  let r3 := record_failures demo_enforcer [at_second 0; at_second 1; at_second 2] redis_empty in
  circuit_state demo_enforcer 3 r3 = "closed"
  /\ failure_count demo_enforcer 3 r3 = 3
  /\ failure_count demo_enforcer 3 (fst (record_success demo_enforcer r3)) = 0.
Proof. vm_compute. done. Qed.

(** ** Cost estimation *)

#[local] Instance Qlt_bool_comp : Proper (Qeq ==> Qeq ==> eq) Qlt_bool.
Proof. intros x x' Hx y y' Hy. unfold Qlt_bool. by rewrite Hx, Hy. Qed.

Lemma round_half_even_comp (x y : Q) : x == y -> round_half_even x = round_half_even y.
Proof.
  intros H. unfold round_half_even. cbv zeta.
  rewrite (Qfloor_comp _ _ H).
  assert (E : x - inject_Z (Qfloor y) == y - inject_Z (Qfloor y)) by (by rewrite H).
  by rewrite (Qlt_bool_comp _ _ E _ _ (Qeq_refl _)),
             (Qlt_bool_comp _ _ (Qeq_refl _) _ _ E).
Qed.

Lemma py_round_comp (x y : Q) (n : N) : x == y -> py_round x n = py_round y n.
Proof.
  intros H. unfold py_round. cbv zeta.
  rewrite (round_half_even_comp (x * inject_Z (10 ^ Z.of_N n)) (y * inject_Z (10 ^ Z.of_N n)));
    [done|]. by rewrite H.
Qed.

(** Rounding moves a value by at most half a unit. *)
Lemma round_half_even_close (x : Q) :
  (Qabs (x - inject_Z (round_half_even x)) <= 1 # 2)%Q.
Proof.
  unfold round_half_even. cbv zeta.
  pose proof (Qfloor_le x) as Hlo. pose proof (Qlt_floor x) as Hhi.
  rewrite inject_Z_plus in Hhi. change (inject_Z 1) with 1%Q in Hhi.
  destruct (Qlt_bool (x - inject_Z (Qfloor x)) (1 # 2)) eqn:E1.
  - apply Qlt_bool_iff in E1. apply Qabs_Qle_condition. lra.
  - apply Qlt_bool_false_iff in E1.
    assert (Hup : (Qabs (x - inject_Z (Qfloor x + 1)) <= 1 # 2)%Q).
    { rewrite inject_Z_plus. change (inject_Z 1) with 1%Q.
      apply Qabs_Qle_condition. lra. }
    destruct (Qlt_bool (1 # 2) (x - inject_Z (Qfloor x))) eqn:E2; [done|].
    apply Qlt_bool_false_iff in E2.
    destruct (Z.even (Qfloor x)); [|done].
    apply Qabs_Qle_condition. lra.
Qed.

(** The cost in the words of the specification, before rounding:
    [(in*price_in + out*price_out) / 1e6] against the price table, an
    unknown model id priced as the default cloud model. *)
Definition price_of (model : string) : Q * Q :=
  match dict_get pricing model with
  | Some p => p
  | None => default (0, 0)%Q (dict_get pricing "claude-sonnet-4-20250514")
  end.

Definition exact_cost (input_tokens output_tokens : Z) (model : string) : Q :=
  ((inject_Z input_tokens * fst (price_of model) + inject_Z output_tokens * snd (price_of model))
   / 1000000)%Q.

Lemma py_round_6_close (x : Q) : (Qabs (py_round x 6 - x) <= 1 # 2000000)%Q.
Proof.
  unfold py_round. cbv zeta. rewrite Qred_correct.
  change (inject_Z (10 ^ Z.of_N 6)) with 1000000%Q.
  pose proof (round_half_even_close (x * 1000000)) as H.
  apply Qabs_Qle_condition in H. apply Qabs_Qle_condition.
  set (k := inject_Z (round_half_even (x * 1000000))) in *.
  unfold Qdiv. change (/ 1000000)%Q with (1 # 1000000)%Q. lra.
Qed.


(** ** The router's fallback chain *)

Lemma circuit_key_not_day_key (b b' : BudgetEnforcer) (clk : clock) (metric : string) :
  _day_key b clk metric <> _circuit_key b'.
Proof. unfold _day_key, _circuit_key, String.append. cbn. congruence. Qed.

(** Adding tokens to the daily counter leaves every circuit record alone. *)
Lemma add_daily_tokens_circuit (b b' : BudgetEnforcer) (clk : clock) (n : Z) (r : redis) :
  r_hashes (fst (add_daily_tokens b clk n r)) !! _circuit_key b'
    = r_hashes r !! _circuit_key b'
  /\ snd (add_daily_tokens b clk n r) = Ok tt.
Proof.
  unfold add_daily_tokens, bind, modify. cbn [fst snd]. split; [|done].
  rewrite expire_lookup_hash_ne by apply circuit_key_not_day_key.
  unfold R.incrby. done.
Qed.

Lemma check_daily_tokens_pure (b : BudgetEnforcer) (clk : clock) (n : Z) (r : redis) :
  fst (check_daily_tokens b clk n r) = r.
Proof.
  unfold check_daily_tokens, bind, get_state, ret, raise. simpl.
  by destruct (_ <? _).
Qed.

Definition local_unavailable (settings : Settings)
    (local_backend : nat -> string -> option local_reply) (w : world) (prompt : string) : Prop :=
  local_model_enabled settings = false \/ local_backend (length (w_calls w)) prompt = None.

(** The world once the local request has gone out (if the server is enabled). *)
Definition after_local_attempt (settings : Settings) (prompt : string) (w : world) : world :=
  if local_model_enabled settings then fst (log_call (LocalCall prompt) w) else w.

Section FallbackChain.
Variable settings : Settings.
Variable local_backend : nat -> string -> option local_reply.
Variable cloud_backend : nat -> string -> Z -> string -> string -> option cloud_response.
Variable clk : clock.
Variable self : ModelRouter.

(** When the local backend is disabled or fails, the call is exactly the
    fallback, made in the world the failed attempt left. *)
Lemma call_local_model_unavailable (prompt task : string) (w : world) :
  local_unavailable settings local_backend w prompt ->
  call_local_model settings local_backend cloud_backend clk self prompt task w
    = _local_model_fallback cloud_backend clk self prompt task
        (after_local_attempt settings prompt w).
Proof.
  unfold local_unavailable, call_local_model, after_local_attempt.
  destruct (local_model_enabled settings); cbn [negb].
  - intros [?|H]; [done|].
    unfold try_except, bind, get_state, log_call, modify. cbn [fst snd].
    by rewrite H.
  - done.
Qed.

Lemma fallback_without_credential (prompt task : string) (w : world) :
  str_truthy (_anthropic_key self) = false ->
  _local_model_fallback cloud_backend clk self prompt task w = (w, Ok fallback_default_result).
Proof. unfold _local_model_fallback. by intros ->. Qed.

Lemma fallback_with_credential (prompt task : string) (w : world) :
  str_truthy (_anthropic_key self) = true ->
  _local_model_fallback cloud_backend clk self prompt task w
    = call_claude cloud_backend clk self prompt task "" "claude-haiku-4-5-20251001" 256 w.
Proof. unfold _local_model_fallback. by intros ->. Qed.

(** Without a credential a local call always returns a result. *)
Lemma call_local_model_no_credential (prompt task : string) (w : world) :
  str_truthy (_anthropic_key self) = false ->
  exists res, snd (call_local_model settings local_backend cloud_backend clk self prompt task w)
              = Ok res.
Proof.
  intros Hkey. unfold call_local_model.
  destruct (local_model_enabled settings); cbn [negb].
  - unfold try_except, bind, get_state, log_call, modify. cbn [fst snd].
    destruct (local_backend _ _) as [data|].
    + unfold with_budget. destruct (budget self) as [b|].
      * unfold on_redis, lift, ret, with_redis. cbn [w_redis].
        pose proof (add_daily_tokens_circuit b b clk
                      (default (Py.len_split (default (default "" (lr_text data)) (lr_content data)))
                         (lr_tokens_predicted data))
                      (w_redis w)) as [_ Hok].
        destruct (add_daily_tokens _ _ _ _) as [r' o]. cbn [snd] in Hok. subst o.
        eexists. reflexivity.
      * eexists. reflexivity.
    + unfold raise. cbn [negb]. rewrite fallback_without_credential by done.
      eexists. reflexivity.
  - rewrite fallback_without_credential by done. eexists. reflexivity.
Qed.
End FallbackChain.

(** [result["task_type"] = task_type; result["template_id"] = template_id] *)
Definition tagged (task : string) (tid : option string) (res : result) : result :=
  mkResult (content res) (model res) (input_tokens res) (output_tokens res)
           (tokens res) (cost res) (duration res) (Some task) tid.

Definition tag_outcome (task : string) (tid : option string) (o : outcome result)
    : outcome result :=
  match o with
  | Ok res => Ok (tagged task tid res)
  | Raise e => Raise e
  end.

(** The admission check [route] makes before any call. *)
Definition admission (clk : clock) (self : ModelRouter) (max_tokens : Z) : M world unit :=
  with_budget self (fun b => check_all b clk max_tokens).

Section RoutedLocalTask.
Variable settings : Settings.
Variable local_backend : nat -> string -> option local_reply.
Variable cloud_backend : nat -> string -> Z -> string -> string -> option cloud_response.
Variable prompt_files : string -> option string.
Variable format_template : string -> list (string * pyval) -> outcome string.
Variable clk : clock.
Variable self : ModelRouter.

(** A LOCAL task without a template: admission, then [call_local_model]. *)
Lemma route_local_task (prompt task system_prompt : string) (max_tokens : Z) (w : world) :
  in_tasks task LOCAL_TASKS = true ->
  snd (admission clk self max_tokens w) = Ok tt ->
  let local :=
    call_local_model settings local_backend cloud_backend clk self prompt task
      (fst (admission clk self max_tokens w)) in
  route settings local_backend cloud_backend prompt_files format_template clk self
        prompt task None None system_prompt max_tokens w
    = (fst local, tag_outcome task None (snd local)).
Proof.
  intros Htask Hadm local. subst local. unfold route, admission in *.
  cbn [str_truthy]. unfold bind at 1. unfold ret at 1. unfold bind at 1.
  destruct (with_budget self _ w) as [w1 o]. cbn [fst snd] in *. subst o.
  rewrite Htask. unfold bind, ret.
  destruct (call_local_model _ _ _ _ _ _ _ w1) as [w2 [res|e]]; done.
Qed.

(** C3 (as amended).  For a LOCAL-routed task that passed admission: when the
    local backend is disabled or fails, the router falls back to one
    reduced-budget cloud call (claude-haiku, 256 output tokens) if a cloud
    credential is resolvable, and the routed call then returns what that
    call returns or raises what it raises; if no credential is resolvable the
    routed call always returns a result, which after a local failure is the
    static default payload. *)
Theorem local_task_fallback_chain (prompt task system_prompt : string) (max_tokens : Z)
    (w : world) :
  in_tasks task LOCAL_TASKS = true ->
  snd (admission clk self max_tokens w) = Ok tt ->
  let w1 := fst (admission clk self max_tokens w) in
  let routed := route settings local_backend cloud_backend prompt_files format_template clk self
                      prompt task None None system_prompt max_tokens w in
  (str_truthy (_anthropic_key self) = false ->
     (exists res, snd routed = Ok res)
     /\ (local_unavailable settings local_backend w1 prompt ->
         routed = (after_local_attempt settings prompt w1,
                   Ok (tagged task None fallback_default_result))))
  /\ (str_truthy (_anthropic_key self) = true ->
      local_unavailable settings local_backend w1 prompt ->
      let cloud := call_claude cloud_backend clk self prompt task ""
                     "claude-haiku-4-5-20251001" 256
                     (after_local_attempt settings prompt w1) in
      routed = (fst cloud, tag_outcome task None (snd cloud))).
Proof.
  intros Htask Hadm w1 routed. subst routed.
  rewrite route_local_task by done. fold w1.
  split.
  - intros Hkey. split.
    + destruct (call_local_model_no_credential settings local_backend cloud_backend clk self
                  prompt task w1 Hkey) as [res Hres].
      exists (tagged task None res). cbn [snd]. by rewrite Hres.
    + intros Hun. rewrite call_local_model_unavailable by done.
      by rewrite fallback_without_credential.
  - intros Hkey Hun cloud. subst cloud.
    rewrite call_local_model_unavailable by done.
    by rewrite fallback_with_credential.
Qed.
End RoutedLocalTask.

Definition demo_settings : Settings := mkSettings true false "".
Definition demo_world : world := World redis_empty [] None [] None None.
Definition no_local (n : nat) (prompt : string) : option local_reply := None.
Definition no_cloud (n : nat) (model : string) (max_tokens : Z) (system_prompt prompt : string)
    : option cloud_response := None.
Definition no_files (name : string) : option string := None.
Definition no_format (template : string) (vars : list (string * pyval)) : outcome string :=
  Ok template.
Definition keyless_router : ModelRouter := mkModelRouter "acme" (Some demo_enforcer) None.
Definition keyed_router : ModelRouter := mkModelRouter "acme" (Some demo_enforcer) (Some "sk-test").

Lemma local_task_fallback_chain_witness :
  exists res,
    snd (route demo_settings no_local no_cloud no_files no_format (at_second 0) keyless_router
               "Classify this ticket" "classify" None None "" 1024 demo_world) = Ok res.
Proof.
  apply (local_task_fallback_chain demo_settings no_local no_cloud no_files no_format
           (at_second 0) keyless_router "Classify this ticket" "classify" "" 1024 demo_world);
    reflexivity.
Defined.

(** C3 (as stated) fails: with a credential configured, a LOCAL task whose
    local backend fails and whose fallback cloud call fails too makes the
    routed call raise. *)
Lemma local_task_can_fail :
  in_tasks "classify" LOCAL_TASKS = true
  /\ snd (route demo_settings no_local no_cloud no_files no_format (at_second 0) keyed_router
                "Classify this ticket" "classify" None None "" 1024 demo_world)
     = Raise BackendError.
Proof. by vm_compute. Qed.

(** ** Who writes the circuit record *)

(** [int(estimated_input + max_tokens)], the estimate [call_claude] checks. *)
Definition claude_estimate (prompt : string) (max_tokens : Z) : Z :=
  Py.int_of_float (inject_Z (Py.len_split prompt) * (13 # 10) + inject_Z max_tokens)%Q.

Section CircuitWriters.
Variable settings : Settings.
Variable local_backend : nat -> string -> option local_reply.
Variable cloud_backend : nat -> string -> Z -> string -> string -> option cloud_response.
Variable clk : clock.
Variable self : ModelRouter.

(** A cloud call that passed the token check, step by step. *)
Lemma call_claude_admitted (b : BudgetEnforcer) (prompt task system_prompt model_ : string)
    (max_tokens : Z) (w : world) :
  budget self = Some b ->
  str_truthy (_anthropic_key self) = true ->
  snd (check_daily_tokens b clk (claude_estimate prompt max_tokens) (w_redis w)) = Ok tt ->
  call_claude cloud_backend clk self prompt task system_prompt model_ max_tokens w
    = let w1 := fst (log_call (CloudCall model_ max_tokens system_prompt prompt) w) in
      match cloud_backend (length (w_calls w)) model_ max_tokens system_prompt prompt with
      | None => (with_redis (fst (record_failure b clk (w_redis w))) w1, Raise BackendError)
      | Some response =>
          let n := cr_input_tokens response + cr_output_tokens response in
          (with_redis (fst (record_success b (fst (add_daily_tokens b clk n (w_redis w))))) w1,
           Ok (mkResult (cr_text response) model_ (Some (cr_input_tokens response))
                        (Some (cr_output_tokens response)) n
                        (estimate_cost (cr_input_tokens response) (cr_output_tokens response) model_)
                        (py_round (cr_elapsed response) 3) None None))
      end.
Proof.
  intros Hb Hkey Hchk.
  unfold call_claude, claude_estimate in *. rewrite Hkey. cbn [negb].
  unfold with_budget. rewrite Hb.
  pose proof (check_daily_tokens_pure b clk
    (Py.int_of_float (inject_Z (Py.len_split prompt) * (13 # 10) + inject_Z max_tokens))
    (w_redis w)) as Hpure.
  destruct w as [r calls run audit ticket lead].
  cbn [w_redis w_calls] in *.
  unfold bind at 1. unfold on_redis at 1, lift. cbn [w_redis w_calls w_run w_audit w_ticket w_lead].
  destruct (check_daily_tokens b clk _ r) as [r1 o1].
  cbn [fst snd] in Hchk, Hpure. subst o1 r1.
  unfold try_except, bind, get_state, log_call, modify, raise, ret, with_redis.
  cbn [fst snd w_redis w_calls w_run w_audit w_ticket w_lead].
  destruct (cloud_backend (length calls) model_ max_tokens system_prompt prompt) as [resp|].
  - unfold on_redis, lift, with_redis. cbn [w_redis w_calls w_run w_audit w_ticket w_lead].
    pose proof (add_daily_tokens_circuit b b clk
                  (cr_input_tokens resp + cr_output_tokens resp) r) as [_ Hok].
    destruct (add_daily_tokens b clk _ r) as [r2 o2].
    cbn [snd] in Hok. subst o2. reflexivity.
  - unfold on_redis, lift, with_redis. cbn [w_redis w_calls w_run w_audit w_ticket w_lead].
    pose proof (record_failure_entry b clk r) as [_ Hok].
    destruct (record_failure b clk r) as [r2 o2]. cbn [fst snd] in *. by subst o2.
Qed.

(** It records its outcome: a failure through [record_failure], a success
    through [record_success]. *)
Lemma call_claude_circuit (b : BudgetEnforcer) (prompt task system_prompt model_ : string)
    (max_tokens : Z) (w : world) :
  budget self = Some b ->
  str_truthy (_anthropic_key self) = true ->
  snd (check_daily_tokens b clk (claude_estimate prompt max_tokens) (w_redis w)) = Ok tt ->
  let after := call_claude cloud_backend clk self prompt task system_prompt model_ max_tokens w in
  match cloud_backend (length (w_calls w)) model_ max_tokens system_prompt prompt with
  | None =>
      snd after = Raise BackendError
      /\ circuit_at b (now clk) (w_redis (fst after))
         = after_failure (circuit_at b (now clk) (w_redis w)) (now clk)
  | Some _ =>
      is_ok (snd after) = true
      /\ forall t, circuit_at b t (w_redis (fst after)) = chash_empty
  end.
Proof.
  intros Hb Hkey Hchk after. subst after.
  rewrite (call_claude_admitted b) by done. cbv zeta.
  destruct (cloud_backend _ _ _ _ _) as [resp|]; cbn [fst snd with_redis w_redis].
  - split; [done|]. intros t. apply record_success_clears.
  - split; [done|]. apply record_failure_circuit. lra.
Qed.

(** A local call that makes no cloud call leaves every circuit record as it was. *)
Lemma call_local_model_keeps_circuit (prompt task : string) (w : world) (b' : BudgetEnforcer) :
  str_truthy (_anthropic_key self) = false
  \/ (local_model_enabled settings = true
      /\ is_Some (local_backend (length (w_calls w)) prompt)) ->
  r_hashes (w_redis (fst (call_local_model settings local_backend cloud_backend clk self
                            prompt task w))) !! _circuit_key b'
    = r_hashes (w_redis w) !! _circuit_key b'.
Proof.
  intros Hcase. unfold call_local_model.
  destruct (local_model_enabled settings) eqn:Hen; cbn [negb].
  - unfold try_except, bind, get_state, log_call, modify. cbn [fst snd].
    destruct (local_backend (length (w_calls w)) prompt) as [data|] eqn:Hlb.
    + unfold with_budget. destruct (budget self) as [b|]; [|done].
      unfold on_redis, lift, ret, with_redis. cbn [w_redis].
      pose proof (add_daily_tokens_circuit b b' clk
                    (default (Py.len_split (default (default "" (lr_text data)) (lr_content data)))
                       (lr_tokens_predicted data))
                    (w_redis w)) as [Hh Hok].
      destruct (add_daily_tokens _ _ _ _) as [r' o]. cbn [fst snd] in *. subst o. done.
    + destruct Hcase as [Hkey|[_ [? ?]]]; [|done].
      unfold raise. rewrite fallback_without_credential by done. done.
  - destruct Hcase as [Hkey|[? _]]; [|done].
    by rewrite fallback_without_credential.
Qed.
End CircuitWriters.




(** ** Parsing model output *)

Lemma substring_zero_length (i : nat) (s : string) : String.substring i 0 s = "".
Proof.
  revert i. induction s as [|c s IH]; intros [|i]; simpl; try done.
Qed.

Lemma find_substring (c : ascii) (s : string) (i n : nat) :
  Py.find c s = Some i -> exists rest, String.substring i (S n) s = String c rest.
Proof.
  revert i. induction s as [|c' s IH]; intros i; simpl; [done|].
  destruct (Ascii.eqb c' c) eqn:E.
  - intros [= <-]. apply Ascii.eqb_eq in E as ->. eauto.
  - destruct (Py.find c s) as [i'|]; simpl; [|done].
    intros [= <-]. by apply IH.
Qed.

Section ParseBraced.
Variable json_loads : string -> option pyval.
(** What is used of [json.loads]: the empty text is not a JSON document, and
    a document that starts with a brace decodes to a dict. *)
Hypothesis json_loads_empty : json_loads "" = None.
Hypothesis json_loads_object :
  forall rest v, json_loads (String open_brace rest) = Some v -> exists d, v = PDict d.

(** The braced part of any text is a dict, is absent, or fails to decode
    with one of the two errors the applying steps catch. *)
Lemma parse_braced_cases {S} (s : string) (st : S) :
  (has_brace s = false /\ parse_braced json_loads s st = (st, Ok None))
  \/ (exists d, parse_braced json_loads s st = (st, Ok (Some (PDict d))))
  \/ (exists e, decode_errors e = true /\ parse_braced json_loads s st = (st, Raise e)).
Proof.
  unfold parse_braced, has_brace, Py.index, Py.rindex.
  destruct (Py.find open_brace s) as [i|] eqn:Hi; [|by left].
  right. unfold bind, pure, ret, raise.
  destruct (Py.rfind close_brace s) as [j|]; [|right; by exists ValueError].
  unfold Py.slice.
  destruct (j + 1 - i)%nat as [|n] eqn:Hn.
  - rewrite substring_zero_length, json_loads_empty. right. by exists JSONDecodeError.
  - destruct (find_substring _ _ _ n Hi) as [rest ->].
    destruct (json_loads (String open_brace rest)) as [v|] eqn:Hv.
    + destruct (json_loads_object _ _ Hv) as [d ->]. left. by exists d.
    + right. by exists JSONDecodeError.
Qed.
End ParseBraced.

(** ** The applying steps *)

(** [obj.attr = data.get(key, dflt)] for each [(attr, key, dflt)], in order. *)
Definition assign_all (fields : list (string * string * pyval)) (d : list (string * pyval))
    (o : obj) : obj :=
  fold_left (fun o f => setattr (fst (fst f)) (default (snd f) (dict_get d (snd (fst f)))) o)
            fields o.

(** [obj.attr = v] for each [(attr, v)], in order. *)
Definition set_all (values : list (string * pyval)) (o : obj) : obj :=
  fold_left (fun o f => setattr (fst f) (snd f) o) values o.

(** The fields each step reads from the decoded dict, with the default of a
    missing key, and the values it falls back to when there is no dict. *)
Definition classification_fields : list (string * string * pyval) :=
  [ ("category", "category", PStr "general"); ("priority", "priority", PStr "medium");
    ("sentiment", "sentiment", PStr "neutral");
    ("suggested_team", "suggested_team", PStr "support");
    ("needs_human", "needs_human", PBool true);
    ("classification_confidence", "confidence", PFloat (1 # 2)) ].
Definition classification_fallback : list (string * pyval) :=
  [ ("category", PStr "general"); ("priority", PStr "medium");
    ("needs_human", PBool true); ("classification_confidence", PFloat 0) ].

Definition extraction_fields : list (string * string * pyval) :=
  [ ("company_size_cue", "company_size_cue", PStr "unknown");
    ("intent_classification", "intent_classification", PStr "general");
    ("urgency", "urgency", PStr "medium"); ("industry", "industry", PStr "other");
    ("spam_score", "spam_score", PFloat 0);
    ("extraction_confidence", "confidence", PFloat (1 # 2)) ].
Definition extraction_fallback : list (string * pyval) :=
  [ ("company_size_cue", PStr "unknown"); ("intent_classification", PStr "general");
    ("urgency", PStr "medium"); ("spam_score", PFloat 0);
    ("extraction_confidence", PFloat 0) ].

Definition draft_fields (text : string) : list (string * string * pyval) :=
  [ ("draft_reply", "draft_reply", PStr text); ("internal_notes", "internal_notes", PStr "");
    ("recommended_action", "recommended_action", PStr "respond");
    ("follow_up_questions", "follow_up_questions", PList []) ].
Definition draft_fallback (text : string) : list (string * pyval) :=
  [ ("draft_reply", PStr text); ("recommended_action", PStr "respond") ].

Definition qualification_fields : list (string * string * pyval) :=
  [ ("qualification_summary", "qualification_summary", PStr ""); ("score", "score", PInt 50);
    ("follow_up_questions", "follow_up_questions", PList []);
    ("suggested_next_step", "suggested_next_step", PStr "email") ].
Definition qualification_fallback (text : string) : list (string * pyval) :=
  [ ("qualification_summary", PStr text); ("score", PInt 50);
    ("suggested_next_step", PStr "email") ].

Definition email_drafts_fields : list (string * string * pyval) :=
  [ ("email_drafts", "emails", PList []) ].
Definition email_drafts_fallback (text : string) : list (string * pyval) :=
  [ ("email_drafts", PList [PDict [("subject", PStr "Follow-up"); ("body", PStr text)]]) ].

(** What an applying step may do to a record: return normally, having set
    the fields from the dict decoded out of the text, or from the fallback. *)
Definition applied (json_loads : string -> option pyval) (text : string)
    (from_dict : list (string * pyval) -> obj -> obj) (fallback : obj -> obj)
    (o : obj) (r : obj * outcome unit) : Prop :=
  (exists d, parse_braced json_loads text o = (o, Ok (Some (PDict d)))
             /\ r = (from_dict d o, Ok tt))
  \/ r = (fallback o, Ok tt).

Ltac apply_step_cases json_loads text o H1 H2 :=
  destruct (parse_braced_cases json_loads H1 H2 text o)
    as [[_ Hp]|[[d Hp]|[e [He Hp]]]];
  [ right | left; exists d; split; [exact Hp|] | right ];
  unfold try_except, bind; rewrite Hp; try rewrite He; reflexivity.

Section ApplyingSteps.
Variable json_loads : string -> option pyval.
Hypothesis json_loads_empty : json_loads "" = None.
Hypothesis json_loads_object :
  forall rest v, json_loads (String open_brace rest) = Some v -> exists d, v = PDict d.
Variable res : result.
Variable o : obj.

Lemma _apply_classification_applied :
  applied json_loads (content res)
    (fun d o => setattr "classification_raw" (PDict d) (assign_all classification_fields d o))
    (set_all classification_fallback) o
    (_apply_classification json_loads res o).
Proof.
  unfold applied, _apply_classification.
  apply_step_cases json_loads (content res) o json_loads_empty json_loads_object.
Qed.

Lemma _apply_extraction_applied :
  applied json_loads (content res)
    (fun d o => setattr "extraction_raw" (PDict d) (assign_all extraction_fields d o))
    (set_all extraction_fallback) o
    (_apply_extraction json_loads res o).
Proof.
  unfold applied, _apply_extraction.
  apply_step_cases json_loads (content res) o json_loads_empty json_loads_object.
Qed.

Lemma _apply_draft_applied :
  applied json_loads (content res)
    (assign_all (draft_fields (content res))) (set_all (draft_fallback (content res))) o
    (_apply_draft json_loads res o).
Proof.
  unfold applied, _apply_draft.
  apply_step_cases json_loads (content res) o json_loads_empty json_loads_object.
Qed.

Lemma _apply_qualification_applied :
  applied json_loads (content res)
    (assign_all qualification_fields) (set_all (qualification_fallback (content res))) o
    (_apply_qualification json_loads res o).
Proof.
  unfold applied, _apply_qualification.
  apply_step_cases json_loads (content res) o json_loads_empty json_loads_object.
Qed.

Lemma _apply_email_drafts_applied :
  applied json_loads (content res)
    (assign_all email_drafts_fields) (set_all (email_drafts_fallback (content res))) o
    (_apply_email_drafts json_loads res o).
Proof.
  unfold applied, _apply_email_drafts.
  apply_step_cases json_loads (content res) o json_loads_empty json_loads_object.
Qed.
End ApplyingSteps.

Lemma applied_returns (json_loads : string -> option pyval) (text : string)
    (from_dict : list (string * pyval) -> obj -> obj) (fallback : obj -> obj)
    (o : obj) (r : obj * outcome unit) :
  applied json_loads text from_dict fallback o r -> snd r = Ok tt.
Proof. by intros [[d [_ ->]]| ->]. Qed.


(** A decoder for the examples: it knows the empty object and one spam
    verdict, and rejects everything else. *)
Definition spam_verdict_text : string := "{" +:+ quoted "spam_score" +:+ ": 0.9}".
Definition demo_json_loads (s : string) : option pyval :=
  if String.eqb s "{}" then Some (PDict [])
  else if String.eqb s spam_verdict_text then Some (PDict [("spam_score", PFloat (9 # 10))])
  else None.

Lemma demo_json_loads_object (rest : string) (v : pyval) :
  demo_json_loads (String open_brace rest) = Some v -> exists d, v = PDict d.
Proof.
  unfold demo_json_loads.
  destruct (String.eqb _ "{}"); [intros [= <-]; eauto|].
  destruct (String.eqb _ spam_verdict_text); [intros [= <-]; eauto|done].
Qed.

Definition text_result (text : string) : result :=
  mkResult text "local_7b" None None 0 0 0 None None.


(** ** The auto-send check *)

Lemma Qeq_bool_inject_Z (n : Z) : Qeq_bool (inject_Z n) 0 = (n =? 0).
Proof.
  destruct (n =? 0) eqn:E.
  - apply Z.eqb_eq in E as ->. reflexivity.
  - apply Z.eqb_neq in E. destruct (Qeq_bool (inject_Z n) 0) eqn:E'; [|done].
    apply Qeq_bool_eq in E'. unfold Qeq in E'. simpl in E'. lia.
Qed.

(** A numeric value is truthy exactly when it is not zero. *)
Lemma truthy_number (v : pyval) (c : Q) :
  Py.as_number v = Some c -> Py.truthy v = negb (Qeq_bool c 0).
Proof.
  destruct v as [|[]|n|x|s|l|d]; simpl; intros [= <-]; try done.
  by rewrite Qeq_bool_inject_Z.
Qed.

(** The condition under which the code sends, spelled out. *)
Definition autosend_holds (tenant : Tenant) (ticket : obj) : Prop :=
  autosend_enabled tenant = true
  /\ (exists c : Q, Py.as_number (getattr ticket "classification_confidence") = Some c
                    /\ ~ c == 0 /\ (confidence_threshold tenant <= c)%Q)
  /\ Py.truthy (getattr ticket "needs_human") = false.

(** The confidence holds what its column declares: a number or [None]. *)
Definition confidence_typed (ticket : obj) : Prop :=
  getattr ticket "classification_confidence" = PNone
  \/ exists c : Q, Py.as_number (getattr ticket "classification_confidence") = Some c.

Lemma autosend_condition_true (tenant : Tenant) (ticket : obj) :
  autosend_condition tenant ticket = Ok true <-> autosend_holds tenant ticket.
Proof.
  unfold autosend_condition, autosend_holds, Py.ge_float.
  destruct (autosend_enabled tenant); cbn [negb]; [|split; [done|by intros [? _]]].
  set (conf := getattr ticket "classification_confidence").
  destruct (Py.as_number conf) as [c|] eqn:Hc.
  - rewrite (truthy_number conf c Hc), negb_involutive.
    destruct (Qeq_bool c 0) eqn:Hz.
    + split; [done|]. intros [_ [[c' [[= <-] [Hnz _]]] _]].
      apply Qeq_bool_eq in Hz. done.
    + apply Qeq_bool_neq in Hz.
      destruct (Qle_bool (confidence_threshold tenant) c) eqn:Hle.
      * apply Qle_bool_iff in Hle. split.
        -- intros [= H]. apply negb_true_iff in H. split; [done|]. split; [|done]. by exists c.
        -- intros [_ [_ ->]]. done.
      * split; [done|]. intros [_ [[c' [[= <-] [_ Hle']]] _]].
        apply Qle_bool_iff in Hle'. congruence.
  - destruct (Py.truthy conf); cbn [negb]; (split; [done|]); by intros [_ [[c [? _]] _]].
Qed.

Lemma autosend_condition_typed (tenant : Tenant) (ticket : obj) :
  confidence_typed ticket -> exists b, autosend_condition tenant ticket = Ok b.
Proof.
  unfold confidence_typed, autosend_condition, Py.ge_float.
  destruct (autosend_enabled tenant); cbn [negb]; [|eauto].
  intros [->|[c ->]]; [simpl; eauto|].
  destruct (Py.truthy _); cbn [negb]; [|eauto].
  destruct (Qle_bool _ _); eauto.
Qed.

(** The ticket and the result the check leaves, by the value of the condition. *)
Lemma autosend_check_ticket (tenant : Tenant) (run_id : string) (w : world) (ticket : obj) :
  w_ticket w = Some ticket ->
  match autosend_condition tenant ticket with
  | Ok true =>
      w_ticket (fst (autosend_check tenant run_id w))
        = Some (setattr "status" (PStr "sent") (setattr "reply_sent" (PBool true) ticket))
      /\ snd (autosend_check tenant run_id w) = Raise TypeError
  | Ok false =>
      w_ticket (fst (autosend_check tenant run_id w))
        = Some (setattr "status" (PStr "draft_ready") ticket)
      /\ snd (autosend_check tenant run_id w) = Ok false
  | Raise e => autosend_check tenant run_id w = (w, Raise e)
  end.
Proof.
  intros Ht.
  assert (Hstep : autosend_check tenant run_id w
                  = (let! send := pure (autosend_condition tenant ticket) in
                     if send then
                       run! update_run_status "running" [("current_step", PStr "autosend")] in
                       run! on_ticket (modify (setattr "reply_sent" (PBool true))) in
                       run! on_ticket (modify (setattr "status" (PStr "sent"))) in
                       run! create_audit_entry (id tenant) run_id
                              [ ("action", PStr "email_sent"); ("workflow", PStr "support_triage");
                                ("step", PStr "autosend");
                                ("reason_code", PStr "confidence_above_threshold");
                                ("metadata",
                                 PDict [("confidence", getattr ticket "classification_confidence")]) ] in
                       ret true
                     else
                       run! on_ticket (modify (setattr "status" (PStr "draft_ready"))) in
                       ret false) w).
  { unfold autosend_check. unfold bind at 1. unfold get_state at 1. by rewrite Ht. }
  rewrite Hstep. clear Hstep. unfold bind at 1. unfold pure at 1.
  destruct (autosend_condition tenant ticket) as [[|]|e]; [| |done].
  - destruct w as [r calls run audit tk lead]. cbn [w_ticket] in Ht. subst tk.
    unfold bind, update_run_status, on_ticket, lift, modify, set_ticket, set_run.
    destruct run; cbn; done.
  - destruct w as [r calls run audit tk lead]. cbn [w_ticket] in Ht. subst tk.
    unfold bind, on_ticket, lift, modify, set_ticket. cbn. done.
Qed.

(** C10 (as amended).  In the auto-send check of the support pipeline, with
    the confidence holding a number or [None]: the ticket gets
    [reply_sent = True] and [status = "sent"] exactly when the tenant has
    autosend enabled, the confidence is a number other than zero that is at
    least the tenant's threshold, and [needs_human] is falsy (false or
    unset); in every other case its status becomes [draft_ready] and
    [reply_sent] is left as it was. *)
Theorem autosend_exactly_when (tenant : Tenant) (run_id : string) (w : world) (ticket : obj) :
  w_ticket w = Some ticket ->
  confidence_typed ticket ->
  exists ticket',
    w_ticket (fst (autosend_check tenant run_id w)) = Some ticket'
    /\ (autosend_holds tenant ticket
        <-> getattr ticket' "reply_sent" = PBool true /\ getattr ticket' "status" = PStr "sent")
    /\ (~ autosend_holds tenant ticket ->
        getattr ticket' "status" = PStr "draft_ready"
        /\ getattr ticket' "reply_sent" = getattr ticket "reply_sent").
Proof.
  intros Ht Hty.
  pose proof (autosend_check_ticket tenant run_id w ticket Ht) as H.
  pose proof (autosend_condition_true tenant ticket) as Hiff.
  destruct (autosend_condition_typed tenant ticket Hty) as [b Hb].
  rewrite Hb in H, Hiff. destruct b.
  - destruct H as [H _]. eexists. split; [exact H|].
    assert (Hh : autosend_holds tenant ticket) by (by apply Hiff).
    split; [|done]. split; [|done]. intros _.
    unfold getattr, setattr. split.
    + rewrite lookup_insert_ne by done. by rewrite lookup_insert_eq.
    + by rewrite lookup_insert_eq.
  - destruct H as [H _]. eexists. split; [exact H|].
    assert (Hh : ~ autosend_holds tenant ticket).
    { intros Hh. apply Hiff in Hh. done. }
    unfold getattr, setattr. split.
    + split; [done|]. intros [_ Hs]. rewrite lookup_insert_eq in Hs. done.
    + intros _. split.
      * by rewrite lookup_insert_eq.
      * by rewrite lookup_insert_ne.
Qed.

Definition demo_tenant (autosend : bool) (threshold : Q) (config : option string) : Tenant :=
  mkTenant "acme" 100 50000 5 None autosend threshold config None.

Definition ticket_of (confidence needs_human : pyval) : obj :=
  list_to_map [ ("status", PStr "processing"); ("reply_sent", PBool false);
                ("classification_confidence", confidence); ("needs_human", needs_human) ].

Definition world_with_ticket (ticket : obj) : world :=
  World redis_empty [] (Some ∅) [] (Some ticket) None.

Lemma autosend_exactly_when_witness :
  exists ticket',
    w_ticket (fst (autosend_check (demo_tenant true (85 # 100) None) "run-1"
                     (world_with_ticket (ticket_of (PFloat (9 # 10)) (PBool false)))))
      = Some ticket'
    /\ getattr ticket' "reply_sent" = PBool true /\ getattr ticket' "status" = PStr "sent".
Proof.
  destruct (autosend_exactly_when (demo_tenant true (85 # 100) None) "run-1"
              (world_with_ticket (ticket_of (PFloat (9 # 10)) (PBool false)))
              (ticket_of (PFloat (9 # 10)) (PBool false)) eq_refl
              (or_intror (ex_intro _ (9 # 10)%Q eq_refl)))
    as [ticket' [H1 [H2 _]]].
  exists ticket'. split; [exact H1|]. apply H2.
  split; [reflexivity|]. split; [|reflexivity].
  exists (9 # 10)%Q. split; [reflexivity|]. split; [|simpl; lra]. intros H. discriminate H.
Defined.

(** C10 (as stated) fails: with autosend enabled, a confidence of 0.0 that
    is present and not below the tenant's threshold of 0.0, and
    [needs_human] false, no reply is sent: the status becomes
    [draft_ready]. *)
Lemma zero_confidence_not_sent :
  let tenant := demo_tenant true 0 None in
  let ticket := ticket_of (PFloat 0) (PBool false) in
  let after := w_ticket (fst (autosend_check tenant "run-1" (world_with_ticket ticket))) in
  autosend_enabled tenant = true
  /\ getattr ticket "classification_confidence" = PFloat 0
  /\ (confidence_threshold tenant <= 0)%Q
  /\ getattr ticket "needs_human" = PBool false
  /\ (getattr (default ∅ after) "status" = PStr "draft_ready")
  /\ (getattr (default ∅ after) "reply_sent" = PBool false).
Proof.
  cbv zeta. repeat split; try reflexivity. simpl. lra.
Qed.

(** In the sending branch the audit call passes a keyword [metadata] that
    [create_audit_entry] does not have: the call raises [TypeError] after the
    ticket was marked sent. *)
Lemma autosend_audit_call_raises (tenant : Tenant) (run_id : string) (w : world) (ticket : obj) :
  w_ticket w = Some ticket ->
  autosend_condition tenant ticket = Ok true ->
  snd (autosend_check tenant run_id w) = Raise TypeError.
Proof.
  intros Ht Hc. pose proof (autosend_check_ticket tenant run_id w ticket Ht) as H.
  rewrite Hc in H. apply H.
Qed.

(** ** Routing rules *)

(** The cases in which the source ignores the configuration: no document,
    an empty one, one [yaml.safe_load] rejects with [YAMLError], or one that
    loads to a falsy value. *)
Definition config_ignored (yaml_safe_load : string -> option pyval) (tenant : Tenant) : Prop :=
  str_truthy (support_config_yaml tenant) = false
  \/ yaml_safe_load (default "" (support_config_yaml tenant)) = None
  \/ exists v, yaml_safe_load (default "" (support_config_yaml tenant)) = Some v
               /\ Py.truthy v = false.

Lemma contains_empty_dict (item : pyval) :
  Py.hashable item = true -> Py.contains (PDict []) item = Ok false.
Proof. by destruct item. Qed.

Lemma get_empty_dict (key dflt : pyval) :
  Py.hashable key = true -> Py.get (PDict []) key dflt = Ok dflt.
Proof. by destruct key. Qed.

Lemma get_str_empty_dict (key : string) (dflt : pyval) :
  Py.get (PDict []) (PStr key) dflt = Ok dflt.
Proof. reflexivity. Qed.

Lemma lt_numbers (a b : pyval) (x y : Q) :
  Py.as_number a = Some x -> Py.as_number b = Some y -> Py.lt a b = Ok (Qlt_bool x y).
Proof.
  intros Ha Hb. destruct a; simpl in Ha |- *; try done; rewrite Hb; congruence.
Qed.

Lemma hashable_or (a b : pyval) :
  Py.hashable a = true -> Py.hashable b = true -> Py.hashable (Py.or_ a b) = true.
Proof. unfold Py.or_. by destruct (Py.truthy a). Qed.

(** With the configuration ignored, and a ticket whose category, priority and
    sentiment are hashable and whose confidence is a number or falsy, the
    rules return normally with the built-in defaults: the team is the
    suggested team or [support], the SLA is 24 hours, and the ticket is
    escalated exactly when its confidence (0 if falsy) is below 0.5. *)
Lemma routing_rules_defaults (clk : clock) (yaml_safe_load : string -> option pyval)
    (tenant : Tenant) (ticket : obj) (c : Q) :
  config_ignored yaml_safe_load tenant ->
  Py.hashable (getattr ticket "category") = true ->
  Py.hashable (getattr ticket "priority") = true ->
  Py.hashable (getattr ticket "sentiment") = true ->
  Py.as_number (Py.or_ (getattr ticket "classification_confidence") (PInt 0)) = Some c ->
  let routed :=
    setattr "sla_due_at" (PFloat (now clk + inject_Z 24 * 3600)%Q)
      (setattr "tags" (PList [])
         (setattr "assigned_team" (Py.or_ (getattr ticket "suggested_team") (PStr "support"))
            ticket)) in
  _apply_routing_rules clk yaml_safe_load tenant ticket
    = (if Qlt_bool c (1 # 2)
       then setattr "tags" (PList [PStr "auto-escalated"])
              (setattr "status" (PStr "escalated") (setattr "needs_human" (PBool true) routed))
       else routed,
       Ok tt).
Proof.
  intros Hcfg Hcat Hpri Hsen Hconf routed. subst routed.
  unfold _apply_routing_rules.
  assert (Hconfig : (if str_truthy (support_config_yaml tenant)
                     then match yaml_safe_load (default "" (support_config_yaml tenant)) with
                          | Some v => Py.or_ v (PDict [])
                          | None => PDict []
                          end
                     else PDict []) = PDict []).
  { destruct Hcfg as [->|[->|[v [-> Hv]]]]; [done|by destruct (str_truthy _)|].
    unfold Py.or_. rewrite Hv. by destruct (str_truthy _). }
  rewrite Hconfig. clear Hconfig.
  unfold bind, pure, get_state, ret, modify, raise. cbv beta.
  assert (Hmapped : forall b : bool,
            (if b then (fun s : obj => (s, Ok false)) else (fun s : obj => (s, Ok false)))
            = (fun s : obj => (s, Ok false))) by (by intros []).
  repeat (progress (rewrite ?get_str_empty_dict, ?(contains_empty_dict _ Hcat),
                      ?(contains_empty_dict _ Hpri), ?(contains_empty_dict _ Hsen),
                      ?Hmapped, ?(get_empty_dict _ _ (hashable_or _ (PStr "medium") Hpri eq_refl));
                    cbn [Py.as_number]; cbv beta iota)).
  rewrite (lt_numbers _ (PFloat (1 # 2)) c (1 # 2) Hconf eq_refl). cbv beta iota.
  destruct (Qlt_bool c (1 # 2)); reflexivity.
Qed.

(** C8 (where the code departs from it).  A configuration document that
    [yaml.safe_load] reads as a non-empty plain scalar is not ignored: the
    rules call [config.get] on a string and raise [AttributeError], leaving
    the ticket as it was. *)
Theorem routing_rules_scalar_config_raises (clk : clock)
    (yaml_safe_load : string -> option pyval) (tenant : Tenant) (doc s : string) (ticket : obj) :
  support_config_yaml tenant = Some doc -> doc <> "" ->
  yaml_safe_load doc = Some (PStr s) -> s <> "" ->
  _apply_routing_rules clk yaml_safe_load tenant ticket = (ticket, Raise AttributeError).
Proof.
  intros Hdoc Hne Hload Hs. unfold _apply_routing_rules.
  rewrite Hdoc. change (default "" (Some doc)) with doc. cbn [str_truthy].
  apply String.eqb_neq in Hne, Hs. rewrite Hne, Hload. cbn [negb].
  unfold Py.or_. cbn [Py.truthy]. rewrite Hs. cbn [negb].
  reflexivity.
Qed.

(** A loader for the examples: every document is a plain scalar. *)
Definition scalar_yaml (doc : string) : option pyval := Some (PStr doc).

Lemma routing_rules_scalar_config_raises_witness :
  snd (_apply_routing_rules (at_second 0) scalar_yaml (demo_tenant false (85 # 100) (Some "hello"))
         (ticket_of (PFloat (9 # 10)) (PBool false)))
  = Raise AttributeError.
Proof.
  rewrite (routing_rules_scalar_config_raises (at_second 0) scalar_yaml
             (demo_tenant false (85 # 100) (Some "hello")) "hello" "hello"
             (ticket_of (PFloat (9 # 10)) (PBool false)));
    [reflexivity|reflexivity|discriminate|reflexivity|discriminate].
Defined.

(** ** What a routed call leaves alone *)

(** [m] relates every world to the world it leaves, raising or not. *)
Definition frame {S A} (R : S -> S -> Prop) (m : M S A) : Prop :=
  forall s, R s (fst (m s)).

Section Frames.
Context {S : Type} (R : S -> S -> Prop) `{!PreOrder R}.

Lemma frame_ret {A} (a : A) : frame R (ret a).
Proof. intros s. simpl. reflexivity. Qed.

Lemma frame_raise {A} (e : exn) : frame R (raise (A:=A) e).
Proof. intros s. simpl. reflexivity. Qed.

Lemma frame_pure {A} (r : outcome A) : frame R (pure r).
Proof. intros s. simpl. reflexivity. Qed.

Lemma frame_get_state : frame R get_state.
Proof. intros s. simpl. reflexivity. Qed.

Lemma frame_bind {A B} (m : M S A) (k : A -> M S B) :
  frame R m -> (forall a, frame R (k a)) -> frame R (bind m k).
Proof.
  intros Hm Hk s. unfold bind. specialize (Hm s).
  destruct (m s) as [s1 [a|e]]; simpl in *; [|done].
  etrans; [exact Hm|apply Hk].
Qed.

Lemma frame_try_except {A} (m : M S A) (handles : exn -> bool) (h : exn -> M S A) :
  frame R m -> (forall e, frame R (h e)) -> frame R (try_except m handles h).
Proof.
  intros Hm Hh s. unfold try_except. specialize (Hm s).
  destruct (m s) as [s1 [a|e]]; simpl in *; [done|].
  destruct (handles e); [|done].
  etrans; [exact Hm|apply Hh].
Qed.
End Frames.

(** A computation that returns went through each of its two halves. *)
Lemma bind_ok_inv {S A B} (m : M S A) (k : A -> M S B) (s s' : S) (b : B) :
  bind m k s = (s', Ok b) -> exists s1 a, m s = (s1, Ok a) /\ k a s1 = (s', Ok b).
Proof.
  unfold bind. destruct (m s) as [s1 [a|e]]; [eauto|done].
Qed.

(** The rows of the database, which the router never touches. *)
Definition db_kept (w w' : world) : Prop :=
  w_run w' = w_run w /\ w_audit w' = w_audit w
  /\ w_ticket w' = w_ticket w /\ w_lead w' = w_lead w.

#[local] Instance db_kept_preorder : PreOrder db_kept.
Proof.
  split.
  - by intros w.
  - intros a b c (?&?&?&?) (?&?&?&?). unfold db_kept. repeat split; congruence.
Qed.

Lemma on_redis_db_kept {A} (m : M redis A) : frame db_kept (on_redis m).
Proof. intros w. unfold on_redis, lift. by destruct (m (w_redis w)). Qed.

Lemma log_call_db_kept (c : call) : frame db_kept (log_call c).
Proof. by intros w. Qed.

Section RouterFrame.
Variable settings : Settings.
Variable local_backend : nat -> string -> option local_reply.
Variable cloud_backend : nat -> string -> Z -> string -> string -> option cloud_response.
Variable prompt_files : string -> option string.
Variable format_template : string -> list (string * pyval) -> outcome string.
Variable clk : clock.
Variable self : ModelRouter.

Lemma with_budget_db_kept (f : BudgetEnforcer -> M redis unit) :
  frame db_kept (with_budget self f).
Proof.
  unfold with_budget. destruct (budget self); [apply on_redis_db_kept|apply frame_ret; apply _].
Qed.

Lemma call_claude_db_kept (prompt task system_prompt model_ : string) (max_tokens : Z) :
  frame db_kept (call_claude cloud_backend clk self prompt task system_prompt model_ max_tokens).
Proof.
  unfold call_claude. destruct (negb _); [apply frame_raise; apply _|].
  apply frame_bind; [apply _|apply with_budget_db_kept|intros _].
  apply frame_try_except; [apply _| |].
  - apply frame_bind; [apply _|apply frame_get_state; apply _|intros w].
    apply frame_bind; [apply _|apply log_call_db_kept|intros _].
    destruct (cloud_backend _ _ _ _ _); [|apply frame_raise; apply _].
    apply frame_bind; [apply _|apply with_budget_db_kept|intros _].
    apply frame_ret; apply _.
  - intros e. apply frame_bind; [apply _|apply with_budget_db_kept|intros _].
    apply frame_raise; apply _.
Qed.

Lemma _local_model_fallback_db_kept (prompt task : string) :
  frame db_kept (_local_model_fallback cloud_backend clk self prompt task).
Proof.
  unfold _local_model_fallback.
  destruct (str_truthy _); [apply call_claude_db_kept|apply frame_ret; apply _].
Qed.

Lemma call_local_model_db_kept (prompt task : string) :
  frame db_kept (call_local_model settings local_backend cloud_backend clk self prompt task).
Proof.
  unfold call_local_model. destruct (negb _); [apply _local_model_fallback_db_kept|].
  apply frame_try_except; [apply _| |intros _; apply _local_model_fallback_db_kept].
  apply frame_bind; [apply _|apply frame_get_state; apply _|intros w].
  apply frame_bind; [apply _|apply log_call_db_kept|intros _].
  destruct (local_backend _ _); [|apply frame_raise; apply _].
  apply frame_bind; [apply _|apply with_budget_db_kept|intros _].
  apply frame_ret; apply _.
Qed.

(** A routed call, whatever it does to the counters, the circuit and the
    backends, and whether it returns or raises, leaves the run, the audit
    log, the ticket and the lead as they were. *)
Lemma route_db_kept (prompt task : string) (tid : option string)
    (template_vars : option (list (string * pyval))) (system_prompt : string) (max_tokens : Z) :
  frame db_kept (route settings local_backend cloud_backend prompt_files format_template clk self
                       prompt task tid template_vars system_prompt max_tokens).
Proof.
  unfold route.
  apply frame_bind; [apply _| |intros p].
  { destruct (str_truthy tid); [|apply frame_ret; apply _].
    destruct tid; [|apply frame_ret; apply _].
    apply frame_bind; [apply _| |intros t; apply frame_pure; apply _].
    unfold load_prompt_template.
    destruct (prompt_files _); [apply frame_ret|apply frame_raise]; apply _. }
  apply frame_bind; [apply _|apply with_budget_db_kept|intros _].
  apply frame_bind; [apply _| |intros res; apply frame_ret; apply _].
  destruct (in_tasks task LOCAL_TASKS); [apply call_local_model_db_kept|].
  destruct (in_tasks task CLAUDE_TASKS); apply call_claude_db_kept.
Qed.
End RouterFrame.

(** ** Returning runs

    [hoare P m Q]: from a state satisfying [P], if [m] returns [a] it leaves
    a state satisfying [Q a]. *)
Definition hoare {S A} (P : S -> Prop) (m : M S A) (Q : A -> S -> Prop) : Prop :=
  forall s s' a, P s -> m s = (s', Ok a) -> Q a s'.

Lemma hoare_bind {S A B} (P : S -> Prop) (m : M S A) (Q : A -> S -> Prop)
    (k : A -> M S B) (R : B -> S -> Prop) :
  hoare P m Q -> (forall a, hoare (Q a) (k a) R) -> hoare P (bind m k) R.
Proof.
  intros Hm Hk s s' b HP H. apply bind_ok_inv in H as (s1 & a & H1 & H2).
  eapply Hk; [|exact H2]. eapply Hm; eauto.
Qed.

Lemma hoare_ret {S A} (P : S -> Prop) (a : A) (Q : A -> S -> Prop) :
  (forall s, P s -> Q a s) -> hoare P (ret a) Q.
Proof. intros H s s' a' HP [= <- <-]. by apply H. Qed.

Lemma hoare_weaken {S A} (P : S -> Prop) (m : M S A) (Q Q' : A -> S -> Prop) :
  hoare P m Q -> (forall a s, Q a s -> Q' a s) -> hoare P m Q'.
Proof. intros Hm HQ s s' a HP H. eapply HQ, Hm; eauto. Qed.

(** ** The worker pipelines *)

(** Rows that exist keep existing. *)
Definition rows_present (w w' : world) : Prop :=
  (is_Some (w_run w) -> is_Some (w_run w'))
  /\ (is_Some (w_ticket w) -> is_Some (w_ticket w'))
  /\ (is_Some (w_lead w) -> is_Some (w_lead w')).

#[local] Instance rows_present_preorder : PreOrder rows_present.
Proof.
  split.
  - by intros w.
  - intros a b c (?&?&?) (?&?&?). unfold rows_present. naive_solver.
Qed.

Lemma db_kept_rows_present (w w' : world) : db_kept w w' -> rows_present w w'.
Proof. intros (Hr & _ & Ht & Hl). unfold rows_present. by rewrite Hr, Ht, Hl. Qed.

(** The store and the backends, which the database steps never touch. *)
Definition backends_kept (w w' : world) : Prop :=
  w_redis w' = w_redis w /\ w_calls w' = w_calls w.

#[local] Instance backends_kept_preorder : PreOrder backends_kept.
Proof.
  split.
  - by intros w.
  - intros a b c (?&?) (?&?). unfold backends_kept. split; congruence.
Qed.

Lemma update_run_status_effect (status : string) (kwargs : list (string * pyval)) (w : world) :
  snd (update_run_status status kwargs w) = Ok tt
  /\ w_redis (fst (update_run_status status kwargs w)) = w_redis w
  /\ w_calls (fst (update_run_status status kwargs w)) = w_calls w
  /\ w_audit (fst (update_run_status status kwargs w)) = w_audit w
  /\ w_ticket (fst (update_run_status status kwargs w)) = w_ticket w
  /\ w_lead (fst (update_run_status status kwargs w)) = w_lead w
  /\ w_run (fst (update_run_status status kwargs w))
     = (fun run => fold_left (fun r kv => if hasattr_run (fst kv)
                                          then setattr (fst kv) (snd kv) r else r)
                             kwargs (setattr "status" (PStr status) run)) <$> w_run w.
Proof.
  unfold update_run_status, modify. cbn [fst snd].
  destruct (w_run w) eqn:E; cbn; rewrite ?E; done.
Qed.

Lemma create_audit_entry_effect (tenant run_id : string) (kwargs : list (string * pyval))
    (w : world) :
  w_redis (fst (create_audit_entry tenant run_id kwargs w)) = w_redis w
  /\ w_calls (fst (create_audit_entry tenant run_id kwargs w)) = w_calls w
  /\ w_run (fst (create_audit_entry tenant run_id kwargs w)) = w_run w
  /\ w_ticket (fst (create_audit_entry tenant run_id kwargs w)) = w_ticket w
  /\ w_lead (fst (create_audit_entry tenant run_id kwargs w)) = w_lead w.
Proof.
  unfold create_audit_entry. destruct (_ && _); done.
Qed.

Lemma on_lead_effect {A} (m : M obj A) (w : world) :
  snd (on_lead m w) = snd (m (default ∅ (w_lead w)))
  /\ w_redis (fst (on_lead m w)) = w_redis w
  /\ w_calls (fst (on_lead m w)) = w_calls w
  /\ w_run (fst (on_lead m w)) = w_run w
  /\ w_audit (fst (on_lead m w)) = w_audit w
  /\ w_ticket (fst (on_lead m w)) = w_ticket w
  /\ w_lead (fst (on_lead m w)) = (fun _ => fst (m (default ∅ (w_lead w)))) <$> w_lead w.
Proof.
  unfold on_lead, lift. destruct (m _) as [l o]. cbn [fst snd].
  by destruct (w_lead w) eqn:E.
Qed.

Lemma on_ticket_effect {A} (m : M obj A) (w : world) :
  snd (on_ticket m w) = snd (m (default ∅ (w_ticket w)))
  /\ w_redis (fst (on_ticket m w)) = w_redis w
  /\ w_calls (fst (on_ticket m w)) = w_calls w
  /\ w_run (fst (on_ticket m w)) = w_run w
  /\ w_audit (fst (on_ticket m w)) = w_audit w
  /\ w_lead (fst (on_ticket m w)) = w_lead w
  /\ w_ticket (fst (on_ticket m w)) = (fun _ => fst (m (default ∅ (w_ticket w)))) <$> w_ticket w.
Proof.
  unfold on_ticket, lift. destruct (m _) as [l o]. cbn [fst snd].
  by destruct (w_ticket w) eqn:E.
Qed.

Lemma update_run_status_rows (status : string) (kwargs : list (string * pyval)) :
  frame rows_present (update_run_status status kwargs).
Proof.
  intros w. destruct (update_run_status_effect status kwargs w) as (_&_&_&_&Ht&Hl&Hr).
  unfold rows_present. rewrite Ht, Hl, Hr. repeat split; try done.
  intros [r ->]. by eexists.
Qed.

Lemma create_audit_entry_rows (tenant run_id : string) (kwargs : list (string * pyval)) :
  frame rows_present (create_audit_entry tenant run_id kwargs).
Proof.
  intros w. destruct (create_audit_entry_effect tenant run_id kwargs w) as (_&_&Hr&Ht&Hl).
  unfold rows_present. by rewrite Hr, Ht, Hl.
Qed.

Lemma on_lead_rows {A} (m : M obj A) : frame rows_present (on_lead m).
Proof.
  intros w. destruct (on_lead_effect m w) as (_&_&_&Hr&_&Ht&Hl).
  unfold rows_present. rewrite Hr, Ht, Hl. repeat split; try done.
  intros [r ->]. by eexists.
Qed.

Lemma on_ticket_rows {A} (m : M obj A) : frame rows_present (on_ticket m).
Proof.
  intros w. destruct (on_ticket_effect m w) as (_&_&_&Hr&_&Hl&Ht).
  unfold rows_present. rewrite Hr, Ht, Hl. repeat split; try done.
  intros [r ->]. by eexists.
Qed.

(** [lead.spam_score and lead.spam_score > 0.8] holds exactly for a numeric
    score above 0.8. *)
Lemma spam_gate_true (lead : obj) :
  spam_gate lead = Ok true
  <-> exists s : Q, Py.as_number (getattr lead "spam_score") = Some s /\ (8 # 10 < s)%Q.
Proof.
  unfold spam_gate, Py.gt_float.
  set (v := getattr lead "spam_score").
  destruct (Py.as_number v) as [s|] eqn:Hs.
  - rewrite (truthy_number v s Hs).
    destruct (Qeq_bool s 0) eqn:Hz; cbn [negb].
    + apply Qeq_bool_eq in Hz. split; [done|].
      intros [s' [[= <-] Hlt]]. rewrite Hz in Hlt. lra.
    + split.
      * intros [= H]. apply Qlt_bool_iff in H. eauto.
      * intros [s' [[= <-] Hlt]]. apply Qlt_bool_iff in Hlt. by rewrite Hlt.
  - split; [|by intros [s [? _]]]. by destruct (Py.truthy v).
Qed.

Tactic Notation "bind_inv" hyp(H) "as" ident(s) ident(a) ident(H1) :=
  apply bind_ok_inv in H as (s & a & H1 & H).

Ltac solve_getattr :=
  unfold getattr, setattr;
  repeat (rewrite lookup_insert_ne by done);
  rewrite lookup_insert_eq; reflexivity.

Section LeadPipeline.
Variable settings : Settings.
Variable decrypt_value : string -> option string.
Variable local_backend : nat -> string -> option local_reply.
Variable cloud_backend : nat -> string -> Z -> string -> string -> option cloud_response.
Variable prompt_files : string -> option string.
Variable format_template : string -> list (string * pyval) -> outcome string.
Variable clk : clock.
Variable json_loads : string -> option pyval.
Variable py_str : pyval -> string.
Variable extract_prompt qualify_prompt email_drafts_prompt : obj -> string.
Variable qualify_system_prompt : string.
Variable _notify_slack : Tenant -> obj -> outcome unit.
Variable crm_is_configured : Tenant -> bool.
Variable crm_create_contact : obj -> pyval.
Variable crm_create_deal : obj -> pyval -> pyval.
Variable elapsed : Q.
Variable tenants : string -> option Tenant.
Variable tenant_id lead_id run_id : string.

Let extract_phase :=
  lead_extract_phase settings decrypt_value local_backend cloud_backend prompt_files
    format_template clk json_loads py_str extract_prompt tenants tenant_id run_id.
Let qualify_phase :=
  lead_qualify_phase settings local_backend cloud_backend prompt_files format_template clk
    json_loads py_str qualify_prompt email_drafts_prompt qualify_system_prompt
    _notify_slack crm_is_configured crm_create_contact crm_create_deal elapsed
    tenant_id lead_id run_id.
Let the_process_lead :=
  process_lead settings decrypt_value local_backend cloud_backend prompt_files format_template
    clk json_loads py_str extract_prompt qualify_prompt email_drafts_prompt
    qualify_system_prompt _notify_slack crm_is_configured crm_create_contact crm_create_deal
    elapsed tenants tenant_id lead_id run_id.

Lemma route_rows (router : ModelRouter) (prompt task system_prompt : string) (max_tokens : Z) :
  frame rows_present
    (route settings local_backend cloud_backend prompt_files format_template clk router
           prompt task None None system_prompt max_tokens).
Proof. intros w. apply db_kept_rows_present, route_db_kept. Qed.

(** The extraction phase returns the one extract step and the lead as stored. *)
Lemma lead_extract_phase_inv (w w1 : world) (tenant : Tenant) (router : ModelRouter)
    (steps : list pyval) (lead : obj) :
  extract_phase w = (w1, Ok (tenant, router, steps, lead)) ->
  (exists res, steps = [step_record "extract" res])
  /\ w_lead w1 = Some lead
  /\ (is_Some (w_run w) -> is_Some (w_run w1)).
Proof.
  subst extract_phase. unfold lead_extract_phase. intros H.
  bind_inv H as wa u0 Ha. bind_inv H as wb tn Hb. bind_inv H as wc w' Hc.
  unfold get_state in Hc. injection Hc as <- <-.
  destruct (w_lead wb) as [l0|] eqn:Hl0; [|done].
  bind_inv H as wd u1 Hd. bind_inv H as we u2 He. bind_inv H as wf ld Hf.
  bind_inv H as wg res Hg. bind_inv H as wh u3 Hh. bind_inv H as wi ld' Hi.
  bind_inv H as wj u4 Hj.
  unfold ret in H. injection H as <- <- <- <- <-.
  split; [eauto|].
  pose proof (update_run_status_rows "running"
                [("started_at", PFloat (now clk)); ("current_step", PStr "init")] w) as R0.
  rewrite Ha in R0. cbn [fst] in R0.
  assert (wb = wa) as ->.
  { unfold load_tenant in Hb. destruct (tenants tenant_id); [|done].
    unfold ret in Hb. by injection Hb. }
  pose proof (update_run_status_rows "running" [("current_step", PStr "extract")] wa) as R1.
  rewrite Hd in R1. cbn [fst] in R1.
  pose proof (on_lead_rows (modify (setattr "status" (PStr "processing"))) wd) as R2.
  rewrite He in R2. cbn [fst] in R2.
  pose proof (on_lead_rows (A:=obj) get_state we) as R3.
  rewrite Hf in R3. cbn [fst] in R3.
  pose proof (route_rows (create_model_router settings decrypt_value tn)
                (extract_prompt ld) "extract" "" 1024 wf) as R4.
  unfold _extract_lead_info in Hg. rewrite Hg in R4. cbn [fst] in R4.
  pose proof (on_lead_rows (_apply_extraction json_loads res) wg) as R5.
  rewrite Hh in R5. cbn [fst] in R5.
  pose proof (on_lead_effect (A:=obj) get_state wh) as (E1&_&_&E5&_&_&E2).
  rewrite Hi in E1, E2, E5. cbn [fst snd get_state] in E1, E2, E5.
  match type of Hj with create_audit_entry ?t ?r ?k ?w = _ =>
    pose proof (create_audit_entry_effect t r k w) as (_&_&E3&_&E4) end.
  rewrite Hj in E3, E4. cbn [fst] in E3, E4.
  assert (Hlead : is_Some (w_lead wh)).
  { apply R5, R4, R3, R2, R1. rewrite Hl0. by eexists. }
  destruct Hlead as [l Hl]. rewrite Hl in E1, E2. cbn in E1, E2.
  injection E1 as <-.
  split.
  - rewrite E4, E2. done.
  - intros Hrun. rewrite E3, E5.
    apply R5, R4, R3, R2, R1, R0, Hrun.
Qed.
Definition has_run (w : world) : Prop := is_Some (w_run w).

Lemma hoare_rows {A} (m : M world A) :
  frame rows_present m -> hoare has_run m (fun _ => has_run).
Proof.
  intros Hm w w' a HP H. specialize (Hm w). rewrite H in Hm. by apply Hm.
Qed.

(** The run row once the full lead workflow has been finalised. *)
Lemma lead_run_finalised (steps : list pyval) (w : world) :
  has_run w ->
  exists run',
    w_run (fst (update_run_status "completed"
                  [ ("completed_at", PFloat (now clk));
                    ("duration_seconds", PFloat (py_round elapsed 3));
                    ("steps_completed", PList steps);
                    ("current_step", PStr "done");
                    ("lead_id", PStr lead_id) ] w)) = Some run'
    /\ getattr run' "status" = PStr "completed"
    /\ getattr run' "steps_completed" = PList steps
    /\ getattr run' "current_step" = PStr "done".
Proof.
  intros [run Hrun].
  match goal with |- context [update_run_status ?s ?k w] =>
    destruct (update_run_status_effect s k w) as (_&_&_&_&_&_&Hr) end.
  rewrite Hr, Hrun. cbn [fmap option_fmap option_map fold_left fst snd].
  eexists. split; [reflexivity|].
  change (hasattr_run "completed_at") with true.
  change (hasattr_run "duration_seconds") with true.
  change (hasattr_run "steps_completed") with true.
  change (hasattr_run "current_step") with true.
  change (hasattr_run "lead_id") with true. cbn iota.
  repeat split; solve_getattr.
Qed.

(** A run that gets through the rest of the workflow is finalised as
    completed with three or four more steps than it had: qualify,
    optionally crm, email_drafts and notify. *)
Lemma lead_qualify_phase_steps (tenant : Tenant) (router : ModelRouter) (steps : list pyval)
    (lead : obj) :
  hoare has_run (qualify_phase tenant router steps lead)
    (fun _ w' => exists run' l,
       w_run w' = Some run'
       /\ getattr run' "status" = PStr "completed"
       /\ getattr run' "steps_completed" = PList l
       /\ (length steps + 3 <= length l <= length steps + 4)%nat).
Proof.
  subst qualify_phase. unfold lead_qualify_phase.
  eapply hoare_bind; [apply hoare_rows, update_run_status_rows|intros ?].
  eapply hoare_bind; [apply hoare_rows, route_rows|intros qualify_result].
  eapply hoare_bind; [apply hoare_rows, on_lead_rows|intros ?].
  eapply hoare_bind; [apply hoare_rows, on_lead_rows|intros lead1].
  eapply hoare_bind; [apply hoare_rows, create_audit_entry_rows|intros ?].
  eapply hoare_bind; [apply hoare_rows, update_run_status_rows|intros ?].
  eapply hoare_bind; [apply hoare_rows, on_lead_rows|intros crm_result].
  eapply hoare_bind; [apply hoare_rows, on_lead_rows|intros lead2].
  eapply (hoare_bind _ _ (fun st w => has_run w
            /\ (length steps + 1 <= length st <= length steps + 2)%nat)).
  { destruct crm_result.
    - eapply hoare_bind; [apply hoare_rows, create_audit_entry_rows|intros ?].
      apply hoare_ret. intros w Hw. split; [done|]. rewrite !length_app. simpl. lia.
    - apply hoare_ret. intros w Hw. split; [done|]. rewrite !length_app. simpl. lia. }
  intros steps1.
  eapply (hoare_bind _ _ (fun _ w => has_run w
            /\ (length steps + 1 <= length steps1 <= length steps + 2)%nat)).
  { intros w w' ? [Hw Hlen] H. split; [|done].
    eapply (hoare_rows _ (update_run_status_rows _ _)); eauto. }
  intros ?.
  eapply (hoare_bind _ _ (fun _ w => has_run w
            /\ (length steps + 1 <= length steps1 <= length steps + 2)%nat)).
  { intros w w' ? [Hw Hlen] H. split; [|done].
    eapply (hoare_rows _ (route_rows _ _ _ _ _)); eauto. }
  intros draft_result.
  eapply (hoare_bind _ _ (fun _ w => has_run w
            /\ (length steps + 1 <= length steps1 <= length steps + 2)%nat)).
  { intros w w' ? [Hw Hlen] H. split; [|done].
    eapply (hoare_rows _ (on_lead_rows _)); eauto. }
  intros ?.
  eapply (hoare_bind _ _ (fun _ w => has_run w
            /\ (length steps + 1 <= length steps1 <= length steps + 2)%nat)).
  { intros w w' ? [Hw Hlen] H. split; [|done].
    eapply (hoare_rows _ (update_run_status_rows _ _)); eauto. }
  intros ?.
  eapply (hoare_bind _ _ (fun _ w => has_run w
            /\ (length steps + 1 <= length steps1 <= length steps + 2)%nat)).
  { intros w w' ? [Hw Hlen] H. split; [|done].
    eapply (hoare_rows _ (on_lead_rows _)); eauto. }
  intros lead3.
  eapply (hoare_bind _ _ (fun _ w => has_run w
            /\ (length steps + 1 <= length steps1 <= length steps + 2)%nat)).
  { intros w w' ? [Hw Hlen] H. split; [|done].
    destruct (str_truthy _).
    - unfold pure in H. by injection H as <- _.
    - unfold ret in H. by injection H as <- _. }
  intros ?.
  eapply (hoare_bind _ _ (fun _ w => has_run w
            /\ (length steps + 1 <= length steps1 <= length steps + 2)%nat)).
  { intros w w' ? [Hw Hlen] H. split; [|done].
    eapply (hoare_rows _ (on_lead_rows _)); eauto. }
  intros ?.
  eapply (hoare_bind _ _ (fun _ w => has_run w
            /\ (length steps + 1 <= length steps1 <= length steps + 2)%nat)).
  { intros w w' ? [Hw Hlen] H. split; [|done].
    eapply (hoare_rows _ (on_lead_rows _)); eauto. }
  intros ?.
  intros w w' ? [Hw Hlen] H.
  destruct (lead_run_finalised
              ((steps1 ++ [step_record "email_drafts" draft_result]) ++ [PDict [("step", PStr "notify")]])
              w Hw) as (run' & Hr & Hs & Hst & _).
  rewrite H in Hr. cbn [fst] in Hr.
  exists run'. eexists. split; [exact Hr|]. split; [exact Hs|]. split; [exact Hst|].
  rewrite !length_app. simpl. lia.
Qed.

(** The early exit of the spam gate, step by step. *)
Lemma lead_disqualify_effect (steps : list pyval) (lead l run : obj) (w : world) :
  w_lead w = Some l -> w_run w = Some run ->
  exists w2 run',
    lead_disqualify clk elapsed tenant_id lead_id run_id steps lead w = (w2, Ok tt)
    /\ w_lead w2 = Some (setattr "status" (PStr "disqualified") l)
    /\ w_run w2 = Some run'
    /\ getattr run' "status" = PStr "completed"
    /\ getattr run' "steps_completed" = PList steps
    /\ w_calls w2 = w_calls w /\ w_redis w2 = w_redis w
    /\ length (w_audit w2) = S (length (w_audit w)).
Proof.
  intros Hl Hr. destruct w as [r calls run0 audit tk ld]. cbn [w_lead w_run] in Hl, Hr.
  subst ld run0.
  unfold lead_disqualify, bind, on_lead, lift, modify, create_audit_entry, update_run_status,
    set_lead, set_run, add_audit.
  cbn [w_lead w_run w_redis w_calls w_audit w_ticket fst snd default from_option id
       Py.keys map forallb existsb andb orb create_audit_entry_required
       create_audit_entry_optional app].
  cbn [String.eqb Ascii.eqb Bool.eqb andb orb].
  cbn [w_lead w_run w_redis w_calls w_audit w_ticket fst snd fold_left].
  change (hasattr_run "completed_at") with true.
  change (hasattr_run "duration_seconds") with true.
  change (hasattr_run "steps_completed") with true.
  change (hasattr_run "lead_id") with true. cbn iota.
  eexists. eexists. split; [reflexivity|].
  cbn [w_lead w_run w_redis w_calls w_audit w_ticket length].
  repeat split; solve_getattr.
Qed.

(** The failure handler of the workers always re-raises. *)
Lemma fail_run_raises (workflow : string) (e : exn) (w : world) :
  snd (fail_run clk elapsed tenant_id run_id workflow e w) = Raise e.
Proof.
  unfold fail_run, bind.
  destruct (update_run_status_effect "failed"
              [ ("error_message", PStr (Py.take 1000 (exn_message e)));
                ("completed_at", PFloat (now clk));
                ("duration_seconds", PFloat (py_round elapsed 3)) ] w) as (Hok&_).
  destruct (update_run_status _ _ w) as [w1 o1]. cbn [snd] in Hok. subst o1.
  unfold create_audit_entry.
  cbn [Py.keys map forallb existsb andb orb create_audit_entry_required
       create_audit_entry_optional app fst snd].
  cbn [String.eqb Ascii.eqb Bool.eqb andb orb]. unfold modify, raise. reflexivity.
Qed.

(** [process_lead] once the extraction phase has returned. *)
Lemma process_lead_after_extraction (w w1 : world) (tenant : Tenant) (router : ModelRouter)
    (steps : list pyval) (lead : obj) (spam : bool) :
  extract_phase w = (w1, Ok (tenant, router, steps, lead)) ->
  spam_gate lead = Ok spam ->
  the_process_lead w
    = let rest := if spam
                  then lead_disqualify clk elapsed tenant_id lead_id run_id steps lead
                  else qualify_phase tenant router steps lead in
      match rest w1 with
      | (w2, Ok u) => (w2, Ok u)
      | (w2, Raise e) => fail_run clk elapsed tenant_id run_id "lead_qualify" e w2
      end.
Proof.
  intros Hphase Hgate. subst the_process_lead extract_phase qualify_phase.
  unfold process_lead, try_except. unfold bind at 1. rewrite Hphase.
  unfold bind at 1. unfold pure at 1. rewrite Hgate. cbv zeta.
  destruct spam; reflexivity.
Qed.

End LeadPipeline.

(** The oracles of the examples: a local model that returns a spam verdict,
    no cloud backend, one tenant. *)
Definition spam_local (n : nat) (prompt : string) : option local_reply :=
  Some (mkLocalReply (Some ("Verdict: " +:+ spam_verdict_text)) None (Some 12) 1).
Definition one_tenant (tenant_id : string) : option Tenant :=
  Some (demo_tenant false (85 # 100) None).
Definition no_str (v : pyval) : string := "".
Definition fixed_prompt (text : string) (record : obj) : string := text.
Definition slack_ok (tenant : Tenant) (record : obj) : outcome unit := Ok tt.
Definition no_crm (tenant : Tenant) : bool := false.
Definition crm_none (record : obj) : pyval := PNone.
Definition crm_deal_none (record : obj) (contact : pyval) : pyval := PNone.
Definition no_decrypt (ciphertext : string) : option string := None.
Definition world_with_lead : world :=
  World redis_empty [] (Some ∅) [] None (Some ∅).

Definition demo_process_lead : M world unit :=
  process_lead demo_settings no_decrypt spam_local no_cloud no_files no_format (at_second 0)
    demo_json_loads no_str (fixed_prompt "extract") (fixed_prompt "qualify")
    (fixed_prompt "drafts") "system" slack_ok no_crm crm_none crm_deal_none 2 one_tenant
    "acme" "lead-1" "run-1".


(** * Further properties of the modelled code *)

(** ** [BudgetEnforcer]: the usage counters *)

(** [pipe.incrby(key, n); pipe.expire(key, ttl)] *)
Definition bump (key : string) (n ttl : Z) (t : Q) (r : redis) : redis :=
  R.expire key ttl t (fst (R.incrby key n t r)).

Lemma bump_get (key : string) (n ttl : Z) (t t' : Q) (r : redis) :
  (t' <= t + inject_Z ttl)%Q -> (0 <= inject_Z ttl)%Q ->
  R.get key t' (bump key n ttl t r) = Some (default 0 (R.get key t r) + n).
Proof.
  intros Ht' Httl. unfold bump, R.get, R.expire, R.incrby. cbn [fst r_strings].
  rewrite lookup_insert_eq.
  assert (Hfresh : forall v ex, live_entry t (r_strings r !! key) = Some (Entry v ex) ->
                     expired t (Entry (v + n) ex) = false).
  { intros v ex H. apply live_entry_expired in H as [_ H]. exact H. }
  assert (Hnew : forall v : Z, expired t' (Entry v (Some (t + inject_Z ttl)%Q)) = false).
  { intros v. unfold expired. simpl. by apply Qlt_bool_false_iff. }
  destruct (live_entry t (r_strings r !! key)) as [[v ex]|] eqn:E; cbn [e_value e_expire].
  - rewrite live_entry_Some by (by apply Hfresh).
    cbn [r_strings e_value]. rewrite lookup_insert_eq.
    rewrite live_entry_Some by apply Hnew. done.
  - rewrite live_entry_Some by done.
    cbn [r_strings e_value]. rewrite lookup_insert_eq.
    rewrite live_entry_Some by apply Hnew. by cbn.
Qed.

Lemma bump_get_ne (key key' : string) (n ttl : Z) (t t' : Q) (r : redis) :
  key <> key' -> R.get key' t' (bump key n ttl t r) = R.get key' t' r.
Proof.
  intros Hne. unfold bump, R.get, R.expire, R.incrby. cbn [fst r_strings].
  destruct (live_entry t (<[key:=_]> (r_strings r) !! key)); cbn [r_strings];
    by rewrite ?lookup_insert_ne by done.
Qed.

Lemma bump_hash_ne (key key' : string) (n ttl : Z) (t : Q) (r : redis) :
  key <> key' -> r_hashes (bump key n ttl t r) !! key' = r_hashes r !! key'.
Proof.
  intros Hne. unfold bump. rewrite expire_lookup_hash_ne by done. done.
Qed.

Lemma increment_rate_bump (self : BudgetEnforcer) (clk : clock) (r : redis) :
  increment_rate self clk r = (bump (_minute_key self clk) 1 120 (now clk) r, Ok tt).
Proof. reflexivity. Qed.

Lemma increment_daily_runs_bump (self : BudgetEnforcer) (clk : clock) (r : redis) :
  increment_daily_runs self clk r
    = (bump (_day_key self clk "runs") 1 (86400 * 2) (now clk) r, Ok tt).
Proof. reflexivity. Qed.

Lemma add_daily_tokens_bump (self : BudgetEnforcer) (clk : clock) (n : Z) (r : redis) :
  add_daily_tokens self clk n r
    = (bump (_day_key self clk "tokens") n (86400 * 2) (now clk) r, Ok tt).
Proof. reflexivity. Qed.

Lemma minute_key_not_day_key (b b' : BudgetEnforcer) (c c' : clock) (metric : string) :
  _minute_key b c <> _day_key b' c' metric.
Proof. unfold _day_key, _minute_key, String.append. cbn. congruence. Qed.

Lemma minute_key_not_circuit_key (b b' : BudgetEnforcer) (c : clock) :
  _minute_key b c <> _circuit_key b'.
Proof. unfold _circuit_key, _minute_key, String.append. cbn. congruence. Qed.

Lemma runs_key_not_tokens_key (b : BudgetEnforcer) (c : clock) :
  _day_key b c "runs" <> _day_key b c "tokens".
Proof.
  unfold _day_key. intros H.
  apply (inj (String.append "budget:")) in H.
  apply (inj (String.append (tenant_id b))) in H.
  apply (inj (String.append ":")) in H.
  revert H. unfold String.append. cbn. congruence.
Qed.


(** ** The intake under a burst of items *)

Lemma check_all_not_open (self : BudgetEnforcer) (clk : clock) (est : Z) (r : redis) :
  h_state (circuit_at self (now clk) r) <> Some "open" ->
  check_all self clk est r
    = (r, spec_admission self true (count_this_minute self clk r) (runs_today self clk r)
            (tokens_today self clk r) est).
Proof.
  intros H. unfold check_all. unfold bind at 1. rewrite check_not_open by done.
  unfold spec_admission, check_rate_limit, check_daily_runs, check_daily_tokens,
    count_this_minute, runs_today, tokens_today, bind, get_state, ret, raise.
  cbn [negb].
  destruct (_ <=? _); [done|].
  destruct (_ <=? _); [done|].
  by destruct (_ <? _).
Qed.

(** A clock reading inside one minute bucket [m] of day [d], at most 120 s
    (the lifetime of the bucket) after [t0]. *)
Definition in_window (m d : string) (t0 : Q) (c : clock) : Prop :=
  minute c = m /\ today c = d /\ (t0 <= now c)%Q /\ (now c <= t0 + 120)%Q.

(** The store reads the same throughout the window: [c0] items this
    minute, [r0] runs and [tk] tokens today, and the circuit is not open. *)
Definition steady (self : BudgetEnforcer) (m d : string) (t0 : Q) (c0 r0 tk : Z)
    (r : redis) : Prop :=
  forall c : clock, in_window m d t0 c ->
    count_this_minute self c r = c0 /\ runs_today self c r = r0
    /\ tokens_today self c r = tk
    /\ h_state (circuit_at self (now c) r) <> Some "open".

(** How many more items the minute and the day have room for. *)
Definition burst_room (self : BudgetEnforcer) (c0 r0 : Z) : Z :=
  Z.max 0 (Z.min (max_items_per_minute self - c0) (max_runs_per_day self - r0)).

Definition burst_response (self : BudgetEnforcer) (c0 r0 : Z) (k : nat) : response :=
  if Z.of_nat k <? burst_room self c0 r0 then Queued
  else HTTPException 429
         (BudgetExceededError
            (if max_items_per_minute self <=? c0 + burst_room self c0 r0
             then "rate_limit" else "daily_runs")).

Lemma spec_admission_budget_error (self : BudgetEnforcer) (b : bool) (c rr tk est : Z) (e : exn) :
  spec_admission self b c rr tk est = Raise e -> is_budget_error e = true.
Proof.
  unfold spec_admission.
  repeat match goal with |- context [if ?x then _ else _] => destruct x end;
    by intros [= <-].
Qed.

Lemma intake_budget_not_open (self : BudgetEnforcer) (ck : intake_clocks) (r : redis) :
  h_state (circuit_at self (now (at_check ck)) r) <> Some "open" ->
  intake_budget self ck (Ok tt) r
    = match spec_admission self true (count_this_minute self (at_check ck) r)
              (runs_today self (at_check ck) r) (tokens_today self (at_check ck) r) 0 with
      | Ok _ => (bump (_day_key self (at_runs ck) "runs") 1 (86400 * 2) (now (at_runs ck))
                   (bump (_minute_key self (at_rate ck)) 1 120 (now (at_rate ck)) r),
                 Ok Queued)
      | Raise e => (r, Ok (HTTPException 429 e))
      end.
Proof.
  intros H. unfold intake_budget, bind, try_except.
  rewrite check_all_not_open by done.
  destruct (spec_admission _ _ _ _ _ _) as [[]|e] eqn:E.
  - unfold ret, pure. by rewrite increment_rate_bump, increment_daily_runs_bump.
  - by rewrite (spec_admission_budget_error _ _ _ _ _ _ _ E).
Qed.

Lemma intake_budget_step (self : BudgetEnforcer) (m d : string) (t0 : Q) (c0 r0 tk : Z)
    (ck : intake_clocks) (r : redis) :
  steady self m d t0 c0 r0 tk r -> tk <= max_tokens_per_day self ->
  in_window m d t0 (at_check ck) -> in_window m d t0 (at_rate ck) ->
  in_window m d t0 (at_runs ck) ->
  snd (intake_budget self ck (Ok tt) r) = Ok (burst_response self c0 r0 0)
  /\ if 0 <? burst_room self c0 r0
     then steady self m d t0 (c0 + 1) (r0 + 1) tk (fst (intake_budget self ck (Ok tt) r))
     else fst (intake_budget self ck (Ok tt) r) = r.
Proof.
  intros Hst Htk Hc Hi Hr.
  destruct (Hst _ Hc) as (Hc0 & Hr0 & Htk0 & Hopen).
  rewrite intake_budget_not_open by done. rewrite Hc0, Hr0, Htk0.
  unfold spec_admission, burst_response, burst_room. cbn [negb].
  change (Z.of_nat 0) with 0.
  destruct (max_items_per_minute self <=? c0) eqn:E1.
  { cbn. apply Z.leb_le in E1.
    replace (0 <? _) with false by (symmetry; apply Z.ltb_ge; lia).
    replace (_ <=? _) with true by (symmetry; apply Z.leb_le; lia). done. }
  destruct (max_runs_per_day self <=? r0) eqn:E2.
  { cbn. apply Z.leb_le in E2. apply Z.leb_gt in E1.
    replace (0 <? _) with false by (symmetry; apply Z.ltb_ge; lia).
    replace (_ <=? _) with false by (symmetry; apply Z.leb_gt; lia). done. }
  apply Z.leb_gt in E1, E2.
  replace (max_tokens_per_day self <? tk + 0) with false by (symmetry; apply Z.ltb_ge; lia).
  replace (0 <? _) with true by (symmetry; apply Z.ltb_lt; lia).
  cbn [fst snd].
  split; [done|].
  intros c Hw. destruct (Hst _ Hw) as (Hc1 & Hr1 & Htk1 & Hopen1).
  destruct (Hst _ Hi) as (Hci & _), (Hst _ Hr) as (_ & Hrr & _).
  destruct Hw as (Hm & Hd & Hlo & Hhi), Hi as (Hmi & Hdi & Hloi & Hhii),
    Hr as (Hmr & Hdr & Hlor & Hhir).
  assert (Kmin : _minute_key self (at_rate ck) = _minute_key self c).
  { unfold _minute_key. by rewrite Hm, Hmi. }
  assert (Kruns : _day_key self (at_runs ck) "runs" = _day_key self c "runs").
  { unfold _day_key. by rewrite Hd, Hdr. }
  assert (Ktok : _day_key self (at_runs ck) "runs" <> _day_key self c "tokens").
  { rewrite Kruns. apply runs_key_not_tokens_key. }
  unfold count_this_minute, runs_today, tokens_today, circuit_at, R.hgetall in *.
  repeat split.
  - rewrite bump_get_ne
      by (intros H; exact (minute_key_not_day_key _ _ _ _ _ (eq_sym H))).
    rewrite Kmin, bump_get.
    + rewrite <- Kmin, Hci. done.
    + change (inject_Z 120) with 120%Q. lra.
    + done.
  - rewrite Kruns, bump_get.
    + rewrite bump_get_ne by apply minute_key_not_day_key.
      rewrite <- Kruns, Hrr. done.
    + change (inject_Z (86400 * 2)) with 172800%Q. lra.
    + done.
  - rewrite bump_get_ne by done.
    rewrite bump_get_ne by apply minute_key_not_day_key. done.
  - rewrite bump_hash_ne by apply circuit_key_not_day_key.
    rewrite bump_hash_ne by apply minute_key_not_circuit_key. done.
Qed.

Lemma burst_response_succ (self : BudgetEnforcer) (c0 r0 : Z) (k : nat) :
  0 < burst_room self c0 r0 ->
  burst_response self (c0 + 1) (r0 + 1) k = burst_response self c0 r0 (S k).
Proof.
  unfold burst_response, burst_room. intros H.
  replace (Z.max 0 (Z.min (max_items_per_minute self - (c0 + 1))
                          (max_runs_per_day self - (r0 + 1))))
    with (Z.max 0 (Z.min (max_items_per_minute self - c0) (max_runs_per_day self - r0)) - 1)
    by lia.
  set (room := Z.max 0 _) in *.
  replace (c0 + 1 + (room - 1)) with (c0 + room) by lia.
  replace (Z.of_nat (S k) <? room) with (Z.of_nat k <? room - 1); [done|].
  destruct (Z.ltb_spec (Z.of_nat k) (room - 1)), (Z.ltb_spec (Z.of_nat (S k)) room); lia.
Qed.

Lemma burst_response_full (self : BudgetEnforcer) (c0 r0 : Z) (k : nat) :
  burst_room self c0 r0 <= 0 ->
  burst_response self c0 r0 k = burst_response self c0 r0 0.
Proof.
  unfold burst_response. intros H.
  replace (Z.of_nat k <? _) with false by (symmetry; apply Z.ltb_ge; lia).
  replace (Z.of_nat 0 <? _) with false by (symmetry; apply Z.ltb_ge; lia).
  done.
Qed.



(** ** The circuit record over any number of failures *)

(** Each failure comes at most 600 s, the lifetime of the circuit record,
    after the previous one. *)
Fixpoint failures_chained (c : clock) (rest : list clock) : Prop :=
  match rest with
  | [] => True
  | c' :: rest' => (now c' <= now c + 600)%Q /\ failures_chained c' rest'
  end.

Lemma last_cons_default {A} (l : list A) (x d : A) : List.last (x :: l) d = List.last l x.
Proof.
  revert x d. induction l as [|y l IH]; intros x d; [done|].
  change (List.last (x :: y :: l) d) with (List.last (y :: l) d). by rewrite !IH.
Qed.

Lemma after_failure_count (h : chash) (t : Q) :
  default 0 (h_failures (after_failure h t)) = default 0 (h_failures h) + 1.
Proof. unfold after_failure. by destruct (_ <=? _). Qed.

(** X3.  Failures accumulate: after any run of [record_failure] calls, each
    within 600 s of the previous one, the failure count is the count before
    plus the number of calls.  If that reaches 5 the circuit is open and
    [opened_at] is the time of the last failure (every further failure
    restarts the 300 s wait); below 5 the state and [opened_at] are as
    before. *)
Theorem record_failures_accumulate (self : BudgetEnforcer) (c : clock) (rest : list clock)
    (r : redis) :
  failures_chained c rest ->
  let r' := record_failures self (c :: rest) r in
  let t := now (List.last rest c) in
  let n := failure_count self (now c) r + Z.of_nat (length (c :: rest)) in
  failure_count self t r' = n
  /\ (FAILURE_THRESHOLD <= n ->
        h_state (circuit_at self t r') = Some "open"
        /\ h_opened_at (circuit_at self t r') = Some t)
  /\ (n < FAILURE_THRESHOLD ->
        h_state (circuit_at self t r') = h_state (circuit_at self (now c) r)
        /\ h_opened_at (circuit_at self t r') = h_opened_at (circuit_at self (now c) r)).
Proof.
  cbv zeta. revert c r. induction rest as [|c' rest IH]; intros c r Hch.
  - unfold record_failures. cbn [fold_left List.last length]. unfold failure_count.
    rewrite record_failure_circuit by lra.
    rewrite after_failure_count. change (Z.of_nat 1) with 1.
    unfold after_failure, FAILURE_THRESHOLD.
    destruct (Z.leb_spec 5 (default 0 (h_failures (circuit_at self (now c) r)) + 1));
      cbn [h_state h_opened_at]; repeat split; try done; lia.
  - destruct Hch as [Hgap Hch]. specialize (IH c' (fst (record_failure self c r)) Hch).
    change (record_failures self (c :: c' :: rest) r)
      with (record_failures self (c' :: rest) (fst (record_failure self c r))).
    rewrite last_cons_default.
    unfold failure_count in *.
    rewrite record_failure_circuit in IH by done.
    rewrite after_failure_count in IH.
    replace (default 0 (h_failures (circuit_at self (now c) r))
             + Z.of_nat (length (c :: c' :: rest)))
      with (default 0 (h_failures (circuit_at self (now c) r)) + 1
            + Z.of_nat (length (c' :: rest)))
      by (cbn [length]; lia).
    destruct IH as (IH1 & IH2 & IH3). split; [exact IH1|]. split; [exact IH2|].
    intros Hn. destruct (IH3 Hn) as [Hs Ho]. rewrite Hs, Ho.
    unfold after_failure.
    replace (FAILURE_THRESHOLD <=? _) with false; [done|].
    symmetry. apply Z.leb_gt. cbn [length] in Hn. lia.
Qed.

Lemma record_failures_accumulate_witness :
  failure_count demo_enforcer 40
    (record_failures demo_enforcer [at_second 10; at_second 20; at_second 40] redis_empty) = 3.
Proof.
  assert (Hch : failures_chained (at_second 10) [at_second 20; at_second 40]).
  { cbn. repeat split; lra. }
  exact (proj1 (record_failures_accumulate demo_enforcer (at_second 10)
                  [at_second 20; at_second 40] redis_empty Hch)).
Defined.

(** X4.  The circuit record is forgotten 600 s after the last failure:
    whatever the state and the count were, a check made later than that
    finds no record, lets the request through and writes nothing, and the
    circuit reads closed with no failure. *)
Theorem circuit_record_expires (self : BudgetEnforcer) (clk ck : clock) (r : redis) :
  (now clk + 600 < now ck)%Q ->
  let r' := fst (record_failure self clk r) in
  circuit_at self (now ck) r' = chash_empty
  /\ check_circuit_breaker self ck r' = (r', Ok tt)
  /\ circuit_state self (now ck) r' = "closed"
  /\ failure_count self (now ck) r' = 0.
Proof.
  intros Ht r'.
  assert (H : circuit_at self (now ck) r' = chash_empty).
  { subst r'. destruct (record_failure_entry self clk r) as [He _].
    unfold circuit_at, R.hgetall. rewrite He. unfold live_entry, expired. cbn [e_expire].
    replace (Qlt_bool _ _) with true; [done|].
    symmetry. apply Qlt_bool_iff. rewrite circuit_ttl. lra. }
  split; [exact H|]. split.
  - apply check_not_open. by rewrite H.
  - unfold circuit_state, failure_count. by rewrite H.
Qed.

Lemma circuit_record_expires_witness :
  let r5 := record_failures demo_enforcer
              [at_second 0; at_second 0; at_second 0; at_second 0] redis_empty in
  check_circuit_breaker demo_enforcer (at_second 601)
    (fst (record_failure demo_enforcer (at_second 0) r5))
  = (fst (record_failure demo_enforcer (at_second 0) r5), Ok tt).
Proof.
  intros r5.
  exact (proj1 (proj2 (circuit_record_expires demo_enforcer (at_second 0) (at_second 601) r5
                         ltac:(cbn; lra)))).
Defined.

(** ** What the admission check writes *)

Lemma check_all_store (self : BudgetEnforcer) (clk : clock) (est : Z) (r : redis) :
  fst (check_all self clk est r) = fst (check_circuit_breaker self clk r).
Proof.
  unfold check_all. unfold bind at 1.
  destruct (check_circuit_breaker self clk r) as [r1 [[]|e]]; [|done].
  unfold check_rate_limit, check_daily_runs, check_daily_tokens, bind, get_state, ret, raise.
  cbn [fst].
  destruct (_ <=? _); [done|].
  destruct (_ <=? _); [done|].
  by destruct (_ <? _).
Qed.

Lemma hset_state_circuit (key v : string) (t : Q) (r : redis) :
  R.hgetall key t (R.hset_state key v t r)
    = CHash (Some v) (h_failures (R.hgetall key t r)) (h_opened_at (R.hgetall key t r)).
Proof.
  unfold R.hset_state, R.hgetall. rewrite halter_lookup.
  destruct (live_entry t (r_hashes r !! key)) as [e|] eqn:El.
  - apply live_entry_expired in El as [_ El]. by rewrite live_entry_Some.
  - done.
Qed.

(** X5.  [check_all] never touches a counter or another tenant's circuit,
    and keeps the failure count and [opened_at] of its own circuit.  Its
    only write turns an open circuit half-open, and it makes that write
    before the quota checks: once more than 300 s have passed since
    [opened_at] the circuit is left half-open whatever the quota checks then
    decide.  A request refused by the breaker itself, or checked while the
    circuit is not open, writes nothing. *)
Theorem check_all_only_half_opens (self : BudgetEnforcer) (clk : clock) (est : Z) (r : redis) :
  let r' := fst (check_all self clk est r) in
  let h := circuit_at self (now clk) r in
  let h' := circuit_at self (now clk) r' in
  r_strings r' = r_strings r
  /\ (forall key : string, key <> _circuit_key self -> r_hashes r' !! key = r_hashes r !! key)
  /\ h_failures h' = h_failures h
  /\ h_opened_at h' = h_opened_at h
  /\ (r' = r \/ (h_state h = Some "open" /\ h_state h' = Some "half-open"))
  /\ (h_state h = Some "open" -> (300 < now clk - default 0%Q (h_opened_at h))%Q ->
        h_state h' = Some "half-open")
  /\ (snd (check_all self clk est r) = Raise CircuitOpenError -> r' = r)
  /\ (h_state h <> Some "open" -> r' = r).
Proof.
  cbv zeta. rewrite check_all_store.
  assert (Hraise : snd (check_all self clk est r) = Raise CircuitOpenError ->
                   snd (check_circuit_breaker self clk r) = Raise CircuitOpenError).
  { unfold check_all. unfold bind at 1.
    destruct (check_circuit_breaker self clk r) as [r1 [[]|e]] eqn:E; [|done].
    unfold check_rate_limit, check_daily_runs, check_daily_tokens, bind, get_state, ret, raise.
    cbn [snd].
    destruct (_ <=? _); [done|].
    destruct (_ <=? _); [done|].
    by destruct (_ <? _). }
  revert Hraise.
  unfold check_circuit_breaker, circuit_at, bind, get_state, ret, raise, modify.
  set (key := _circuit_key self). set (h := R.hgetall key (now clk) r).
  destruct (h_state h) as [s|] eqn:Hs.
  2:{ destruct (not_data h); cbn; intros _; repeat split; auto; done. }
  change (default "closed" (Some s)) with s.
  destruct (String.eqb s "open") eqn:Eopen.
  2:{ apply String.eqb_neq in Eopen.
      destruct (not_data h); cbn [fst]; intros _; repeat split; auto; intros [= ->]; done. }
  apply String.eqb_eq in Eopen. subst s.
  assert (Hnd : not_data h = false) by (unfold not_data; by rewrite Hs).
  rewrite Hnd.
  destruct (Qlt_bool _ _) eqn:Et; cbn [fst snd].
  - intros Hraise. rewrite hset_state_circuit. fold h. cbn [h_state h_failures h_opened_at].
    repeat split; auto.
    + intros k Hk. unfold R.hset_state. by rewrite halter_lookup_ne.
    + intros H. by apply Hraise in H.
    + intros H. done.
  - intros _. apply Qlt_bool_false_iff in Et. rewrite circuit_timeout_Q in Et.
    fold h. repeat split; auto. intros _ Hlt. exfalso. lra.
Qed.

(** ** The router: what a call does to the token counter and the backends *)

Lemma with_redis_same (w : world) : with_redis (w_redis w) w = w.
Proof. by destruct w. Qed.

Lemma expire_get_ne (key key' : string) (secs : Z) (t t' : Q) (r : redis) :
  key <> key' -> R.get key' t' (R.expire key secs t r) = R.get key' t' r.
Proof.
  intros Hne. unfold R.get, R.expire. cbn [r_strings].
  destruct (live_entry t (r_strings r !! key)); [|done]. by rewrite lookup_insert_ne.
Qed.

Lemma tokens_after_add (b : BudgetEnforcer) (clk : clock) (n : Z) (r : redis) :
  tokens_today b clk (fst (add_daily_tokens b clk n r)) = tokens_today b clk r + n.
Proof.
  rewrite add_daily_tokens_bump. cbn [fst]. unfold tokens_today.
  rewrite bump_get; [done| |done].
  change (inject_Z (86400 * 2)) with 172800%Q. lra.
Qed.

Lemma tokens_after_record_success (b : BudgetEnforcer) (clk : clock) (r : redis) :
  tokens_today b clk (fst (record_success b r)) = tokens_today b clk r.
Proof.
  unfold record_success, modify, tokens_today, R.get, R.delete. cbn [fst r_strings].
  rewrite lookup_delete_ne; [done|].
  intros H. symmetry in H. revert H. apply circuit_key_not_day_key.
Qed.

Lemma halter_get (f : chash -> chash) (key key' : string) (t t' : Q) (r : redis) :
  R.get key' t' (R.halter f key t r) = R.get key' t' r.
Proof. reflexivity. Qed.

Lemma tokens_after_record_failure (b : BudgetEnforcer) (clk : clock) (r : redis) :
  tokens_today b clk (fst (record_failure b clk r)) = tokens_today b clk r.
Proof.
  assert (Hne : _circuit_key b <> _day_key b clk "tokens").
  { intros H. symmetry in H. revert H. apply circuit_key_not_day_key. }
  unfold record_failure, bind, modify, ret, R.hincrby_failures, tokens_today.
  destruct (_ <=? _); cbn [fst snd]; unfold R.hset_state_opened_at;
    by rewrite ?halter_get, expire_get_ne, halter_get.
Qed.

Lemma tokens_after_check_all (b : BudgetEnforcer) (clk : clock) (n : Z) (r : redis) :
  tokens_today b clk (fst (check_all b clk n r)) = tokens_today b clk r.
Proof.
  unfold tokens_today, R.get.
  by rewrite check_all_store, check_circuit_breaker_strings.
Qed.

Section RouterCalls.
Variable settings : Settings.
Variable local_backend : nat -> string -> option local_reply.
Variable cloud_backend : nat -> string -> Z -> string -> string -> option cloud_response.
Variable prompt_files : string -> option string.
Variable format_template : string -> list (string * pyval) -> outcome string.
Variable clk : clock.
Variable self : ModelRouter.

Lemma with_budget_calls (f : BudgetEnforcer -> M redis unit) (w : world) :
  w_calls (fst (with_budget self f w)) = w_calls w.
Proof.
  unfold with_budget. destruct (budget self) as [b|]; [|done].
  unfold on_redis, lift. by destruct (f b (w_redis w)).
Qed.

(** The requests a cloud call sends: none when it is refused, else one. *)
Lemma call_claude_calls (prompt task system_prompt model_ : string) (max_tokens : Z)
    (w w' : world) (o : outcome result) :
  call_claude cloud_backend clk self prompt task system_prompt model_ max_tokens w = (w', o) ->
  (w_calls w' = w_calls w /\ is_ok o = false)
  \/ w_calls w' = CloudCall model_ max_tokens system_prompt prompt :: w_calls w.
Proof.
  unfold call_claude.
  destruct (negb _); [intros [= <- <-]; by left|].
  unfold bind at 1.
  pose proof (with_budget_calls
                (fun b => check_daily_tokens b clk
                            (Py.int_of_float (inject_Z (Py.len_split prompt) * (13 # 10)
                                              + inject_Z max_tokens)%Q)) w) as H0.
  destruct (with_budget self _ w) as [w0 [[]|e]]; cbn [fst] in H0;
    [|intros [= <- <-]; by left].
  intros H. right. revert H.
  unfold try_except. unfold bind at 1. unfold get_state at 1.
  unfold bind at 1. unfold log_call at 1, modify at 1.
  destruct (cloud_backend _ _ _ _ _) as [resp|].
  - unfold bind at 1.
    match goal with |- context [with_budget self ?f ?w1] =>
      pose proof (with_budget_calls f w1) as H1; destruct (with_budget self f w1) as [w2 [[]|e]]
    end; cbn [fst snd w_calls] in *.
    + intros [= <- <-]. by rewrite H1, H0.
    + unfold bind at 1.
      match goal with |- context [with_budget self ?f ?w1] =>
        pose proof (with_budget_calls f w1) as H2;
        destruct (with_budget self f w1) as [w3 [[]|e']]
      end; cbn [fst snd w_calls] in *; intros [= <- <-]; by rewrite H2, H1, H0.
  - unfold raise at 1. cbn [fst snd]. unfold bind at 1.
    match goal with |- context [with_budget self ?f ?w1] =>
      pose proof (with_budget_calls f w1) as H1; destruct (with_budget self f w1) as [w2 [[]|e]]
    end; cbn [fst snd w_calls] in *; intros [= <- <-]; by rewrite H1, H0.
Qed.
(** The request of the local attempt, if the local server is enabled. *)
Definition local_attempt (prompt : string) : list call :=
  if local_model_enabled settings then [LocalCall prompt] else [].

Lemma _local_model_fallback_calls (prompt task : string) (w w' : world) (o : outcome result) :
  _local_model_fallback cloud_backend clk self prompt task w = (w', o) ->
  w_calls w' = w_calls w
  \/ w_calls w' = CloudCall "claude-haiku-4-5-20251001" 256 "" prompt :: w_calls w.
Proof.
  unfold _local_model_fallback. destruct (str_truthy _).
  - intros H. apply call_claude_calls in H as [[H _]|H]; auto.
  - intros [= <- <-]. by left.
Qed.

Lemma call_local_model_calls (prompt task : string) (w w' : world) (o : outcome result) :
  call_local_model settings local_backend cloud_backend clk self prompt task w = (w', o) ->
  w_calls w' = (local_attempt prompt ++ w_calls w)%list
  \/ w_calls w' = (CloudCall "claude-haiku-4-5-20251001" 256 "" prompt
                    :: local_attempt prompt ++ w_calls w)%list.
Proof.
  unfold call_local_model, local_attempt.
  destruct (local_model_enabled settings); cbn [negb app].
  2:{ apply _local_model_fallback_calls. }
  unfold try_except. unfold bind at 1. unfold get_state at 1.
  unfold bind at 1. unfold log_call at 1, modify at 1.
  destruct (local_backend _ _) as [data|].
  - unfold bind at 1.
    match goal with |- context [with_budget self ?f ?w1] =>
      pose proof (with_budget_calls f w1) as H1; destruct (with_budget self f w1) as [w2 [[]|e]]
    end; cbn [fst snd w_calls] in *.
    + intros [= <- <-]. by left.
    + intros H. apply _local_model_fallback_calls in H. rewrite H1 in H. exact H.
  - unfold raise at 1. cbn [fst snd].
    intros H. apply _local_model_fallback_calls in H. exact H.
Qed.

(** The prompt [route] sends: the formatted template when a template id is
    given, else the prompt passed in. *)
Definition routed_prompt (prompt : string) (tid : option string)
    (template_vars : option (list (string * pyval))) : outcome string :=
  if str_truthy tid then
    match tid with
    | Some t =>
        match prompt_files (t +:+ ".txt") with
        | Some template => format_template template (default [] template_vars)
        | None => Raise FileNotFoundError
        end
    | None => Ok prompt
    end
  else Ok prompt.

Lemma route_cases (prompt task : string) (tid : option string)
    (template_vars : option (list (string * pyval))) (system_prompt : string) (max_tokens : Z)
    (w : world) :
  route settings local_backend cloud_backend prompt_files format_template clk self
        prompt task tid template_vars system_prompt max_tokens w
  = match routed_prompt prompt tid template_vars with
    | Raise e => (w, Raise e)
    | Ok p =>
        match admission clk self max_tokens w with
        | (w1, Raise e) => (w1, Raise e)
        | (w1, Ok _) =>
            let called :=
              if in_tasks task LOCAL_TASKS
              then call_local_model settings local_backend cloud_backend clk self p task w1
              else call_claude cloud_backend clk self p task system_prompt
                     "claude-sonnet-4-20250514" max_tokens w1 in
            (fst called, tag_outcome task tid (snd called))
        end
    end.
Proof.
  unfold route, admission.
  match goal with |- bind ?m ?k w = _ =>
    assert (Hp : m w = (w, routed_prompt prompt tid template_vars))
  end.
  { unfold routed_prompt. destruct (str_truthy tid); [|reflexivity].
    destruct tid as [t|]; [|reflexivity].
    unfold load_prompt_template, bind.
    destruct (prompt_files _); reflexivity. }
  unfold bind at 1. rewrite Hp.
  destruct (routed_prompt prompt tid template_vars) as [p|e]; [|done].
  unfold bind at 1. destruct (with_budget self _ w) as [w1 [[]|e]]; [|done].
  cbv zeta. unfold bind, ret.
  destruct (in_tasks task LOCAL_TASKS).
  - by destruct (call_local_model _ _ _ _ _ _ _ _) as [w2 [res|e]].
  - destruct (in_tasks task CLAUDE_TASKS);
      by destruct (call_claude _ _ _ _ _ _ _ _ _) as [w2 [res|e]].
Qed.
Lemma admission_calls (max_tokens : Z) (w : world) :
  w_calls (fst (admission clk self max_tokens w)) = w_calls w.
Proof. apply with_budget_calls. Qed.

(** X6.  The requests of a routed call.  It sends nothing when the
    template, the admission check or the token check of the cloud call
    refuses it, and it then raises.  Otherwise a task outside [LOCAL_TASKS]
    sends exactly one request, to claude-sonnet with the caller's
    [max_tokens] and system prompt, and never one to the local server; a
    LOCAL task sends the local request if the local server is enabled and,
    after it, at most one cloud request, to claude-haiku with 256 tokens and
    no system prompt.  The prompt sent is the formatted template when a
    template id is given, else the prompt passed in.  Whatever happens, the
    run, the audit log, the ticket and the lead are left as they were. *)
Theorem route_requests (prompt task : string) (tid : option string)
    (template_vars : option (list (string * pyval))) (system_prompt : string) (max_tokens : Z)
    (w : world) :
  let after := route settings local_backend cloud_backend prompt_files format_template clk self
                     prompt task tid template_vars system_prompt max_tokens w in
  db_kept w (fst after)
  /\ ((w_calls (fst after) = w_calls w /\ is_ok (snd after) = false)
      \/ exists p, routed_prompt prompt tid template_vars = Ok p
           /\ if in_tasks task LOCAL_TASKS
              then w_calls (fst after) = (local_attempt p ++ w_calls w)%list
                   \/ w_calls (fst after)
                      = (CloudCall "claude-haiku-4-5-20251001" 256 "" p
                         :: local_attempt p ++ w_calls w)%list
              else w_calls (fst after)
                   = CloudCall "claude-sonnet-4-20250514" max_tokens system_prompt p
                     :: w_calls w).
Proof.
  cbv zeta. split; [apply route_db_kept|].
  rewrite route_cases.
  destruct (routed_prompt prompt tid template_vars) as [p|e]; [|by left].
  pose proof (admission_calls max_tokens w) as Hadm.
  destruct (admission clk self max_tokens w) as [w1 [[]|e]]; cbn [fst] in Hadm; [|by left].
  cbv zeta. destruct (in_tasks task LOCAL_TASKS).
  - right. exists p. split; [done|].
    destruct (call_local_model _ _ _ _ _ _ _ _) as [w2 o] eqn:E. cbn [fst].
    apply call_local_model_calls in E. by rewrite Hadm in E.
  - destruct (call_claude _ _ _ _ _ _ _ _ _) as [w2 o] eqn:E. cbn [fst snd].
    apply call_claude_calls in E as [[E1 E2]|E].
    + left. rewrite E1, Hadm. split; [done|]. by destruct o.
    + right. exists p. split; [done|]. by rewrite E, Hadm.
Qed.

(** *** Token accounting *)

Definition tokens_of (o : outcome result) : Z :=
  match o with
  | Ok res => tokens res
  | Raise _ => 0
  end.

Section WithBudget.
Variable b : BudgetEnforcer.
Hypothesis Hb : budget self = Some b.

Lemma with_budget_some (f : BudgetEnforcer -> M redis unit) (w : world) :
  with_budget self f w = (with_redis (fst (f b (w_redis w))) w, snd (f b (w_redis w))).
Proof.
  unfold with_budget. rewrite Hb. unfold on_redis, lift. by destruct (f b (w_redis w)).
Qed.

(** The token check of a cloud call refuses before anything is sent. *)
Lemma call_claude_refused (prompt task system_prompt model_ : string) (max_tokens : Z)
    (w : world) (e : exn) :
  str_truthy (_anthropic_key self) = true ->
  snd (check_daily_tokens b clk (claude_estimate prompt max_tokens) (w_redis w)) = Raise e ->
  call_claude cloud_backend clk self prompt task system_prompt model_ max_tokens w
    = (w, Raise e).
Proof.
  intros Hkey Hchk. unfold call_claude, claude_estimate in *. rewrite Hkey. cbn [negb].
  unfold bind at 1. rewrite with_budget_some, Hchk.
  by rewrite check_daily_tokens_pure, with_redis_same.
Qed.

Lemma call_claude_tokens (prompt task system_prompt model_ : string) (max_tokens : Z)
    (w : world) :
  let after := call_claude cloud_backend clk self prompt task system_prompt model_ max_tokens w in
  tokens_today b clk (w_redis (fst after))
    = tokens_today b clk (w_redis w) + tokens_of (snd after).
Proof.
  cbv zeta. destruct (str_truthy (_anthropic_key self)) eqn:Hkey.
  2:{ unfold call_claude. rewrite Hkey. cbn. lia. }
  destruct (snd (check_daily_tokens b clk (claude_estimate prompt max_tokens) (w_redis w)))
    as [[]|e] eqn:Hchk.
  2:{ rewrite (call_claude_refused _ _ _ _ _ _ e) by done. cbn. lia. }
  rewrite (call_claude_admitted cloud_backend clk self b) by done. cbv zeta.
  destruct (cloud_backend _ _ _ _ _) as [resp|]; cbn [fst snd with_redis w_redis tokens_of tokens].
  - by rewrite tokens_after_record_success, tokens_after_add.
  - rewrite tokens_after_record_failure. lia.
Qed.

Lemma after_local_attempt_redis (prompt : string) (w : world) :
  w_redis (after_local_attempt settings prompt w) = w_redis w.
Proof. unfold after_local_attempt. by destruct (local_model_enabled settings). Qed.

(** A local call served by the local server. *)
Lemma call_local_model_served (prompt task : string) (w : world) (data : local_reply) :
  local_model_enabled settings = true ->
  local_backend (length (w_calls w)) prompt = Some data ->
  let content := default (default "" (lr_text data)) (lr_content data) in
  let tokens_used := default (Py.len_split content) (lr_tokens_predicted data) in
  call_local_model settings local_backend cloud_backend clk self prompt task w
    = (with_redis (fst (add_daily_tokens b clk tokens_used (w_redis w)))
         (fst (log_call (LocalCall prompt) w)),
       Ok (mkResult content "local_7b" None None tokens_used 0
                    (py_round (lr_elapsed data) 3) None None)).
Proof.
  intros Hen Hlb. cbv zeta. unfold call_local_model. rewrite Hen. cbn [negb].
  unfold try_except, bind at 1, get_state at 1. unfold bind at 1.
  unfold log_call at 1, modify at 1. rewrite Hlb.
  unfold bind at 1. rewrite with_budget_some. cbn [w_redis].
  match goal with |- context [add_daily_tokens b clk ?n ?r] =>
    destruct (add_daily_tokens_circuit b b clk n r) as [_ Hok];
    destruct (add_daily_tokens b clk n r) as [r1 o1]
  end.
  cbn [fst snd] in *. subst o1. reflexivity.
Qed.

Lemma call_local_model_tokens (prompt task : string) (w : world) :
  let after := call_local_model settings local_backend cloud_backend clk self prompt task w in
  tokens_today b clk (w_redis (fst after))
    = tokens_today b clk (w_redis w) + tokens_of (snd after).
Proof.
  cbv zeta.
  destruct (local_model_enabled settings) eqn:Hen;
    [destruct (local_backend (length (w_calls w)) prompt) as [data|] eqn:Hlb|].
  - rewrite (call_local_model_served _ _ _ data) by done.
    cbn [fst snd with_redis w_redis tokens_of tokens]. apply tokens_after_add.
  - rewrite call_local_model_unavailable by (by right).
    unfold _local_model_fallback. destruct (str_truthy _).
    + rewrite call_claude_tokens. by rewrite after_local_attempt_redis.
    + unfold ret. cbn [fst snd tokens_of].
      rewrite after_local_attempt_redis. change (tokens fallback_default_result) with 0. lia.
  - rewrite call_local_model_unavailable by (by left).
    unfold _local_model_fallback. destruct (str_truthy _).
    + rewrite call_claude_tokens. by rewrite after_local_attempt_redis.
    + unfold ret. cbn [fst snd tokens_of].
      rewrite after_local_attempt_redis. change (tokens fallback_default_result) with 0. lia.
Qed.

(** X7.  Token accounting.  With a budget attached, a routed call that
    returns has raised the tenant's daily token counter by exactly the
    [tokens] of its result (input plus output for a cloud call, the
    predicted tokens or the word count for the local model, nothing for the
    static default); a routed call that raises leaves the counter as it
    was, whether it was refused or the backend failed. *)
Theorem route_token_accounting (prompt task : string) (tid : option string)
    (template_vars : option (list (string * pyval))) (system_prompt : string) (max_tokens : Z)
    (w : world) :
  let after := route settings local_backend cloud_backend prompt_files format_template clk self
                     prompt task tid template_vars system_prompt max_tokens w in
  tokens_today b clk (w_redis (fst after))
    = tokens_today b clk (w_redis w) + tokens_of (snd after).
Proof.
  cbv zeta. rewrite route_cases.
  destruct (routed_prompt prompt tid template_vars) as [p|e]; [|cbn; lia].
  unfold admission. rewrite with_budget_some.
  pose proof (tokens_after_check_all b clk max_tokens (w_redis w)) as Hadm.
  destruct (check_all b clk max_tokens (w_redis w)) as [r1 [[]|e]];
    cbn [fst snd with_redis w_redis tokens_of] in *.
  2:{ rewrite Hadm. lia. }
  assert (Htag : forall o, tokens_of (tag_outcome task tid o) = tokens_of o)
    by (by intros [res|e]).
  rewrite Htag.
  destruct (in_tasks task LOCAL_TASKS).
  - rewrite call_local_model_tokens. cbn [with_redis w_redis]. by rewrite Hadm.
  - rewrite call_claude_tokens. cbn [with_redis w_redis]. by rewrite Hadm.
Qed.
End WithBudget.

End RouterCalls.

Definition demo_cloud (n : nat) (model : string) (max_tokens : Z) (system_prompt prompt : string)
    : option cloud_response :=
  Some (mkCloudResponse "Thank you for reaching out." 120 80 (3 # 2)).

Lemma route_token_accounting_witness :
  tokens_today demo_enforcer (at_second 0)
    (w_redis (fst (route demo_settings no_local demo_cloud no_files no_format (at_second 0)
                     keyed_router "Write a reply" "draft_reply" None None "" 1024 demo_world)))
  = 200.
Proof.
  rewrite (route_token_accounting demo_settings no_local demo_cloud no_files no_format
             (at_second 0) keyed_router demo_enforcer eq_refl).
  reflexivity.
Defined.

(** A store in which the tenant has used 49 000 of its 50 000 daily tokens. *)
Definition nearly_spent : world :=
  World (fst (add_daily_tokens demo_enforcer (at_second 0) 49000 redis_empty))
        [] None [] None None.


(** ** How a worker run ends *)

(** [update_run_status] sets the status of an existing run row; no keyword
    of the workers names the status column. *)
Lemma update_run_status_sets (status : string) (kwargs : list (string * pyval)) (w : world) :
  Forall (fun kv => fst kv <> "status") kwargs ->
  has_run w ->
  exists run', w_run (fst (update_run_status status kwargs w)) = Some run'
               /\ getattr run' "status" = PStr status.
Proof.
  intros Hk [run Hrun].
  destruct (update_run_status_effect status kwargs w) as (_&_&_&_&_&_&Hr).
  rewrite Hr, Hrun. cbn [fmap option_fmap option_map]. eexists. split; [reflexivity|].
  assert (H0 : getattr (setattr "status" (PStr status) run) "status" = PStr status)
    by solve_getattr.
  revert H0. generalize (setattr "status" (PStr status) run). clear Hr.
  induction Hk as [|[k v] kwargs Hk Hks IH]; intros o Ho; [done|].
  cbn [fold_left]. apply IH. cbn [fst snd] in *.
  destruct (hasattr_run k); [|exact Ho].
  unfold getattr, setattr in *. by rewrite lookup_insert_ne.
Qed.

(** The run as the failure handler of a worker leaves it. *)
Definition run_failed (workflow : string) (e : exn) (w : world) : Prop :=
  exists run row rest,
    w_run w = Some run
    /\ getattr run "status" = PStr "failed"
    /\ getattr run "error_message" = PStr (Py.take 1000 (exn_message e))
    /\ w_audit w = row :: rest
    /\ getattr row "action" = PStr "error"
    /\ getattr row "workflow" = PStr workflow
    /\ getattr row "reason_code" = PStr "pipeline_error"
    /\ getattr row "output_summary" = cap_summary (PStr (Py.take 500 (exn_message e))).

Lemma fail_run_effect (clk : clock) (elapsed : Q) (tenant_id run_id workflow : string)
    (e : exn) (w : world) :
  has_run w ->
  snd (fail_run clk elapsed tenant_id run_id workflow e w) = Raise e
  /\ run_failed workflow e (fst (fail_run clk elapsed tenant_id run_id workflow e w))
  /\ backends_kept w (fst (fail_run clk elapsed tenant_id run_id workflow e w))
  /\ w_ticket (fst (fail_run clk elapsed tenant_id run_id workflow e w)) = w_ticket w
  /\ w_lead (fst (fail_run clk elapsed tenant_id run_id workflow e w)) = w_lead w.
Proof.
  intros [run Hrun]. destruct w as [r calls run0 audit tk ld]. cbn [w_run] in Hrun. subst run0.
  unfold fail_run, bind, modify, create_audit_entry, update_run_status, set_run, add_audit,
    raise, run_failed, backends_kept.
  cbn [w_lead w_run w_redis w_calls w_audit w_ticket fst snd
       Py.keys map forallb existsb andb orb create_audit_entry_required
       create_audit_entry_optional app].
  cbn [String.eqb Ascii.eqb Bool.eqb andb orb].
  cbn [w_lead w_run w_redis w_calls w_audit w_ticket fst snd fold_left].
  change (hasattr_run "error_message") with true.
  change (hasattr_run "completed_at") with true.
  change (hasattr_run "duration_seconds") with true. cbn iota.
  split; [done|]. split; [|done].
  eexists. eexists. eexists.
  split; [reflexivity|]. split; [solve_getattr|]. split; [solve_getattr|].
  split; [reflexivity|].
  cbn [list_to_map foldr uncurry fst snd dict_get String.eqb Ascii.eqb Bool.eqb
       default from_option id].
  repeat split; solve_getattr.
Qed.

Lemma route_rows_any (settings : Settings)
    (local_backend : nat -> string -> option local_reply)
    (cloud_backend : nat -> string -> Z -> string -> string -> option cloud_response)
    (prompt_files : string -> option string)
    (format_template : string -> list (string * pyval) -> outcome string)
    (clk : clock) (router : ModelRouter) (prompt task : string) (tid : option string)
    (template_vars : option (list (string * pyval))) (system_prompt : string) (max_tokens : Z) :
  frame rows_present
    (route settings local_backend cloud_backend prompt_files format_template clk router
           prompt task tid template_vars system_prompt max_tokens).
Proof. intros w. apply db_kept_rows_present, route_db_kept. Qed.

(** Every step of the pipelines keeps the rows that exist. *)
Ltac frame_rows :=
  repeat first
    [ apply update_run_status_rows
    | apply create_audit_entry_rows
    | apply on_lead_rows
    | apply on_ticket_rows
    | apply route_rows_any
    | apply frame_ret; apply _
    | apply frame_raise; apply _
    | apply frame_pure; apply _
    | apply frame_get_state; apply _
    | apply frame_bind; [apply _| |intros ?]
    | match goal with
      | |- frame _ (match ?x with _ => _ end) => destruct x
      end ].

Section LeadOutcome.
Variable settings : Settings.
Variable decrypt_value : string -> option string.
Variable local_backend : nat -> string -> option local_reply.
Variable cloud_backend : nat -> string -> Z -> string -> string -> option cloud_response.
Variable prompt_files : string -> option string.
Variable format_template : string -> list (string * pyval) -> outcome string.
Variable clk : clock.
Variable json_loads : string -> option pyval.
Variable py_str : pyval -> string.
Variable extract_prompt qualify_prompt email_drafts_prompt : obj -> string.
Variable qualify_system_prompt : string.
Variable _notify_slack : Tenant -> obj -> outcome unit.
Variable crm_is_configured : Tenant -> bool.
Variable crm_create_contact : obj -> pyval.
Variable crm_create_deal : obj -> pyval -> pyval.
Variable elapsed : Q.
Variable tenants : string -> option Tenant.
Variable tenant_id lead_id run_id : string.

Let extract_phase :=
  lead_extract_phase settings decrypt_value local_backend cloud_backend prompt_files
    format_template clk json_loads py_str extract_prompt tenants tenant_id run_id.
Let qualify_phase :=
  lead_qualify_phase settings local_backend cloud_backend prompt_files format_template clk
    json_loads py_str qualify_prompt email_drafts_prompt qualify_system_prompt
    _notify_slack crm_is_configured crm_create_contact crm_create_deal elapsed
    tenant_id lead_id run_id.
Let the_process_lead :=
  process_lead settings decrypt_value local_backend cloud_backend prompt_files format_template
    clk json_loads py_str extract_prompt qualify_prompt email_drafts_prompt
    qualify_system_prompt _notify_slack crm_is_configured crm_create_contact crm_create_deal
    elapsed tenants tenant_id lead_id run_id.

Lemma lead_extract_phase_rows : frame rows_present extract_phase.
Proof.
  subst extract_phase. unfold lead_extract_phase, load_tenant, _extract_lead_info.
  frame_rows.
Qed.

Lemma lead_disqualify_rows (steps : list pyval) (lead : obj) :
  frame rows_present (lead_disqualify clk elapsed tenant_id lead_id run_id steps lead).
Proof. unfold lead_disqualify. frame_rows. Qed.

Lemma lead_qualify_phase_rows (tenant : Tenant) (router : ModelRouter) (steps : list pyval)
    (lead : obj) :
  frame rows_present (qualify_phase tenant router steps lead).
Proof.
  subst qualify_phase.
  unfold lead_qualify_phase, _qualify_lead, _generate_email_drafts. frame_rows.
Qed.
(** The run row of a completed run. *)
Definition run_completed (w : world) : Prop :=
  exists run, w_run w = Some run /\ getattr run "status" = PStr "completed".

(** The lead as a returned run leaves it: disqualified by the spam gate, or
    qualified with the follow-up scheduled a day later. *)
Definition lead_settled (w : world) : Prop :=
  exists lead, w_lead w = Some lead
    /\ (getattr lead "status" = PStr "disqualified"
        \/ (getattr lead "status" = PStr "qualified"
            /\ getattr lead "follow_up_scheduled_at" = PFloat (now clk + 24 * 3600)%Q)).

Lemma hoare_frame {S A} (R : S -> S -> Prop) `{!PreOrder R} (m : M S A) (s0 : S) :
  frame R m -> hoare (R s0) m (fun _ => R s0).
Proof.
  intros Hm s s' a H0 H. specialize (Hm s). rewrite H in Hm. cbn [fst] in Hm. by etrans.
Qed.

Lemma lead_qualify_phase_settles (tenant : Tenant) (router : ModelRouter) (steps : list pyval)
    (lead : obj) (w0 : world) :
  has_run w0 -> is_Some (w_lead w0) ->
  hoare (rows_present w0) (qualify_phase tenant router steps lead)
        (fun _ w' => run_completed w' /\ lead_settled w').
Proof.
  intros Hrun0 Hlead0. subst qualify_phase.
  unfold lead_qualify_phase, _qualify_lead, _generate_email_drafts.
  do 15 (eapply hoare_bind; [apply hoare_frame; [apply _|frame_rows]|intros ?]).
  intros w w' ? (Hr & _ & Hl) H.
  destruct (Hr Hrun0) as [run Hrun], (Hl Hlead0) as [l Hlead].
  destruct w as [r calls run0 audit tk ld]. cbn [w_lead w_run] in Hrun, Hlead. subst ld run0.
  revert H.
  unfold bind, on_lead, lift, modify, update_run_status, set_lead, set_run.
  cbn [w_lead w_run w_redis w_calls w_audit w_ticket fst snd default from_option id fold_left].
  change (hasattr_run "completed_at") with true.
  change (hasattr_run "duration_seconds") with true.
  change (hasattr_run "steps_completed") with true.
  change (hasattr_run "current_step") with true.
  change (hasattr_run "lead_id") with true. cbn iota.
  intros [= <-]. split.
  - eexists. split; [reflexivity|]. solve_getattr.
  - eexists. split; [reflexivity|]. right. split; solve_getattr.
Qed.

End LeadOutcome.

Section SupportOutcome.
Variable settings : Settings.
Variable decrypt_value : string -> option string.
Variable local_backend : nat -> string -> option local_reply.
Variable cloud_backend : nat -> string -> Z -> string -> string -> option cloud_response.
Variable prompt_files : string -> option string.
Variable format_template : string -> list (string * pyval) -> outcome string.
Variable clk : clock.
Variable json_loads : string -> option pyval.
Variable yaml_safe_load : string -> option pyval.
Variable py_str : pyval -> string.
Variable classify_prompt draft_prompt : obj -> string.
Variable draft_system_prompt : string.
Variable _notify_slack : Tenant -> obj -> outcome unit.
Variable elapsed : Q.
Variable tenants : string -> option Tenant.
Variable tenant_id ticket_id run_id : string.

Let the_process_support_ticket :=
  process_support_ticket settings decrypt_value local_backend cloud_backend prompt_files
    format_template clk json_loads yaml_safe_load py_str classify_prompt draft_prompt
    draft_system_prompt _notify_slack elapsed tenants tenant_id ticket_id run_id.

Lemma autosend_check_rows (tenant : Tenant) : frame rows_present (autosend_check tenant run_id).
Proof. unfold autosend_check. frame_rows. Qed.

(** The ticket of a returned run: a draft waiting for review. *)
Definition ticket_draft_ready (w : world) : Prop :=
  exists t, w_ticket w = Some t /\ getattr t "status" = PStr "draft_ready".

Lemma autosend_check_draft_ready (tenant : Tenant) (w0 : world) :
  has_run w0 -> is_Some (w_ticket w0) ->
  hoare (rows_present w0) (autosend_check tenant run_id)
        (fun sent w' => sent = false /\ has_run w' /\ ticket_draft_ready w').
Proof.
  intros Hrun0 Ht0 w w' sent Hrows H.
  destruct Hrows as (Hr & Ht & _). destruct (Ht Ht0) as [t Htk].
  pose proof (autosend_check_ticket tenant run_id w t Htk) as Hc.
  pose proof (autosend_check_rows tenant w) as Hf.
  rewrite H in Hc, Hf. cbn [fst snd] in Hc, Hf.
  destruct (autosend_condition tenant t) as [[|]|e]; [by destruct Hc| |done].
  destruct Hc as [Hc1 [= ->]]. split; [done|]. split.
  - apply Hf, Hr, Hrun0.
  - eexists. split; [exact Hc1|]. solve_getattr.
Qed.

End SupportOutcome.


(** A support run of the examples: the platform key is in use, the local
    model classifies and the cloud model drafts. *)
Definition platform_settings : Settings := mkSettings true true "sk-platform".

Definition demo_ticket : obj :=
  list_to_map [ ("subject", PStr "Where is my order?");
                ("body", PStr "My order has not arrived yet.") ].

Definition demo_process_support_ticket : M world unit :=
  process_support_ticket platform_settings no_decrypt spam_local demo_cloud no_files no_format
    (at_second 0) demo_json_loads scalar_yaml no_str (fixed_prompt "classify")
    (fixed_prompt "draft") "system" slack_ok 2 one_tenant "acme" "ticket-1" "run-1".


(** ** The routing rules *)

Lemma pure_ok_inv {S A} (o : outcome A) (s s' : S) (a : A) :
  pure o s = (s', Ok a) -> s' = s /\ o = Ok a.
Proof. unfold pure. by intros [= <- <-]. Qed.

(** The attributes the routing rules assign. *)
Definition routing_attrs : list string :=
  ["assigned_team"; "tags"; "sla_due_at"; "needs_human"; "status"].

(** X11.  What the routing rules write.  When [_apply_routing_rules]
    returns, it has assigned [assigned_team], [tags] (a list) and
    [sla_due_at] (the time of the call plus a number of hours) and nothing
    else, except when it escalates: then [needs_human] is true, [status] is
    [escalated] and [auto-escalated] is the last tag.  Without escalation
    [status] and [needs_human] are as they were; every other attribute of
    the ticket is untouched in both cases.  A ticket without a category
    gets the suggested team, or [support]. *)
Theorem routing_rules_writes (clk : clock) (yaml_safe_load : string -> option pyval)
    (tenant : Tenant) (ticket ticket' : obj) :
  _apply_routing_rules clk yaml_safe_load tenant ticket = (ticket', Ok tt) ->
  (forall a, a ∉ routing_attrs -> getattr ticket' a = getattr ticket a)
  /\ (exists h : Q, getattr ticket' "sla_due_at" = PFloat (now clk + h * 3600)%Q)
  /\ (Py.truthy (getattr ticket "category") = false ->
      getattr ticket' "assigned_team"
        = Py.or_ (getattr ticket "suggested_team") (PStr "support"))
  /\ ((exists tags, getattr ticket' "tags" = PList (tags ++ [PStr "auto-escalated"])%list
                    /\ getattr ticket' "status" = PStr "escalated"
                    /\ getattr ticket' "needs_human" = PBool true)
      \/ (exists tags, getattr ticket' "tags" = PList tags
                       /\ getattr ticket' "status" = getattr ticket "status"
                       /\ getattr ticket' "needs_human" = getattr ticket "needs_human")).
Proof.
  unfold _apply_routing_rules. intros H.
  bind_inv H as s1 routing H1. apply pure_ok_inv in H1 as [-> _].
  bind_inv H as s2 team_map H2. apply pure_ok_inv in H2 as [-> _].
  bind_inv H as s3 tk H3. unfold get_state in H3. injection H3 as <- <-.
  bind_inv H as s4 mapped H4.
  assert (s4 = ticket /\ (mapped = true -> Py.truthy (getattr ticket "category") = true))
    as [-> Hmapped].
  { destruct (Py.truthy (getattr ticket "category")).
    - apply pure_ok_inv in H4 as [-> _]. done.
    - unfold ret in H4. injection H4 as <- <-. done. }
  clear H4.
  bind_inv H as s5 u5 H5.
  assert (exists team, s5 = setattr "assigned_team" team ticket
            /\ (team = Py.or_ (getattr ticket "suggested_team") (PStr "support")
                \/ Py.truthy (getattr ticket "category") = true)) as (team & -> & Hteam).
  { destruct mapped.
    - bind_inv H5 as s5' team H5'. apply pure_ok_inv in H5' as [-> _].
      unfold modify in H5. injection H5 as <-. exists team. split; [done|]. right. by apply Hmapped.
    - unfold modify in H5. injection H5 as <-. eexists. split; [done|]. by left. }
  clear H5 Hmapped.
  bind_inv H as s6 auto_tags H6. apply pure_ok_inv in H6 as [-> _].
  bind_inv H as s7 by_priority H7. apply pure_ok_inv in H7 as [-> _].
  bind_inv H as s8 hit1 H8. apply pure_ok_inv in H8 as [-> _].
  bind_inv H as s9 tags1 H9.
  assert (s9 = setattr "assigned_team" team ticket) as ->.
  { destruct hit1.
    - bind_inv H9 as sa m Ha. apply pure_ok_inv in Ha as [-> _].
      bind_inv H9 as sb v Hb. apply pure_ok_inv in Hb as [-> _].
      by apply pure_ok_inv in H9 as [-> _].
    - unfold ret in H9. by injection H9 as <- _. }
  clear H9.
  bind_inv H as s10 by_sentiment H10. apply pure_ok_inv in H10 as [-> _].
  bind_inv H as s11 hit2 H11. apply pure_ok_inv in H11 as [-> _].
  bind_inv H as s12 tags2 H12.
  assert (s12 = setattr "assigned_team" team ticket) as ->.
  { destruct hit2.
    - bind_inv H12 as sa m Ha. apply pure_ok_inv in Ha as [-> _].
      bind_inv H12 as sb v Hb. apply pure_ok_inv in Hb as [-> _].
      by apply pure_ok_inv in H12 as [-> _].
    - unfold ret in H12. by injection H12 as <- _. }
  clear H12.
  bind_inv H as s13 u13 H13. unfold modify in H13. injection H13 as <-.
  bind_inv H as s14 sla_hours H14. apply pure_ok_inv in H14 as [-> _].
  bind_inv H as s15 hours H15. apply pure_ok_inv in H15 as [-> _].
  bind_inv H as s16 h H16.
  assert (s16 = setattr "tags" (PList tags2) (setattr "assigned_team" team ticket)) as ->.
  { destruct (Py.as_number hours); [|done]. unfold ret in H16. by injection H16 as <- _. }
  clear H16.
  bind_inv H as s17 u17 H17. unfold modify in H17. injection H17 as <-.
  bind_inv H as s18 threshold H18. apply pure_ok_inv in H18 as [-> _].
  bind_inv H as s19 low H19. apply pure_ok_inv in H19 as [-> _].
  unfold routing_attrs.
  destruct low.
  - bind_inv H as s20 u20 H20. unfold modify in H20. injection H20 as <-.
    bind_inv H as s21 u21 H21. unfold modify in H21. injection H21 as <-.
    unfold modify in H. injection H as <-.
    split; [|split; [|split]].
    + intros a Ha. unfold getattr, setattr.
      rewrite !lookup_insert_ne; [done|..]; intros <-; apply Ha;
        apply list_elem_of_In; cbn; tauto.
    + exists h. solve_getattr.
    + intros Hcat. destruct Hteam as [->|Hteam]; [solve_getattr|congruence].
    + left. exists tags2. repeat split; solve_getattr.
  - unfold ret in H. injection H as <-.
    split; [|split; [|split]].
    + intros a Ha. unfold getattr, setattr.
      rewrite !lookup_insert_ne; [done|..]; intros <-; apply Ha;
        apply list_elem_of_In; cbn; tauto.
    + exists h. solve_getattr.
    + intros Hcat. destruct Hteam as [->|Hteam]; [solve_getattr|congruence].
    + right. exists tags2. unfold getattr, setattr.
      repeat split; [solve_getattr|..]; by rewrite !lookup_insert_ne.
Qed.

(** A classified ticket of low confidence, and a tenant without routing
    configuration. *)
Definition unsure_ticket : obj :=
  list_to_map [ ("category", PStr "billing"); ("priority", PStr "high");
                ("sentiment", PStr "negative"); ("suggested_team", PStr "billing");
                ("classification_confidence", PFloat (3 # 10));
                ("status", PStr "processing") ].

Lemma routing_rules_writes_witness :
  getattr (fst (_apply_routing_rules (at_second 0) scalar_yaml (demo_tenant false (85 # 100) None)
                  unsure_ticket)) "category"
  = PStr "billing".
Proof.
  destruct (_apply_routing_rules (at_second 0) scalar_yaml (demo_tenant false (85 # 100) None)
              unsure_ticket) as [t' o] eqn:E.
  assert (Ho : o = Ok tt).
  { change o with (snd (t', o)). rewrite <- E. by vm_compute. }
  subst o.
  destruct (routing_rules_writes _ _ _ _ _ E) as [H _].
  cbn [fst]. rewrite H; [reflexivity|].
  unfold routing_attrs. rewrite list_elem_of_In. cbn. intros [|[|[|[|[|[]]]]]]; discriminate.
Defined.

(** X12.  The routing rules of a tenant without usable configuration (no
    document, an empty one, one the YAML loader rejects, or one that loads
    to a falsy value), on a ticket whose category, priority and sentiment
    are hashable and whose confidence is a number or falsy: the rules
    return, the team is the suggested team or [support], the SLA is due 24
    hours after the call, and the ticket is escalated (needs a human,
    status [escalated], the one tag [auto-escalated]) exactly when its
    confidence, 0 if falsy, is below 0.5; otherwise the tags are empty and
    status and [needs_human] stay as they were. *)
Theorem routing_rules_without_config (clk : clock) (yaml_safe_load : string -> option pyval)
    (tenant : Tenant) (ticket : obj) (c : Q) :
  config_ignored yaml_safe_load tenant ->
  Py.hashable (getattr ticket "category") = true ->
  Py.hashable (getattr ticket "priority") = true ->
  Py.hashable (getattr ticket "sentiment") = true ->
  Py.as_number (Py.or_ (getattr ticket "classification_confidence") (PInt 0)) = Some c ->
  let after := _apply_routing_rules clk yaml_safe_load tenant ticket in
  snd after = Ok tt
  /\ getattr (fst after) "assigned_team"
     = Py.or_ (getattr ticket "suggested_team") (PStr "support")
  /\ getattr (fst after) "sla_due_at" = PFloat (now clk + inject_Z 24 * 3600)%Q
  /\ ((c < 1 # 2)%Q ->
      getattr (fst after) "status" = PStr "escalated"
      /\ getattr (fst after) "needs_human" = PBool true
      /\ getattr (fst after) "tags" = PList [PStr "auto-escalated"])
  /\ ((1 # 2 <= c)%Q ->
      getattr (fst after) "status" = getattr ticket "status"
      /\ getattr (fst after) "needs_human" = getattr ticket "needs_human"
      /\ getattr (fst after) "tags" = PList []).
Proof.
  intros Hcfg Hcat Hpri Hsen Hconf. cbv zeta.
  rewrite (routing_rules_defaults clk yaml_safe_load tenant ticket c) by done. cbv zeta.
  destruct (Qlt_bool c (1 # 2)) eqn:E; cbn [fst snd].
  - apply Qlt_bool_iff in E.
    split; [done|]. split; [solve_getattr|]. split; [solve_getattr|]. split.
    + intros _. repeat split; solve_getattr.
    + intros Hge. exfalso. lra.
  - apply Qlt_bool_false_iff in E.
    split; [done|]. split; [solve_getattr|]. split; [solve_getattr|]. split.
    + intros Hlt. exfalso. lra.
    + intros _. unfold getattr, setattr.
      repeat split; [by rewrite !lookup_insert_ne..|solve_getattr].
Qed.

Lemma routing_rules_without_config_witness :
  let after := _apply_routing_rules (at_second 0) scalar_yaml (demo_tenant false (85 # 100) None)
                 unsure_ticket in
  snd after = Ok tt
  /\ getattr (fst after) "assigned_team" = PStr "billing"
  /\ getattr (fst after) "status" = PStr "escalated".
Proof.
  destruct (routing_rules_without_config (at_second 0) scalar_yaml
              (demo_tenant false (85 # 100) None) unsure_ticket (3 # 10)
              (or_introl eq_refl) eq_refl eq_refl eq_refl eq_refl)
    as (H1 & H2 & _ & H3 & _).
  destruct (H3 ltac:(done)) as (H4 & _).
  cbv zeta. split; [exact H1|]. split; [exact H2|exact H4].
Defined.

(** ** [estimate_cost] is monotone *)

Lemma round_half_even_bounds (x : Q) :
  Qfloor x <= round_half_even x <= Qfloor x + 1.
Proof.
  unfold round_half_even. cbv zeta.
  destruct (Qlt_bool _ _); [lia|]. destruct (Qlt_bool _ _); [lia|].
  destruct (Z.even _); lia.
Qed.

Lemma round_half_even_mono (x y : Q) :
  (x <= y)%Q -> round_half_even x <= round_half_even y.
Proof.
  intros Hxy. pose proof (Qfloor_resp_le _ _ Hxy) as Hf.
  destruct (Z.eq_dec (Qfloor x) (Qfloor y)) as [E|E].
  - unfold round_half_even. cbv zeta. rewrite E.
    set (g := Qfloor y).
    assert (Hr : (x - inject_Z g <= y - inject_Z g)%Q) by lra.
    destruct (Qlt_bool (x - inject_Z g) (1 # 2)) eqn:X1.
    { destruct (Qlt_bool (y - inject_Z g) (1 # 2)); [lia|].
      destruct (Qlt_bool (1 # 2) (y - inject_Z g)); [lia|]. destruct (Z.even g); lia. }
    apply Qlt_bool_false_iff in X1.
    destruct (Qlt_bool (y - inject_Z g) (1 # 2)) eqn:Y1.
    { apply Qlt_bool_iff in Y1. lra. }
    destruct (Qlt_bool (1 # 2) (x - inject_Z g)) eqn:X2.
    { apply Qlt_bool_iff in X2.
      replace (Qlt_bool (1 # 2) (y - inject_Z g)) with true; [lia|].
      symmetry. apply Qlt_bool_iff. lra. }
    destruct (Qlt_bool (1 # 2) (y - inject_Z g)); destruct (Z.even g); lia.
  - pose proof (round_half_even_bounds x). pose proof (round_half_even_bounds y). lia.
Qed.

Lemma py_round_mono (x y : Q) (n : N) : (x <= y)%Q -> (py_round x n <= py_round y n)%Q.
Proof.
  intros Hxy. unfold py_round. cbv zeta. rewrite !Qred_correct.
  assert (Hs : (0 < inject_Z (10 ^ Z.of_N n))%Q).
  { change 0%Q with (inject_Z 0). rewrite <- Zlt_Qlt. apply Z.pow_pos_nonneg; lia. }
  apply Qmult_le_compat_r; [|apply Qlt_le_weak, Qinv_lt_0_compat, Hs].
  rewrite <- Zle_Qle. apply round_half_even_mono.
  apply Qmult_le_compat_r; [done|by apply Qlt_le_weak].
Qed.

Lemma pricing_nonneg (model : string) :
  (0 <= fst (default (3, 15)%Q (dict_get pricing model)))%Q
  /\ (0 <= snd (default (3, 15)%Q (dict_get pricing model)))%Q.
Proof.
  unfold pricing. cbn [dict_get].
  repeat match goal with |- context [if ?b then _ else _] => destruct b end;
    cbn; split; lra.
Qed.

(** X13.  [estimate_cost] never charges less for more tokens: for any
    model id it is monotone in both token counts, and it is never negative
    for non-negative counts. *)
Theorem estimate_cost_monotone (i i' o o' : Z) (model : string) :
  i <= i' -> o <= o' ->
  (estimate_cost i o model <= estimate_cost i' o' model)%Q
  /\ (0 <= i -> 0 <= o -> (0 <= estimate_cost i o model)%Q).
Proof.
  intros Hi Ho.
  assert (Hmono : forall a a' b b', a <= a' -> b <= b' ->
            (estimate_cost a b model <= estimate_cost a' b' model)%Q).
  { intros a a' b b' Ha Hb. unfold estimate_cost. cbv zeta.
    destruct (pricing_nonneg model) as [H1 H2].
    set (rates := default (3, 15)%Q (dict_get pricing model)) in *.
    apply py_round_mono.
    apply Qmult_le_compat_r; [|done].
    rewrite Zle_Qle in Ha, Hb.
    apply Qplus_le_compat; apply Qmult_le_compat_r; done. }
  split; [by apply Hmono|].
  intros Hi0 Ho0.
  assert (H0 : estimate_cost 0 0 model == 0).
  { unfold estimate_cost. cbv zeta.
    rewrite (py_round_comp _ 0%Q); [reflexivity|].
    change (inject_Z 0) with 0%Q. unfold Qdiv. ring. }
  rewrite <- H0. by apply Hmono.
Qed.

Lemma estimate_cost_monotone_witness :
  (estimate_cost 1000 500 "claude-haiku-4-5-20251001"
   <= estimate_cost 2000 500 "claude-haiku-4-5-20251001")%Q.
Proof.
  exact (proj1 (estimate_cost_monotone 1000 2000 500 500 "claude-haiku-4-5-20251001"
                  ltac:(lia) ltac:(lia))).
Defined.

(** ** The audit log *)

Lemma substring_length_le (n : nat) (s : string) :
  (String.length (String.substring 0 n s) <= n)%nat.
Proof.
  revert s. induction n as [|n IH]; intros [|c s]; cbn; try lia.
  specialize (IH s). lia.
Qed.

(** A summary as stored: absent, or a text of at most 500 characters. *)
Definition summary_capped (v : pyval) : Prop :=
  v = PNone \/ exists s, v = PStr s /\ (String.length s <= 500)%nat.

Lemma cap_summary_capped (v : pyval) : summary_capped (cap_summary v).
Proof.
  unfold cap_summary. destruct v; try (by left).
  destruct (Py.truthy _); [|by left].
  right. eexists. split; [reflexivity|]. apply substring_length_le.
Qed.


(** ** The API key of the router a worker builds *)

(** The tenant's own key: the decrypted ciphertext, if there is one and it
    decrypts. *)
Definition tenant_key (decrypt_value : string -> option string) (tenant : Tenant)
    : option string :=
  match anthropic_api_key_encrypted tenant with
  | Some c => if String.eqb c "" then None else decrypt_value c
  | None => None
  end.

(** X15.  The router [create_model_router] builds for a tenant enforces the
    tenant's own limits, and resolves its API key as follows: the tenant's
    own key whenever it decrypts to a non-empty text, whatever the platform
    settings; otherwise the platform key if platform-key mode is on;
    otherwise none.  A tenant key that fails to decrypt is treated as
    absent, not as an error.  The router can reach the cloud exactly when
    the key so resolved is non-empty; when it is not, every cloud call
    raises [ValueError] and leaves the world as it was. *)
Theorem create_model_router_key (settings : Settings) (decrypt_value : string -> option string)
    (cloud_backend : nat -> string -> Z -> string -> string -> option cloud_response)
    (clk : clock) (tenant : Tenant) :
  let router := create_model_router settings decrypt_value tenant in
  let own := tenant_key decrypt_value tenant in
  budget router
    = Some (mkBudgetEnforcer (id tenant) (tenant_max_runs_per_day tenant)
              (tenant_max_tokens_per_day tenant) (tenant_max_items_per_minute tenant))
  /\ (str_truthy own = true -> _anthropic_key router = own)
  /\ (str_truthy own = false -> platform_key_mode settings = true ->
      _anthropic_key router = Some (platform_anthropic_key settings))
  /\ str_truthy (_anthropic_key router)
     = (str_truthy own
        || (platform_key_mode settings
            && negb (String.eqb (platform_anthropic_key settings) "")))
  /\ (str_truthy (_anthropic_key router) = false ->
      forall prompt task system_prompt model_ max_tokens w,
        call_claude cloud_backend clk router prompt task system_prompt model_ max_tokens w
          = (w, Raise ValueError)).
Proof.
  cbv zeta. unfold create_model_router, ModelRouter_init, tenant_key.
  cbn [budget _anthropic_key].
  split; [done|].
  assert (Hkey : (if str_truthy (anthropic_api_key_encrypted tenant)
                  then match anthropic_api_key_encrypted tenant with
                       | Some c => decrypt_value c
                       | None => None
                       end
                  else None)
                 = match anthropic_api_key_encrypted tenant with
                   | Some c => if String.eqb c "" then None else decrypt_value c
                   | None => None
                   end).
  { destruct (anthropic_api_key_encrypted tenant) as [c|]; [|done].
    cbn [str_truthy]. by destruct (String.eqb c ""). }
  rewrite Hkey.
  set (own := match anthropic_api_key_encrypted tenant with
              | Some c => if String.eqb c "" then None else decrypt_value c
              | None => None
              end).
  destruct (str_truthy own) eqn:Hown; cbn [negb andb orb].
  - repeat split; try done. intros Hno. congruence.
  - destruct (platform_key_mode settings) eqn:Hmode; cbn [andb].
    + repeat split; try done.
      intros Hno prompt task system_prompt model_ max_tokens w.
      unfold call_claude. cbn [_anthropic_key]. by rewrite Hno.
    + repeat split; try done.
      intros _ prompt task system_prompt model_ max_tokens w.
      unfold call_claude. cbn [_anthropic_key]. by rewrite Hown.
Qed.

(** ** A cloud outage trips the breaker *)

Lemma record_failure_get_ne (b : BudgetEnforcer) (clk : clock) (key : string) (t : Q)
    (r : redis) :
  _circuit_key b <> key ->
  R.get key t (fst (record_failure b clk r)) = R.get key t r.
Proof.
  intros Hne.
  unfold record_failure, bind, modify, ret, R.hincrby_failures.
  destruct (_ <=? _); cbn [fst snd]; unfold R.hset_state_opened_at;
    by rewrite ?halter_get, expire_get_ne, halter_get.
Qed.

Section CloudOutage.
Variable settings : Settings.
Variable local_backend : nat -> string -> option local_reply.
Variable cloud_backend : nat -> string -> Z -> string -> string -> option cloud_response.
Variable prompt_files : string -> option string.
Variable format_template : string -> list (string * pyval) -> outcome string.
Variable self : ModelRouter.
Variable b : BudgetEnforcer.
Variable prompt task system_prompt : string.
Variable max_tokens : Z.

Hypothesis Hb : budget self = Some b.
Hypothesis Hkey : str_truthy (_anthropic_key self) = true.
Hypothesis Htask : in_tasks task LOCAL_TASKS = false.
(** The cloud backend is down. *)
Hypothesis Hdown : forall n model_ max_ sys p, cloud_backend n model_ max_ sys p = None.

Let cloud_route (c : clock) : M world result :=
  route settings local_backend cloud_backend prompt_files format_template c self
        prompt task None None system_prompt max_tokens.

Let the_call : call := CloudCall "claude-sonnet-4-20250514" max_tokens system_prompt prompt.

(** The quotas leave room for the call at clock [c]. *)
Definition quota_room (c : clock) (r : redis) : Prop :=
  count_this_minute b c r < max_items_per_minute b
  /\ runs_today b c r < max_runs_per_day b
  /\ tokens_today b c r + max_tokens <= max_tokens_per_day b
  /\ tokens_today b c r + claude_estimate prompt max_tokens <= max_tokens_per_day b.

Lemma quota_room_after_failure (c c' : clock) (r : redis) :
  quota_room c r -> quota_room c (fst (record_failure b c' r)).
Proof.
  unfold quota_room, count_this_minute, runs_today, tokens_today.
  rewrite !record_failure_get_ne; [done|..].
  - intros H. symmetry in H. revert H. apply circuit_key_not_day_key.
  - intros H. symmetry in H. revert H. apply circuit_key_not_day_key.
  - intros H. symmetry in H. revert H. apply minute_key_not_circuit_key.
Qed.

(** One routed call during the outage: the request goes out, fails, and the
    failure is recorded. *)
Lemma outage_route_step (c : clock) (w : world) :
  quota_room c (w_redis w) ->
  h_state (circuit_at b (now c) (w_redis w)) <> Some "open" ->
  cloud_route c w
    = (with_redis (fst (record_failure b c (w_redis w))) (fst (log_call the_call w)),
       Raise BackendError).
Proof.
  intros (Hq1 & Hq2 & Hq3 & Hq4) Hopen. subst cloud_route the_call. cbv beta.
  rewrite route_cases. cbn [routed_prompt str_truthy].
  unfold admission. rewrite (with_budget_some _ b Hb).
  rewrite check_all_not_open by done. cbn [fst snd].
  unfold spec_admission. cbn [negb].
  replace (_ <=? _) with false by (symmetry; apply Z.leb_gt; lia).
  replace (_ <=? _) with false by (symmetry; apply Z.leb_gt; lia).
  replace (_ <? _) with false by (symmetry; apply Z.ltb_ge; lia).
  rewrite with_redis_same, Htask. cbv zeta.
  rewrite (call_claude_admitted cloud_backend c self b); [|done|done|].
  - cbv zeta. by rewrite Hdown.
  - unfold check_daily_tokens, tokens_today, bind, get_state, ret, raise in *. cbn [snd].
    replace (_ <? _) with false; [done|]. symmetry. apply Z.ltb_ge. lia.
Qed.
End CloudOutage.


(** ** The CRM step *)

(** X17.  [_update_crm] writes at most [crm_contact_id] and [crm_deal_id].
    Its result only says whether a CRM is configured: it returns [False],
    touching nothing, when none is, and [True] otherwise, also when the
    contact could not be created and nothing was written.  It raises only
    while handling a contact the CRM did return. *)
Theorem update_crm_effect (crm_is_configured : Tenant -> bool)
    (crm_create_contact : obj -> pyval) (crm_create_deal : obj -> pyval -> pyval)
    (tenant : Tenant) (lead : obj) :
  let after := _update_crm crm_is_configured crm_create_contact crm_create_deal tenant lead in
  (forall a, a ∉ ["crm_contact_id"; "crm_deal_id"] -> getattr (fst after) a = getattr lead a)
  /\ (crm_is_configured tenant = false -> after = (lead, Ok false))
  /\ (crm_is_configured tenant = true -> Py.truthy (crm_create_contact lead) = false ->
      after = (lead, Ok true))
  /\ (forall r, snd after = Ok r -> r = crm_is_configured tenant)
  /\ (forall e, snd after = Raise e ->
        crm_is_configured tenant = true /\ Py.truthy (crm_create_contact lead) = true).
Proof.
  cbv zeta.
  set (after := _update_crm crm_is_configured crm_create_contact crm_create_deal tenant lead).
  assert (Hne : forall a (v : pyval) (o : obj) k,
            a ∉ ["crm_contact_id"; "crm_deal_id"] -> k ∈ ["crm_contact_id"; "crm_deal_id"] ->
            getattr (setattr k v o) a = getattr o a).
  { intros a v o k Ha Hk. unfold getattr, setattr. rewrite lookup_insert_ne; [done|].
    intros <-. by apply Ha. }
  assert (Hc1 : "crm_contact_id" ∈ ["crm_contact_id"; "crm_deal_id"])
    by (apply list_elem_of_In; cbn; tauto).
  assert (Hc2 : "crm_deal_id" ∈ ["crm_contact_id"; "crm_deal_id"])
    by (apply list_elem_of_In; cbn; tauto).
  destruct (crm_is_configured tenant) eqn:Hcfg.
  2:{ assert (E : after = (lead, Ok false)).
      { subst after. unfold _update_crm. by rewrite Hcfg. }
      rewrite E. cbn [fst snd]. repeat split; try done. intros r Hr. congruence. }
  destruct (Py.truthy (crm_create_contact lead)) eqn:Hc.
  2:{ assert (E : after = (lead, Ok true)).
      { subst after. unfold _update_crm. rewrite Hcfg. cbn [negb].
        unfold bind, get_state. by rewrite Hc. }
      rewrite E. cbn [fst snd]. repeat split; try done. intros r Hr. congruence. }
  assert (E : forall l' o, after = (l', o) ->
                (forall a, a ∉ ["crm_contact_id"; "crm_deal_id"] ->
                   getattr l' a = getattr lead a)
                /\ (forall r, o = Ok r -> r = true)).
  { subst after. unfold _update_crm. rewrite Hcfg. cbn [negb].
    unfold bind at 1. unfold get_state at 1. rewrite Hc.
    unfold assign_get, bind, pure, get_state, modify, ret.
    destruct (Py.get (crm_create_contact lead) (PStr "id") PNone) as [cid|e1]; cbn [fst snd];
      [|by intros l' o [= <- <-]].
    destruct (Py.ge_float _ 50) as [ge|e2]; cbn [fst snd];
      [|intros l' o [= <- <-]; split; [intros a Ha; by apply Hne|done]].
    destruct (Py.truthy (crm_create_deal _ _)); cbn [fst snd].
    - destruct (Py.get (crm_create_deal _ _) (PStr "id") PNone) as [did|e3]; cbn [fst snd];
        intros l' o [= <- <-].
      + split; [|intros r Hr; congruence]. intros a Ha. rewrite !Hne; done.
      + split; [|done]. intros a Ha. by apply Hne.
    - intros l' o [= <- <-]. split; [|intros r Hr; congruence]. intros a Ha. by apply Hne. }
  destruct after as [l' o]. destruct (E l' o eq_refl) as [E1 E2]. cbn [fst snd].
  repeat split; try done.
Qed.

(** ** The audit log is append-only *)

(** [w'] has the audit log of [w] with rows of run [run_id] added in front,
    each written by the actor [worker]. *)
Definition audit_extends (run_id : string) (w w' : world) : Prop :=
  exists new,
    w_audit w' = (new ++ w_audit w)%list
    /\ Forall (fun row => getattr row "run_id" = PStr run_id
                          /\ getattr row "actor" = PStr "worker") new.

#[local] Instance audit_extends_preorder (run_id : string) : PreOrder (audit_extends run_id).
Proof.
  split.
  - intros w. by exists [].
  - intros a b c (n1 & H1 & F1) (n2 & H2 & F2). exists (n2 ++ n1)%list. split.
    + by rewrite H2, H1, app_assoc.
    + by apply Forall_app.
Qed.

Lemma audit_kept_extends (run_id : string) (w w' : world) :
  w_audit w' = w_audit w -> audit_extends run_id w w'.
Proof. intros H. by exists []. Qed.

Lemma update_run_status_audit (run_id status : string) (kwargs : list (string * pyval)) :
  frame (audit_extends run_id) (update_run_status status kwargs).
Proof.
  intros w. apply audit_kept_extends.
  by destruct (update_run_status_effect status kwargs w) as (_&_&_&H&_).
Qed.

Lemma create_audit_entry_audit (tenant run_id : string) (kwargs : list (string * pyval)) :
  frame (audit_extends run_id) (create_audit_entry tenant run_id kwargs).
Proof.
  intros w. unfold create_audit_entry.
  destruct (_ && _); [|by exists []].
  unfold modify, add_audit. cbn [fst w_audit].
  eexists [_]. split; [reflexivity|].
  constructor; [|constructor].
  cbn [list_to_map foldr uncurry fst snd]. split; solve_getattr.
Qed.

Lemma on_lead_audit {A} (run_id : string) (m : M obj A) :
  frame (audit_extends run_id) (on_lead m).
Proof.
  intros w. apply audit_kept_extends.
  by destruct (on_lead_effect m w) as (_&_&_&_&H&_).
Qed.

Lemma on_ticket_audit {A} (run_id : string) (m : M obj A) :
  frame (audit_extends run_id) (on_ticket m).
Proof.
  intros w. apply audit_kept_extends.
  by destruct (on_ticket_effect m w) as (_&_&_&_&H&_).
Qed.

Lemma route_audit (run_id : string) (settings : Settings)
    (local_backend : nat -> string -> option local_reply)
    (cloud_backend : nat -> string -> Z -> string -> string -> option cloud_response)
    (prompt_files : string -> option string)
    (format_template : string -> list (string * pyval) -> outcome string)
    (clk : clock) (router : ModelRouter) (prompt task : string) (tid : option string)
    (template_vars : option (list (string * pyval))) (system_prompt : string) (max_tokens : Z) :
  frame (audit_extends run_id)
    (route settings local_backend cloud_backend prompt_files format_template clk router
           prompt task tid template_vars system_prompt max_tokens).
Proof.
  intros w. apply audit_kept_extends.
  by destruct (route_db_kept settings local_backend cloud_backend prompt_files format_template
                 clk router prompt task tid template_vars system_prompt max_tokens w)
    as (_&H&_).
Qed.

Ltac frame_audit :=
  repeat first
    [ apply update_run_status_audit
    | apply create_audit_entry_audit
    | apply on_lead_audit
    | apply on_ticket_audit
    | apply route_audit
    | apply frame_ret; apply _
    | apply frame_raise; apply _
    | apply frame_pure; apply _
    | apply frame_get_state; apply _
    | apply frame_bind; [apply _| |intros ?]
    | apply frame_try_except; [apply _| |intros ?]
    | match goal with
      | |- frame _ (match ?x with _ => _ end) => destruct x
      end ].

(** X18.  The audit log is append-only.  Whatever a lead run or a support
    run does, and whether it returns or raises, the audit rows that existed
    before are still there, unchanged and in the same order; every row the
    run added carries the run's id and the actor [worker]. *)
Theorem audit_log_append_only (settings : Settings) (decrypt_value : string -> option string)
    (local_backend : nat -> string -> option local_reply)
    (cloud_backend : nat -> string -> Z -> string -> string -> option cloud_response)
    (prompt_files : string -> option string)
    (format_template : string -> list (string * pyval) -> outcome string)
    (clk : clock) (json_loads yaml_safe_load : string -> option pyval) (py_str : pyval -> string)
    (classify_prompt draft_prompt extract_prompt qualify_prompt email_drafts_prompt
       : obj -> string)
    (draft_system_prompt qualify_system_prompt : string)
    (_notify_slack : Tenant -> obj -> outcome unit)
    (crm_is_configured : Tenant -> bool) (crm_create_contact : obj -> pyval)
    (crm_create_deal : obj -> pyval -> pyval) (elapsed : Q)
    (tenants : string -> option Tenant) (tenant_id record_id run_id : string) (w : world) :
  audit_extends run_id w
    (fst (process_lead settings decrypt_value local_backend cloud_backend prompt_files
            format_template clk json_loads py_str extract_prompt qualify_prompt
            email_drafts_prompt qualify_system_prompt _notify_slack crm_is_configured
            crm_create_contact crm_create_deal elapsed tenants tenant_id record_id run_id w))
  /\ audit_extends run_id w
       (fst (process_support_ticket settings decrypt_value local_backend cloud_backend
               prompt_files format_template clk json_loads yaml_safe_load py_str
               classify_prompt draft_prompt draft_system_prompt _notify_slack elapsed tenants
               tenant_id record_id run_id w)).
Proof.
  split.
  - revert w. change (frame (audit_extends run_id)
      (process_lead settings decrypt_value local_backend cloud_backend prompt_files
         format_template clk json_loads py_str extract_prompt qualify_prompt
         email_drafts_prompt qualify_system_prompt _notify_slack crm_is_configured
         crm_create_contact crm_create_deal elapsed tenants tenant_id record_id run_id)).
    unfold process_lead, lead_extract_phase, lead_disqualify, lead_qualify_phase, fail_run,
      load_tenant, _extract_lead_info, _qualify_lead, _generate_email_drafts.
    frame_audit.
  - revert w. change (frame (audit_extends run_id)
      (process_support_ticket settings decrypt_value local_backend cloud_backend
         prompt_files format_template clk json_loads yaml_safe_load py_str
         classify_prompt draft_prompt draft_system_prompt _notify_slack elapsed tenants
         tenant_id record_id run_id)).
    unfold process_support_ticket, autosend_check, fail_run, load_tenant,
      _classify_ticket, _draft_reply.
    frame_audit.
Qed.

(** ** The static default of the router is never sent *)

(** What [json.loads] returns for the static default of the router. *)
Definition fallback_default_dict : pyval :=
  PDict [ ("category", PStr "general"); ("priority", PStr "medium");
          ("sentiment", PStr "neutral"); ("suggested_team", PStr "general");
          ("needs_human", PBool true); ("confidence", PFloat 0) ].

Lemma parse_fallback_default {S} (json_loads : string -> option pyval) (s : S) :
  json_loads fallback_default_content = Some fallback_default_dict ->
  parse_braced json_loads fallback_default_content s = (s, Ok (Some fallback_default_dict)).
Proof.
  intros H. unfold parse_braced.
  change (has_brace fallback_default_content) with true. cbv iota.
  unfold bind, pure, ret.
  assert (Hi : Py.index open_brace fallback_default_content = Ok 0%nat) by (by vm_compute).
  rewrite Hi.
  assert (Hj : exists j, Py.rindex close_brace fallback_default_content = Ok j
                         /\ Py.slice fallback_default_content 0 (j + 1)
                            = fallback_default_content).
  { eexists. split; by vm_compute. }
  destruct Hj as (j & -> & ->). by rewrite H.
Qed.

(** X19.  The static default the router returns when no model is available
    can never be sent to a customer.  Applied as a classification it leaves
    the ticket needing a human with confidence 0.0 (category general,
    priority medium, team general); for every tenant, whatever its
    threshold and auto-send setting, the auto-send condition is then false;
    and the routing rules of a tenant without configuration escalate the
    ticket. *)
Theorem static_default_never_sent (json_loads yaml_safe_load : string -> option pyval)
    (clk : clock) (ticket : obj) :
  json_loads fallback_default_content = Some fallback_default_dict ->
  let classified := _apply_classification json_loads fallback_default_result ticket in
  snd classified = Ok tt
  /\ getattr (fst classified) "needs_human" = PBool true
  /\ getattr (fst classified) "classification_confidence" = PFloat 0
  /\ getattr (fst classified) "category" = PStr "general"
  /\ getattr (fst classified) "priority" = PStr "medium"
  /\ getattr (fst classified) "suggested_team" = PStr "general"
  /\ (forall tenant, autosend_condition tenant (fst classified) = Ok false)
  /\ (forall tenant, config_ignored yaml_safe_load tenant ->
        let routed := _apply_routing_rules clk yaml_safe_load tenant (fst classified) in
        snd routed = Ok tt
        /\ getattr (fst routed) "status" = PStr "escalated"
        /\ getattr (fst routed) "needs_human" = PBool true
        /\ getattr (fst routed) "assigned_team" = PStr "general").
Proof.
  intros Hjson. cbv zeta.
  assert (E : _apply_classification json_loads fallback_default_result ticket
              = (setattr "classification_raw" fallback_default_dict
                   (assign_all classification_fields
                      [ ("category", PStr "general"); ("priority", PStr "medium");
                        ("sentiment", PStr "neutral"); ("suggested_team", PStr "general");
                        ("needs_human", PBool true); ("confidence", PFloat 0) ] ticket),
                 Ok tt)).
  { unfold _apply_classification, try_except. unfold bind at 1.
    change (content fallback_default_result) with fallback_default_content.
    by rewrite (parse_fallback_default json_loads ticket Hjson). }
  rewrite E. cbn [fst snd].
  set (t1 := setattr "classification_raw" _ _).
  assert (G1 : getattr t1 "needs_human" = PBool true) by (subst t1; unfold assign_all, classification_fields; cbn [fold_left fst snd];
        solve_getattr).
  assert (G2 : getattr t1 "classification_confidence" = PFloat 0) by (subst t1; unfold assign_all, classification_fields; cbn [fold_left fst snd];
        solve_getattr).
  assert (G3 : getattr t1 "category" = PStr "general") by (subst t1; unfold assign_all, classification_fields; cbn [fold_left fst snd];
        solve_getattr).
  assert (G4 : getattr t1 "priority" = PStr "medium") by (subst t1; unfold assign_all, classification_fields; cbn [fold_left fst snd];
        solve_getattr).
  assert (G5 : getattr t1 "suggested_team" = PStr "general") by (subst t1; unfold assign_all, classification_fields; cbn [fold_left fst snd];
        solve_getattr).
  assert (G6 : getattr t1 "sentiment" = PStr "neutral") by (subst t1; unfold assign_all, classification_fields; cbn [fold_left fst snd];
        solve_getattr).
  split; [done|]. do 5 (split; [done|]). split.
  - intros tenant. unfold autosend_condition. rewrite G2.
    destruct (autosend_enabled tenant); done.
  - intros tenant Hcfg. cbv zeta.
    rewrite (routing_rules_defaults clk yaml_safe_load tenant t1 0);
      [|done|by rewrite G3|by rewrite G4|by rewrite G6|by rewrite G2].
    cbv zeta. change (Qlt_bool 0 (1 # 2)) with true. cbn [fst snd].
    split; [done|]. split; [solve_getattr|]. split; [solve_getattr|].
    unfold getattr at 1, setattr. rewrite !lookup_insert_ne by done.
    rewrite lookup_insert_eq. cbn [default from_option id].
    by rewrite G5.
Qed.

(** A decoder of the examples that knows the static default. *)
Definition default_json_loads (s : string) : option pyval :=
  if String.eqb s fallback_default_content then Some fallback_default_dict else None.

Lemma static_default_never_sent_witness :
  autosend_condition (demo_tenant true 0 None)
    (fst (_apply_classification default_json_loads fallback_default_result demo_ticket))
  = Ok false.
Proof.
  destruct (static_default_never_sent default_json_loads scalar_yaml (at_second 0) demo_ticket
              eq_refl) as (_ & _ & _ & _ & _ & _ & H & _).
  apply H.
Defined.

(** ** The two token checks of a cloud task *)

Lemma count_words_nonneg (in_word : bool) (s : string) : 0 <= Py.count_words in_word s.
Proof.
  revert in_word. induction s as [|c s IH]; intros in_word; cbn [Py.count_words]; [lia|].
  destruct (Py.is_space c); [apply IH|].
  specialize (IH true). destruct in_word; lia.
Qed.

Lemma int_of_float_ge (x : Q) (m : Z) : (inject_Z m <= x)%Q -> m <= Py.int_of_float x.
Proof.
  intros H. unfold Py.int_of_float. destruct (Qle_bool 0 x).
  - rewrite <- (Qfloor_Z m). by apply Qfloor_resp_le.
  - rewrite <- (Qceiling_Z m). by apply Qceiling_resp_le.
Qed.


(** ** [update_run_status] *)

